(** * OpenSTF: hyperparameter objective and feature application

    A shallow embedding of [openstf/model/objective.py] and
    [openstf/feature_engineering/apply_features.py].

    Python values are an inductive type, floats are IEEE-754 binary64
    numbers ([spec_float] at precision 53), exceptions are values of a
    result type, and every call into a collaborator (the optuna trial,
    the data splitter, the regressor, the metrics module, the feature
    helpers) is an oracle over an opaque external state whose invocation
    is recorded in a trace. *)

From Stdlib Require Import ZArith String List SpecFloat Lia Sorted.
From stdpp Require Import gmap strings pretty.
Import ListNotations.

Open Scope string_scope.
Open Scope list_scope.
Open Scope Z_scope.

Set Warnings "-register-all".

(* ===================================================================== *)
(** * Python values, exceptions and results                               *)
(* ===================================================================== *)

Module Py.

(** The values a search-space declaration or a data cell can hold. *)
Inductive pyval : Type :=
| VNone
| VBool (b : bool)
| VInt (n : Z)
| VFloat (f : spec_float)
| VStr (s : string)
| VTuple (items : list pyval)
| VList (items : list pyval).

(** The exception classes the code raises or catches by name; any other
    class is written with its name and its base classes. *)
Inductive exn_class : Type :=
| TypeError
| ValueError
| RuntimeError
| IndexError
| OverflowError
| AttributeError
| OtherException (name : string) (bases : list exn_class).

Record exn : Type := mk_exn { exn_kind : exn_class; exn_message : string }.

(** [issubclass(c, AttributeError)]: the class itself, or a class that
    has it among its bases, at any depth. *)
Fixpoint issubclass_AttributeError (c : exn_class) : bool :=
  match c with
  | AttributeError => true
  | OtherException _ bases => existsb issubclass_AttributeError bases
  | _ => false
  end.

Inductive result (A : Type) : Type :=
| Returned (a : A)
| Raised (e : exn).
Arguments Returned {A} a.
Arguments Raised {A} e.

Definition is_raised {A} (r : result A) : bool :=
  match r with Raised _ => true | Returned _ => false end.

(** [isinstance(v, float)], [isinstance(v, int)] (a Python [bool] is an
    [int]), [isinstance(v, tuple)] and [isinstance(v, list)]. *)
Definition isinstance_float (v : pyval) : bool :=
  match v with VFloat _ => true | _ => false end.

Definition isinstance_int (v : pyval) : bool :=
  match v with VInt _ | VBool _ => true | _ => false end.

Definition isinstance_tuple (v : pyval) : bool :=
  match v with VTuple _ => true | _ => false end.

Definition isinstance_list (v : pyval) : bool :=
  match v with VList _ => true | _ => false end.

(** The integer a value of type [int] (or [bool]) stands for. *)
Definition int_value (v : pyval) : option Z :=
  match v with
  | VInt n => Some n
  | VBool b => Some (if b then 1 else 0)
  | _ => None
  end.

Definition type_name (v : pyval) : string :=
  match v with
  | VNone => "NoneType"
  | VBool _ => "bool"
  | VInt _ => "int"
  | VFloat _ => "float"
  | VStr _ => "str"
  | VTuple _ => "tuple"
  | VList _ => "list"
  end.

(** binary64: 53 bits of precision, exponents below 1024. *)
Definition prec : Z := 53.
Definition emax : Z := 1024.

Definition float_of_Z (n : Z) : spec_float := binary_normalize prec emax n 0 false.

Definition is_infinite (f : spec_float) : bool :=
  match f with S754_infinity _ => true | _ => false end.

Definition float_leb (x y : spec_float) : bool := SFleb x y.

(** [float(v)].  An integer is rounded to the nearest double, ties to
    even, and one beyond the double range raises OverflowError; a string
    goes through the interpreter's literal parser [parse], which is not
    part of this repository. *)
Definition py_float (parse : string -> option spec_float) (v : pyval)
  : result spec_float :=
  match v with
  | VFloat f => Returned f
  | VInt n =>
      let f := float_of_Z n in
      if is_infinite f
      then Raised (mk_exn OverflowError "int too large to convert to float")
      else Returned f
  | VBool b => Returned (float_of_Z (if b then 1 else 0))
  | VStr s =>
      match parse s with
      | Some f => Returned f
      | None =>
          Raised (mk_exn ValueError
                    ("could not convert string to float: '" +:+ s +:+ "'"))
      end
  | _ =>
      Raised (mk_exn TypeError
                ("float() argument must be a string or a real number, not '"
                   +:+ type_name v +:+ "'"))
  end.

Fixpoint chars (s : string) : list pyval :=
  match s with
  | EmptyString => []
  | String c s' => VStr (String c EmptyString) :: chars s'
  end.

(** What iterating over a value yields, if it is iterable. *)
Definition py_iter (v : pyval) : option (list pyval) :=
  match v with
  | VTuple l | VList l => Some l
  | VStr s => Some (chars s)
  | _ => None
  end.

(** The unpacking assignment [a, b = v]. *)
Definition unpack2 (v : pyval) : result (pyval * pyval) :=
  match py_iter v with
  | None =>
      Raised (mk_exn TypeError
                ("cannot unpack non-iterable " +:+ type_name v +:+ " object"))
  | Some [a; b] => Returned (a, b)
  | Some l =>
      if (Z.of_nat (length l) <? 2)
      then Raised (mk_exn ValueError
                     ("not enough values to unpack (expected 2, got "
                        +:+ pretty (Z.of_nat (length l)) +:+ ")"))
      else Raised (mk_exn ValueError "too many values to unpack (expected 2)")
  end.

(** A [dict] with string keys: insertion-ordered, one entry per key. *)
Definition dict (V : Type) : Type := list (string * V).

Definition keys {V} (d : dict V) : list string := map fst d.

(** [d[k] = v]: overwrite in place when [k] is present, else append. *)
Fixpoint dict_set {V} (d : dict V) (k : string) (v : V) : dict V :=
  match d with
  | [] => [(k, v)]
  | (k', v') :: d' =>
      if String.eqb k' k then (k', v) :: d' else (k', v') :: dict_set d' k v
  end.

(** [d.update(other)]. *)
Definition dict_update {V} (d other : dict V) : dict V :=
  fold_left (fun acc kv => dict_set acc (fst kv) (snd kv)) other d.

(** [x in l] for a list of strings. *)
Definition str_in (x : string) (l : list string) : bool :=
  existsb (String.eqb x) l.

(** Index normalisation of [l[i]]: a negative [i] counts from the end. *)
Definition py_getitem {A} (l : list A) (i : Z) : option A :=
  let n := Z.of_nat (length l) in
  let j := if i <? 0 then i + n else i in
  if (j <? 0) || (n <=? j) then None else nth_error l (Z.to_nat j).

(** The slice [l[start:stop]] with step 1. *)
Definition py_slice {A} (l : list A) (start stop : Z) : list A :=
  let n := Z.of_nat (length l) in
  let clamp i := Z.max 0 (Z.min n (if i <? 0 then i + n else i)) in
  let lo := clamp start in
  let hi := clamp stop in
  firstn (Z.to_nat (hi - lo)) (skipn (Z.to_nat lo) l).

(** Substring test, used to inspect exception messages. *)
Fixpoint is_prefix (p s : string) : bool :=
  match p, s with
  | EmptyString, _ => true
  | String a p', String b s' => Ascii.eqb a b && is_prefix p' s'
  | String _ _, EmptyString => false
  end.

Fixpoint contains (s sub : string) : bool :=
  is_prefix sub s ||
  match s with
  | EmptyString => false
  | String _ s' => contains s' sub
  end.

(** Statements run on a state [S] and either return or raise; an
    exception leaves the state as it was when raised. *)
Definition St (S A : Type) : Type := S -> result A * S.

Definition ret {S A} (a : A) : St S A := fun w => (Returned a, w).

Definition raise {S A} (e : exn) : St S A := fun w => (Raised e, w).

Definition bind {S A B} (m : St S A) (k : A -> St S B) : St S B :=
  fun w =>
    match m w with
    | (Returned a, w') => k a w'
    | (Raised e, w') => (Raised e, w')
    end.

Definition lift {S A} (r : result A) : St S A := fun w => (r, w).

End Py.
Export Py.

Declare Scope py_scope.
Delimit Scope py_scope with py.
Notation "'let*' x ':=' m 'in' k" := (bind m (fun x => k))
  (at level 10, x pattern, m at level 100, k at level 200) : py_scope.
Open Scope py_scope.

(* ===================================================================== *)
(** * Data frames                                                         *)
(* ===================================================================== *)

Module Pandas.

(** An entry of a DatetimeIndex with the calendar accessors the feature
    functions read ([weekday] counts from Monday = 0). *)
Record timestamp : Type := mk_timestamp {
  ts_value : Z;
  ts_weekday : Z;
  ts_month : Z;
  ts_quarter : Z
}.

(** A DataFrame: a time index and the labelled columns, in order. *)
Record frame : Type := mk_frame {
  index : list timestamp;
  columns : list (string * list pyval)
}.

Record series : Type := mk_series {
  s_index : list timestamp;
  s_name : string;
  s_values : list pyval
}.

Definition column_names (fr : frame) : list string := map fst (columns fr).

Definition out_of_bounds : exn :=
  mk_exn IndexError "single positional indexer is out-of-bounds".

(** [df.columns[i]]. *)
Definition columns_getitem (fr : frame) (i : Z) : result string :=
  match py_getitem (column_names fr) i with
  | Some c => Returned c
  | None =>
      Raised (mk_exn IndexError
                ("index " +:+ pretty i +:+ " is out of bounds for axis 0 with size "
                   +:+ pretty (Z.of_nat (length (columns fr)))))
  end.

(** [df.iloc[:, i]]. *)
Definition iloc_col (fr : frame) (i : Z) : result series :=
  match py_getitem (columns fr) i with
  | Some (name, vals) => Returned (mk_series (index fr) name vals)
  | None => Raised out_of_bounds
  end.

(** [df.iloc[:, start:stop]]. *)
Definition iloc_slice (fr : frame) (start stop : Z) : frame :=
  mk_frame (index fr) (py_slice (columns fr) start stop).

(** [df.iloc[:, [i]]]. *)
Definition iloc_list1 (fr : frame) (i : Z) : result frame :=
  match py_getitem (columns fr) i with
  | Some c => Returned (mk_frame (index fr) [c])
  | None => Raised (mk_exn IndexError "positional indexers are out-of-bounds")
  end.

(** How many columns carry the label [key]. *)
Definition label_count (key : string) (fr : frame) : nat :=
  length (List.filter (String.eqb key) (column_names fr)).

Definition same_length_error : exn :=
  mk_exn ValueError "Columns must be same length as key".

(** [df[key] = value] for a frame [value] of one column that has the rows
    of [df] and the values [vals]: a new last column when no column is
    labelled [key], that column overwritten when one is, and pandas'
    ValueError when several are. *)
Definition setitem (fr : frame) (key : string) (vals : list pyval)
  : result frame :=
  match label_count key fr with
  | O => Returned (mk_frame (index fr) (columns fr ++ [(key, vals)]))
  | S O =>
      Returned
        (mk_frame (index fr)
           (map (fun c => if String.eqb (fst c) key then (fst c, vals) else c)
                (columns fr)))
  | _ => Raised same_length_error
  end.

(** The labels after a successful assignment to the label [k]. *)
Definition add_name (names : list string) (k : string) : list string :=
  if str_in k names then names else names ++ [k].

End Pandas.
Export Pandas.

(* ===================================================================== *)
(** * objective.py                                                        *)
(* ===================================================================== *)

Module Objective.

Definition EARLY_STOPPING_ROUNDS : Z := 10.
(** The double nearest to 0.1. *)
Definition TEST_FRACTION : spec_float := S754_finite false 7205759403792794 (-56).
Definition VALIDATION_FRACTION : spec_float := S754_finite false 7205759403792794 (-56).
Definition EVAL_METRIC : string := "mae".

Inductive MLModelType : Type := XGB.

(** An opaque Python object (a callback, a function), by identity. *)
Definition handle : Type := Z.

(** The keyword arguments of [model.fit]. *)
Record fit_call : Type := mk_fit_call {
  fit_x : frame;
  fit_y : series;
  fit_eval_set : list (frame * series);
  fit_early_stopping_rounds : Z;
  fit_verbose : bool;
  fit_eval_metric : string;
  fit_callbacks : list handle
}.

(** One entry of the trace per call that leaves the objective. *)
Inductive event : Type :=
| EvStop
| EvSplit (data : frame) (test_fraction validation_fraction : spec_float)
          (backtest : bool)
| EvSuggestFloat (key : string) (low high : spec_float) (log : pyval)
| EvSuggestInt (key : string) (low high : pyval)
| EvSuggestCategorical (key : string) (choices : list pyval)
| EvPruning (kwargs : dict pyval)
| EvSetParams (params : dict pyval)
| EvFit (c : fit_call)
| EvPredict (x : frame)
| EvEval (expr : string)
| EvCall (f : handle) (y_true : series) (y_pred : pyval)
| EvPrint (msg : string).

Section WithExternalState.

(** The state of everything outside the objective: the sampler of the
    study, the regressor, the metrics module. *)
Context {E : Type}.

(** [clock] is what [datetime.utcnow()] reads, in microseconds;
    [stop_requested] is the flag [study.stop()] sets for the driver. *)
Record world : Type := mk_world {
  clock : Z;
  stop_requested : bool;
  trace : list event;
  ext : E
}.

Definition M (A : Type) : Type := St world A.

Definition log_event (ev : event) (w : world) : world :=
  mk_world (clock w) (stop_requested w) (trace w ++ [ev]) (ext w).

Definition set_ext (e : E) (w : world) : world :=
  mk_world (clock w) (stop_requested w) (trace w) e.

(** A call to a collaborator: recorded, then run on the external state. *)
Definition call {A} (ev : event) (f : E -> result A * E) : M A :=
  fun w =>
    let w1 := log_event ev w in
    let (r, e') := f (ext w1) in (r, set_ext e' w1).

Definition utcnow : M Z := fun w => (Returned (clock w), w).

(** [trial.study.stop()]: the study notes the request in a flag that its
    optimize loop reads once the running trial is over. *)
Definition study_stop : M unit :=
  fun w =>
    let w1 := log_event EvStop w in
    (Returned tt, mk_world (clock w1) true (trace w1) (ext w1)).

Definition print (msg : string) : M unit :=
  fun w => (Returned tt, log_event (EvPrint msg) w).

(** What [except AttributeError] catches: an instance of the class or of
    a class derived from it. *)
Definition is_AttributeError (e : exn) : bool :=
  issubclass_AttributeError (exn_kind e).

(** [try: body  except AttributeError: handler]. *)
Definition try_except_AttributeError {A} (body handler : M A) : M A :=
  fun w =>
    match body w with
    | (Raised e, w') =>
        if is_AttributeError e then handler w' else (Raised e, w')
    | r => r
    end.

End WithExternalState.

Arguments world E : clear implicits.
Arguments M E A : clear implicits.

(** [datetime.timedelta(minutes=.., seconds=..)] in microseconds. *)
Definition timedelta (minutes seconds : Z) : Z :=
  (minutes * 60 + seconds) * 1000000.

(** The part of [optuna.trial.Trial] the objective uses. *)
Record Trial (E : Type) : Type := mk_Trial {
  suggest_float : string -> spec_float -> spec_float -> pyval -> E -> result pyval * E;
  suggest_int : string -> pyval -> pyval -> E -> result pyval * E;
  suggest_categorical : string -> list pyval -> E -> result pyval * E
}.
Arguments suggest_float {E} t.
Arguments suggest_int {E} t.
Arguments suggest_categorical {E} t.

(** The regressor interface. *)
Class OpenstfRegressorInterface (E : Type) : Type := {
  set_params : dict pyval -> E -> result unit * E;
  fit : fit_call -> E -> result unit * E;
  predict : frame -> E -> result pyval * E
}.

(** What the module imports or takes from the interpreter. *)
Record Runtime (E : Type) : Type := mk_Runtime {
  parse_float : string -> option spec_float;
  split_data_train_validation_test :
    frame -> spec_float -> spec_float -> bool -> E -> result (frame * frame * frame) * E;
  py_eval : string -> E -> result handle * E;
  py_apply : handle -> series -> pyval -> E -> result pyval * E
}.
Arguments parse_float {E} r.
Arguments split_data_train_validation_test {E} r.
Arguments py_eval {E} r.
Arguments py_apply {E} r.

(** The attributes [__init__] stores on the instance. *)
Record RegressorObjective (E : Type) : Type := mk_RegressorObjective {
  input_data : frame;
  model : OpenstfRegressorInterface E;
  pruning_function : Trial E -> dict pyval -> E -> result handle * E;
  model_params : dict pyval;
  start_time : Z;
  test_fraction : spec_float;
  validation_fraction : spec_float;
  eval_metric : string;
  verbose : bool;
  args_eval : dict pyval;
  model_type : option MLModelType
}.
Arguments input_data {E} r.
Arguments model {E} r.
Arguments pruning_function {E} r.
Arguments model_params {E} r.
Arguments start_time {E} r.
Arguments test_fraction {E} r.
Arguments validation_fraction {E} r.
Arguments eval_metric {E} r.
Arguments verbose {E} r.
Arguments args_eval {E} r.
Arguments model_type {E} r.

Section Sampler.

Context {E : Type}.
Variable rt : Runtime E.

(** [RegressorObjective.process_tuple]. *)
Definition process_tuple (trial : Trial E) (key : string) (value : pyval)
  : M E pyval :=
  let* (tup, log) := lift (unpack2 value) in
  let* (startValue, endValue) := lift (unpack2 tup) in
  let error :=
    "input values for the tuple can be float/float, float/int, int/float, int/int" in
  if isinstance_float startValue || isinstance_float endValue then
    let* low := lift (py_float (parse_float rt) startValue) in
    let* high := lift (py_float (parse_float rt) endValue) in
    call (EvSuggestFloat key low high log) (suggest_float trial key low high log)
  else if isinstance_int startValue && isinstance_int endValue then
    call (EvSuggestInt key startValue endValue)
         (suggest_int trial key startValue endValue)
  else
    raise (mk_exn TypeError error).

(** The body of the [for key, value in model_params.items()] loop of
    [get_trial_parameters], over the items still to visit. *)
Fixpoint get_trial_parameters_loop (trial : Trial E)
    (items : list (string * pyval)) (param : dict pyval) : M E (dict pyval) :=
  match items with
  | [] => ret param
  | (key, value) :: rest =>
      if isinstance_tuple value then
        let* v := process_tuple trial key value in
        get_trial_parameters_loop trial rest (dict_set param key v)
      else
        match value with
        | VList choices =>
            let* v := call (EvSuggestCategorical key choices)
                           (suggest_categorical trial key choices) in
            get_trial_parameters_loop trial rest (dict_set param key v)
        | _ => raise (mk_exn TypeError "Possible input values: tuple, list")
        end
  end.

(** [RegressorObjective.get_trial_parameters]. *)
Definition get_trial_parameters (model_params : dict pyval) (trial : Trial E)
  : M E (dict pyval) :=
  get_trial_parameters_loop trial model_params [].

End Sampler.

Section Call.

Context {E : Type}.
Variable rt : Runtime E.

(** [RegressorObjective.__init__] with its defaults. *)
Definition RegressorObjective_init (input_data : frame)
    (model : OpenstfRegressorInterface E)
    (pruning_function : Trial E -> dict pyval -> E -> result handle * E)
    (model_params : dict pyval) (start_time : Z) : RegressorObjective E :=
  mk_RegressorObjective E input_data model pruning_function model_params
    start_time TEST_FRACTION VALIDATION_FRACTION EVAL_METRIC false [] None.

(** [XGBRegressorObjective.__init__]. *)
Definition XGBRegressorObjective_init (base : RegressorObjective E)
  : RegressorObjective E :=
  mk_RegressorObjective E (input_data base) (model base)
    (pruning_function base) (model_params base) (start_time base)
    (test_fraction base) (validation_fraction base) (eval_metric base)
    (verbose base) (args_eval base) (Some XGB).

Definition column_order_error : exn :=
  mk_exn RuntimeError
    ("Column order in train input data not as expected, "
       +:+ "could not train a model!").

(** Lines 129-134: the test on the first and last column label of the
    train fold ([or] evaluates its right operand only when needed). *)
Definition check_column_order (train_data : frame) : M E unit :=
  let* first := lift (columns_getitem train_data 0) in
  let* bad :=
    (if negb (String.eqb first "load") then ret true
     else let* last := lift (columns_getitem train_data (-1)) in
          ret (negb (String.eqb last "horizon"))) in
  if (bad : bool) then raise column_order_error else ret tt.

(** Lines 136-139: one fold into features and target. *)
Definition split_x_y (data : frame) : M E (frame * series) :=
  let x := iloc_slice data 1 (-1) in
  let* y := lift (iloc_col data 0) in
  ret (x, y).

(** Lines 166-171: the metric lookup and its handler; falling off the
    end of the function returns [None]. *)
Definition evaluate_metric (self : RegressorObjective E)
    (test_y : series) (forecast_y : pyval) : M E pyval :=
  try_except_AttributeError
    (let loss := "openstf.metrics.metrics." +:+ eval_metric self in
     let* f := call (EvEval loss) (py_eval rt loss) in
     let* metric := call (EvCall f test_y forecast_y)
                         (py_apply rt f test_y forecast_y) in
     ret metric)
    (let* _ := print "loss function is not defined in openstf.metrics.metrics" in
     ret VNone).

(** Lines 129-171: the work on the three folds. *)
Definition evaluate_folds (self : RegressorObjective E) (trial : Trial E)
    (train_data validation_data test_data : frame) : M E pyval :=
  let* _ := check_column_order train_data in
  let* (train_x, train_y) := split_x_y train_data in
  let* (valid_x, valid_y) := split_x_y validation_data in
  let* (test_x, test_y) := split_x_y test_data in
  let eval_set := [(train_x, train_y); (valid_x, valid_y)] in
  let* param := get_trial_parameters rt (model_params self) trial in
  let* pruning_callback :=
    call (EvPruning (args_eval self))
         (pruning_function self trial (args_eval self)) in
  let* _ := call (EvSetParams param) (@set_params E (model self) param) in
  let fc := mk_fit_call train_x train_y eval_set EARLY_STOPPING_ROUNDS
              (verbose self) (eval_metric self) [pruning_callback] in
  let* _ := call (EvFit fc) (@fit E (model self) fc) in
  let* forecast_y := call (EvPredict test_x) (@predict E (model self) test_x) in
  evaluate_metric self test_y forecast_y.

(** Lines 121-171: everything after the elapsed-time check. *)
Definition run_trial (self : RegressorObjective E) (trial : Trial E)
  : M E pyval :=
  let* (train_data, validation_data, test_data) :=
    call (EvSplit (input_data self) (test_fraction self)
                  (validation_fraction self) true)
         (split_data_train_validation_test rt (input_data self)
            (test_fraction self) (validation_fraction self) true) in
  evaluate_folds self trial train_data validation_data test_data.

(** [RegressorObjective.__call__]. *)
Definition __call__ (self : RegressorObjective E) (trial : Trial E)
  : M E pyval :=
  let* now := utcnow in
  let elapsed := now - start_time self in
  let* _ := (if elapsed >? timedelta 2 0 then study_stop else ret tt) in
  run_trial self trial.

End Call.

End Objective.

(* ===================================================================== *)
(** * apply_features.py                                                   *)
(* ===================================================================== *)

Module ApplyFeatures.

(** DataFrames are mutable objects: a variable holds a reference, and the
    store maps each live reference to the frame's current contents. *)
Definition ref : Type := positive.

(** [computed] lists the feature names whose function was applied and
    [assigned] those whose column was written, in the order it happened. *)
Record heap : Type := mk_heap {
  store : gmap ref frame;
  computed : list string;
  assigned : list string
}.

(** A feature function, as [DataFrame.apply] calls it on a frame that
    has rows: from the one column handed over to the values of the column
    [apply] returns, in the order of the rows. *)
Definition featfunc : Type := series -> result (list pyval).

(** What the function uses and this repository part does not hold: the
    helpers imported from the sibling feature modules (the weather helpers
    receive the frame by reference), and pandas where line 83 leaves the
    path modelled here.  On a frame without rows [apply] does not hand
    column 0 to the function: it tries the function on an empty Series of
    its own, discards an exception of that trial, and goes on by the kind
    of the result; and a result that has not one value per row is aligned
    on the row labels.  What the assignment to the label does then is
    [assign_off_axis]: the exception raised, or else the index the frame
    has afterwards and the values under each of its labels. *)
Record Helpers : Type := mk_Helpers {
  generate_lag_feature_functions :
    option (list string) -> spec_float -> result (dict featfunc);
  generate_holiday_feature_functions : result (dict featfunc);
  add_additional_wind_features :
    ref -> option (list string) -> gmap ref frame -> result ref * gmap ref frame;
  add_humidity_features :
    ref -> option (list string) -> gmap ref frame -> result ref * gmap ref frame;
  assign_off_axis :
    string -> featfunc -> frame -> result (list timestamp * (string -> list pyval))
}.

Definition on_index (f : timestamp -> pyval) : featfunc :=
  fun x => Returned (map f (s_index x)).

(** The five lambdas of lines 66-70. *)
Definition IsWeekendDay : featfunc :=
  on_index (fun t => VBool (ts_weekday t / 5 =? 1)).
Definition IsWeekDay : featfunc :=
  on_index (fun t => VBool (ts_weekday t <? 5)).
Definition IsSunday : featfunc :=
  on_index (fun t => VBool (ts_weekday t =? 6)).
Definition Month : featfunc := on_index (fun t => VInt (ts_month t)).
Definition Quarter : featfunc := on_index (fun t => VInt (ts_quarter t)).

Definition time_driven_feature_functions : dict featfunc :=
  [ ("IsWeekendDay", IsWeekendDay);
    ("IsWeekDay", IsWeekDay);
    ("IsSunday", IsSunday);
    ("Month", Month);
    ("Quarter", Quarter) ].

Definition dangling : exn :=
  mk_exn (OtherException "ReferenceError" []) "no such object".

(** Reading the object behind a reference. *)
Definition deref (data : ref) : St heap frame :=
  fun h =>
    match store h !! data with
    | Some fr => (Returned fr, h)
    | None => (Raised dangling, h)
    end.

Definition note_computed (key : string) : St heap unit :=
  fun h => (Returned tt, mk_heap (store h) (computed h ++ [key]) (assigned h)).

(** [data.iloc[:, [0]].apply(featfunc)].  On a frame with rows the
    function sees column 0, and its values, one per row, are what goes to
    the assignment ([Some]); without rows, or with another number of
    values, the assignment is off that path ([None]). *)
Definition apply_column0 (key : string) (f : featfunc) (fr : frame)
  : St heap (option (list pyval)) :=
  let* one := lift (iloc_list1 fr 0) in
  match index fr with
  | [] =>
      let* _ := note_computed key in
      ret None
  | _ :: _ =>
      let* x := lift (iloc_col one 0) in
      let* _ := note_computed key in
      let* vals := lift (f x) in
      ret (if Nat.eqb (length vals) (length (index fr)) then Some vals else None)
  end.

(** The frame an assignment off the regular path leaves: the labels are
    those of an assignment to [key], index and values are pandas'. *)
Definition off_axis_frame (fr : frame) (key : string)
    (after : list timestamp * (string -> list pyval)) : frame :=
  mk_frame (fst after)
    (map (fun name => (name, snd after name)) (add_name (column_names fr) key)).

(** [data[key] = value]: the object behind [data] is updated in place,
    unless the assignment raises. *)
Definition setitem_in_place (env : Helpers) (data : ref) (key : string)
    (f : featfunc) (value : option (list pyval)) : St heap unit :=
  fun h =>
    match store h !! data with
    | Some fr =>
        match
          match value with
          | Some vals => setitem fr key vals
          | None =>
              match assign_off_axis env key f fr with
              | Returned after => Returned (off_axis_frame fr key after)
              | Raised e => Raised e
              end
          end
        with
        | Returned fr' =>
            (Returned tt,
             mk_heap (<[data := fr']> (store h)) (computed h)
               (assigned h ++ [key]))
        | Raised e => (Raised e, h)
        end
    | None => (Raised dangling, h)
    end.

(** Line 83: [data[key] = data.iloc[:, [0]].apply(featfunc)]. *)
Definition assign_feature (env : Helpers) (data : ref) (key : string)
    (f : featfunc) : St heap unit :=
  let* fr := deref data in
  let* value := apply_column0 key f fr in
  setitem_in_place env data key f value.

(** Lines 80-83: the loop over [feature_functions.items()]. *)
Fixpoint add_features_loop (env : Helpers) (data : ref) (features : list string)
    (items : list (string * featfunc)) : St heap unit :=
  match items with
  | [] => ret tt
  | (key, f) :: rest =>
      if negb (str_in key features) then add_features_loop env data features rest
      else
        let* _ := assign_feature env data key f in
        add_features_loop env data features rest
  end.

Definition call_helper
    (f : gmap ref frame -> result ref * gmap ref frame) : St heap ref :=
  fun h => let (r, st') := f (store h) in (r, mk_heap st' (computed h) (assigned h)).

(** Lines 60-75: the table of feature functions. *)
Definition feature_table (env : Helpers) (features : option (list string))
    (horizon : spec_float) : result (dict featfunc) :=
  match generate_lag_feature_functions env features horizon with
  | Raised e => Raised e
  | Returned lag =>
      let feature_functions := dict_update lag time_driven_feature_functions in
      match generate_holiday_feature_functions env with
      | Raised e => Raised e
      | Returned holiday => Returned (dict_update feature_functions holiday)
      end
  end.

(** Lines 85-92: the wind and humidity helpers, and the return. *)
Definition weather_steps (env : Helpers) (data : ref)
    (features : option (list string)) : St heap ref :=
  let* data := call_helper (add_additional_wind_features env data features) in
  let* data := call_helper (add_humidity_features env data features) in
  ret data.

(** [apply_features(data, features, horizon)]. *)
Definition apply_features (env : Helpers) (data : ref)
    (features : option (list string)) (horizon : spec_float) : St heap ref :=
  let* feature_functions := lift (feature_table env features horizon) in
  let* _ :=
    match features with
    | Some requested => add_features_loop env data requested feature_functions
    | None => ret tt
    end in
  weather_steps env data features.

(** A helper never removes a column from a frame that is in the store. *)
Definition keeps_columns
    (f : ref -> option (list string) -> gmap ref frame -> result ref * gmap ref frame)
  : Prop :=
  forall data features st r st',
    f data features st = (r, st') ->
    forall (l : ref) fr, st !! l = Some fr ->
      exists fr', st' !! l = Some fr' /\ column_names fr ⊆ column_names fr'.

Definition helpers_keep_columns (env : Helpers) : Prop :=
  keeps_columns (add_additional_wind_features env)
  /\ keeps_columns (add_humidity_features env).

Definition is_requested (requested : list string) (k : string) : Prop :=
  str_in k requested = true.

(** The names of a feature table that are in the list of requested
    features, in the order of the table. *)
Definition requested_keys (table : dict featfunc) (requested : list string)
  : list string :=
  filter (fun k => str_in k requested = true) (keys table).

(** The default [horizon=24.0]. *)
Definition default_horizon : spec_float := float_of_Z 24.

End ApplyFeatures.

(* ===================================================================== *)
(** * Reasoning about runs of the objective                               *)
(* ===================================================================== *)

Module TraceLogic.
Import Objective.

Section Defs.
Context {E : Type}.

(** Started on the external state [e], the statement [m] yields [r],
    records the events [evs] and leaves the external state [e'],
    whatever the clock, the stop flag and the earlier trace are. *)
Definition runs {A} (m : M E A) (e : E) (r : result A)
    (evs : list event) (e' : E) : Prop :=
  forall c s t, m (mk_world c s t e) = (r, mk_world c s (t ++ evs) e').

Definition triple {A} (m : M E A) (e : E)
    (Q : result A -> list event -> E -> Prop) : Prop :=
  exists r evs e', runs m e r evs e' /\ Q r evs e'.

Definition uniform {A} (m : M E A) : Prop :=
  forall e, triple m e (fun _ _ _ => True).

(** The contract of the driver's numeric primitives: a value they
    return lies between the bounds they were given. *)
Definition samples_within_bounds (trial : Trial E) : Prop :=
  (forall key low high log e v e',
      suggest_float trial key low high log e = (Returned v, e') ->
      exists x, v = VFloat x /\ float_leb low x = true /\ float_leb x high = true)
  /\ (forall key lo hi e v e',
        suggest_int trial key lo hi e = (Returned v, e') ->
        exists n a b, v = VInt n /\ int_value lo = Some a /\ int_value hi = Some b
                      /\ a <= n <= b).

(** A declaration as the spec calls it well-formed: an ordered pair with
    numeric bounds, or a categorical collection. *)
Definition is_number (v : pyval) : bool := isinstance_float v || isinstance_int v.

Definition numeric_pair_or_list (value : pyval) : bool :=
  match value with
  | VTuple [bounds; _] =>
      match unpack2 bounds with
      | Returned (lo, hi) => is_number lo && is_number hi
      | Raised _ => false
      end
  | VList _ => true
  | _ => false
  end.

(** A declaration the sampler can use: a pair [low <= high] of integers,
    or a pair with a float bound whose two bounds convert with [float()]
    to [low <= high], or a collection with at least one choice. *)
Definition usable_declaration (parse : string -> option spec_float)
    (value : pyval) : bool :=
  match value with
  | VTuple [bounds; _] =>
      match unpack2 bounds with
      | Returned (lo, hi) =>
          if isinstance_float lo || isinstance_float hi then
            match py_float parse lo, py_float parse hi with
            | Returned low, Returned high => float_leb low high
            | _, _ => false
            end
          else
            match int_value lo, int_value hi with
            | Some a, Some b => a <=? b
            | _, _ => false
            end
      | Raised _ => false
      end
  | VList choices => match choices with [] => false | _ :: _ => true end
  | _ => false
  end.

(** The driver's primitives return a value whenever the range, or the
    collection, they are given is not empty. *)
Definition primitives_return (trial : Trial E) : Prop :=
  (forall key low high log e,
      float_leb low high = true ->
      exists v e', suggest_float trial key low high log e = (Returned v, e'))
  /\ (forall key lo hi a b e,
        int_value lo = Some a -> int_value hi = Some b -> a <= b ->
        exists v e', suggest_int trial key lo hi e = (Returned v, e'))
  /\ (forall key choices e,
        choices <> [] ->
        exists v e', suggest_categorical trial key choices e = (Returned v, e')).

(** The key of a sampling event. *)
Definition suggest_key (ev : event) : option string :=
  match ev with
  | EvSuggestFloat k _ _ _ | EvSuggestInt k _ _ | EvSuggestCategorical k _ => Some k
  | _ => None
  end.

Definition is_fit (ev : event) : bool :=
  match ev with EvFit _ => true | _ => false end.

(** An event of the sampler. *)
Definition sampling_event (ev : event) : Prop :=
  match suggest_key ev with Some _ => True | None => False end.

(** An event of the metric lookup on the target [y_true]. *)
Definition metric_event (y_true : series) (ev : event) : Prop :=
  match ev with
  | EvEval _ | EvPrint _ => True
  | EvCall _ y _ => y = y_true
  | _ => False
  end.

(** The call to the splitter, as the trace records it. *)
Definition split_event (self : RegressorObjective E) : event :=
  EvSplit (input_data self) (test_fraction self) (validation_fraction self) true.

(** The exception of line 51. *)
Definition bounds_error : exn :=
  mk_exn TypeError
    "input values for the tuple can be float/float, float/int, int/float, int/int".

(** The declaration [((lo, hi), log)]. *)
Definition pair_decl (lo hi log : pyval) : pyval := VTuple [VTuple [lo; hi]; log].

(** The exception of line 78. *)
Definition shape_error : exn :=
  mk_exn TypeError "Possible input values: tuple, list".

(** The expression line 168 evaluates. *)
Definition metric_path (self : RegressorObjective E) : string :=
  "openstf.metrics.metrics." +:+ eval_metric self.

(** What line 171 prints. *)
Definition not_defined_message : string :=
  "loss function is not defined in openstf.metrics.metrics".

(** What the elapsed-time check of lines 117-119 records. *)
Definition budget_events (self : RegressorObjective E) (w : world E)
  : list event :=
  if clock w - start_time self >? timedelta 2 0 then [EvStop] else [].

(** The world in which the body of a trial starts: the stop signal, if
    the budget is spent, is the only thing that precedes it. *)
Definition after_budget_check (self : RegressorObjective E) (w : world E)
  : world E :=
  mk_world (clock w)
    ((clock w - start_time self >? timedelta 2 0) || stop_requested w)
    (trace w ++ budget_events self w) (ext w).

(** The spec's reading of a fold: the feature matrix is every column
    but the first and the last, the target is the first column. *)
Definition features_of (fold : frame) : frame :=
  mk_frame (index fold) (removelast (tail (columns fold))).

Definition target_of (fold : frame) : option series :=
  match columns fold with
  | (name, vals) :: _ => Some (mk_series (index fold) name vals)
  | [] => None
  end.

(** What a call to the regressor or to the metric may be handed, given
    the three folds of the trial. *)
Definition split_by_position (train validation test : frame) (ev : event)
  : Prop :=
  match ev with
  | EvFit c =>
      fit_x c = features_of train
      /\ target_of train = Some (fit_y c)
      /\ exists valid_y,
          target_of validation = Some valid_y
          /\ fit_eval_set c =
              [(features_of train, fit_y c); (features_of validation, valid_y)]
  | EvPredict x => x = features_of test
  | EvCall _ y_true _ => target_of test = Some y_true
  | _ => True
  end.

End Defs.

End TraceLogic.

(* ===================================================================== *)
(** * A concrete environment                                              *)
(* ===================================================================== *)

(** Small collaborators on which the statements below are evaluated: the
    external state is a counter of the calls made so far. *)
Module Examples.
Import Objective.

Definition tick {A} (r : result A) : Z -> result A * Z := fun n => (r, n + 1).

(** A sampler that always proposes the lower bound, or the first choice,
    and rejects an empty range or an empty set of choices. *)
Definition lower_bound_trial : Trial Z :=
  mk_Trial Z
    (fun _ low high _ =>
       tick (if float_leb low high then Returned (VFloat low)
             else Raised (mk_exn ValueError "low is greater than high")))
    (fun _ low high =>
       tick (match int_value low, int_value high with
             | Some a, Some b =>
                 if a <=? b then Returned (VInt a)
                 else Raised (mk_exn ValueError "low is greater than high")
             | _, _ => Raised (mk_exn TypeError "bounds must be integers")
             end))
    (fun _ choices =>
       tick (match choices with
             | c :: _ => Returned c
             | [] => Raised (mk_exn ValueError "no choices")
             end)).

Definition constant_model : OpenstfRegressorInterface Z :=
  {| set_params := fun _ => tick (Returned tt);
     fit := fun _ => tick (Returned tt);
     predict := fun _ => tick (Returned (VList [])) |}.

Definition some_callback : handle := 7.
Definition mae_function : handle := 1.

Definition hour (n : Z) : timestamp := mk_timestamp (3600 * n) 0 1 1.

Definition one := VFloat (float_of_Z 1).
Definition two := VFloat (float_of_Z 2).
(** 1.5 *)
Definition three_halves : spec_float := binary_normalize prec emax 3 (-1) false.

Definition ordered_frame : frame :=
  mk_frame [hour 0; hour 1]
    [("load", [one; two]); ("temp", [two; one]); ("horizon", [one; one])].

Definition misordered_frame : frame :=
  mk_frame [hour 2] [("horizon", [one]); ("temp", [two]); ("load", [two])].

Definition no_columns_frame : frame := mk_frame [hour 2] [].

(** The metrics module of the examples defines [mae] only. *)
Definition eval_in_metrics (expr : string) : result handle :=
  if String.eqb expr "openstf.metrics.metrics.mae" then Returned mae_function
  else Raised (mk_exn AttributeError
                 "module 'openstf.metrics.metrics' has no attribute of that name").

(** A runtime whose splitter hands out the three given folds.  Its
    literal parser knows no literal: no example converts a string. *)
Definition runtime_with (train validation test : frame) : Runtime Z :=
  mk_Runtime Z
    (fun _ => None)
    (fun _ _ _ _ => tick (Returned (train, validation, test)))
    (fun expr => tick (eval_in_metrics expr))
    (fun _ _ _ => tick (Returned (VFloat (float_of_Z 0)))).

Definition demo_runtime : Runtime Z :=
  runtime_with ordered_frame ordered_frame ordered_frame.

(** [{"eta": ((1.0, 2.0), False), "max_depth": ((3, 10), False),
      "booster": ["gbtree", "dart"]}] *)
Definition demo_space : dict pyval :=
  [ ("eta", VTuple [VTuple [one; two]; VBool false]);
    ("max_depth", VTuple [VTuple [VInt 3; VInt 10]; VBool false]);
    ("booster", VList [VStr "gbtree"; VStr "dart"]) ].

Definition objective_at (start : Z) (space : dict pyval) (metric : string)
  : RegressorObjective Z :=
  mk_RegressorObjective Z ordered_frame constant_model
    (fun _ _ => tick (Returned some_callback))
    space start TEST_FRACTION VALIDATION_FRACTION metric false [] None.

Definition demo_objective : RegressorObjective Z :=
  objective_at 0 demo_space EVAL_METRIC.

Definition minutes (n : Z) : Z := timedelta n 0.

(** Helpers for [apply_features]: one lag feature that repeats the load,
    one holiday feature that is never true, weather helpers that find no
    weather column and hand the frame back as it is, and an assignment off
    the regular path that leaves empty columns. *)
Definition plain_helpers : ApplyFeatures.Helpers :=
  ApplyFeatures.mk_Helpers
    (fun _ _ => Returned [("T-1d", fun x => Returned (s_values x))])
    (Returned [("IsNationalHoliday",
                fun x => Returned (map (fun _ => VBool false) (s_index x)))])
    (fun data _ st => (Returned data, st))
    (fun data _ st => (Returned data, st))
    (fun _ _ fr => Returned (index fr, fun _ => [])).

Definition load_frame : frame :=
  mk_frame [mk_timestamp 0 5 1 1; mk_timestamp 86400 6 1 1]
    [("load", [one; two])].

(** A store with one frame, which the caller holds as reference 1. *)
Definition caller_data : ApplyFeatures.ref := 1%positive.

Definition one_frame_heap : ApplyFeatures.heap :=
  ApplyFeatures.mk_heap {[ caller_data := load_frame ]} [] [].

(** A world whose clock reads [now] microseconds. *)
Definition world_at (now : Z) : world Z := mk_world now false [] 0.

End Examples.

(* ===================================================================== *)
(** * XGBRegressorObjective.get_params                                    *)
(* ===================================================================== *)

Module XGB.
Import Objective.

(** The doubles nearest to the literals 0.01, 0.2, 0.5, 1.0 and 0.0. *)
Definition lit_0_01 : spec_float := S754_finite false 5764607523034235 (-59).
Definition lit_0_2 : spec_float := S754_finite false 7205759403792794 (-55).
Definition lit_0_5 : spec_float := S754_finite false 4503599627370496 (-53).
Definition lit_1_0 : spec_float := S754_finite false 4503599627370496 (-52).
Definition lit_0_0 : spec_float := S754_zero false.

Section GetParams.
Context {E : Type}.

(** [trial.suggest_float(name, low, high)]: [log] keeps its default. *)
Definition suggest_float_plain (trial : Trial E) (name : string)
    (low high : spec_float) : M E pyval :=
  call (EvSuggestFloat name low high (VBool false))
       (suggest_float trial name low high (VBool false)).

(** [trial.suggest_int(name, low, high)] on integer literals. *)
Definition suggest_int_plain (trial : Trial E) (name : string) (low high : Z)
  : M E pyval :=
  call (EvSuggestInt name (VInt low) (VInt high))
       (suggest_int trial name (VInt low) (VInt high)).

(** [XGBRegressorObjective.get_params]: the values of the dict display
    are evaluated from top to bottom. *)
Definition get_params (trial : Trial E) : M E (dict pyval) :=
  let* eta := suggest_float_plain trial "eta" lit_0_01 lit_0_2 in
  let* subsample := suggest_float_plain trial "subsample" lit_0_5 lit_1_0 in
  let* min_child_weight := suggest_int_plain trial "min_child_weight" 1 6 in
  let* max_depth := suggest_int_plain trial "max_depth" 3 10 in
  let* gamma := suggest_float_plain trial "gamma" lit_0_0 lit_1_0 in
  let* colsample_bytree :=
    suggest_float_plain trial "colsample_bytree" lit_0_5 lit_1_0 in
  ret [ ("eta", eta);
        ("subsample", subsample);
        ("min_child_weight", min_child_weight);
        ("max_depth", max_depth);
        ("gamma", gamma);
        ("colsample_bytree", colsample_bytree) ].

End GetParams.

End XGB.

(* ===================================================================== *)
(** * The order of the calls of a trial                                   *)
(* ===================================================================== *)

Module Pipeline.
Import Objective TraceLogic.

(** The place of a call in the text of [__call__]. *)
Definition phase (ev : event) : Z :=
  match ev with
  | EvStop => 0
  | EvSplit _ _ _ _ => 1
  | EvSuggestFloat _ _ _ _ | EvSuggestInt _ _ _ | EvSuggestCategorical _ _ => 2
  | EvPruning _ => 3
  | EvSetParams _ => 4
  | EvFit _ => 5
  | EvPredict _ => 6
  | EvEval _ => 7
  | EvCall _ _ _ => 8
  | EvPrint _ => 9
  end.

(** [b] may come after [a]: it stands later in the text, or both are
    calls of the sampler. *)
Definition follows (a b : event) : Prop :=
  phase a < phase b \/ (phase a = 2 /\ phase b = 2).

(** Any two events of the list, taken in the order of the list, follow
    one another. *)
Definition in_order (evs : list event) : Prop := StronglySorted follows evs.

Definition from_stage (k : Z) (evs : list event) : Prop :=
  in_order evs /\ Forall (fun ev => k <= phase ev) evs.

Section Collaborators.
Context {E : Type}.

(** The collaborators a trial calls before it looks the metric up all
    return: the sampler on the search space of the objective, the callback
    factory and the three methods of the regressor. *)
Definition regressor_steps_return (rt : Runtime E) (self : RegressorObjective E)
    (trial : Trial E) : Prop :=
  (forall e, exists param evs e',
      runs (get_trial_parameters rt (model_params self) trial) e
        (Returned param) evs e')
  /\ (forall e, exists cb e',
        pruning_function self trial (args_eval self) e = (Returned cb, e'))
  /\ (forall param e, exists e',
        @set_params E (model self) param e = (Returned tt, e'))
  /\ (forall c e, exists e', @fit E (model self) c e = (Returned tt, e'))
  /\ (forall x e, exists forecast e',
        @predict E (model self) x e = (Returned forecast, e')).

(** The splitter has handed out three folds on which the trial gets as
    far as the sampler: the train fold is in order and every fold has a
    first column. *)
Definition folds_ready (rt : Runtime E) (self : RegressorObjective E)
    (w : world E) (train val test : frame) (e1 : E)
    (train_y valid_y test_y : series) : Prop :=
  split_data_train_validation_test rt (input_data self) (test_fraction self)
    (validation_fraction self) true (ext w) = (Returned (train, val, test), e1)
  /\ head (column_names train) = Some "load"
  /\ last (column_names train) = Some "horizon"
  /\ target_of train = Some train_y
  /\ target_of val = Some valid_y
  /\ target_of test = Some test_y.

(** The lookup of the metric of the objective returns a function. *)
Definition lookup_returns (rt : Runtime E) (self : RegressorObjective E) : Prop :=
  forall e, exists f e', py_eval rt (metric_path self) e = (Returned f, e').

(** What one pass over [items], started with the mapping [param], may
    have asked the driver for, and what it has when it returns. *)
Definition single_pass (items : list (string * pyval)) (param : dict pyval)
    (r : result (dict pyval)) (evs : list event) : Prop :=
  map suggest_key evs `prefix_of` map Some (keys items)
  /\ forall param',
      r = Returned param' ->
      map suggest_key evs = map Some (keys items)
      /\ forall k, k ∈ keys param' <-> k ∈ keys param \/ k ∈ keys items.

(** The exception of [a, b = v] on a value that cannot be iterated. *)
Definition not_iterable_error (v : pyval) : exn :=
  mk_exn TypeError ("cannot unpack non-iterable " +:+ type_name v +:+ " object").

(** The arguments [fit] is called with. *)
Definition fit_arguments (self : RegressorObjective E) (train val : frame)
    (train_y valid_y : series) (cb : handle) : fit_call :=
  mk_fit_call (features_of train) train_y
    [(features_of train, train_y); (features_of val, valid_y)]
    EARLY_STOPPING_ROUNDS (verbose self) (eval_metric self) [cb].

(** The calls of a trial up to and including [predict], when each of
    them returns. *)
Definition calls_until_predict (self : RegressorObjective E) (w : world E)
    (train val test : frame) (train_y valid_y : series)
    (sampled : list event) (param : dict pyval) (cb : handle) : list event :=
  budget_events self w ++ split_event self :: sampled
    ++ [EvPruning (args_eval self); EvSetParams param;
        EvFit (fit_arguments self train val train_y valid_y cb);
        EvPredict (features_of test)].

(** What follows the call [fit fc], made in the external state [e3], in
    the events [rest] of a trial: when [fit] returns, [predict] on the
    features of the test fold; when [predict] returns a forecast, the
    lookup of the metric; when the lookup returns a function, the call of
    that function on the target of the test fold and that forecast. *)
Definition calls_after_fit (rt : Runtime E) (self : RegressorObjective E)
    (fc : fit_call) (test : frame) (test_y : series) (e3 : E)
    (rest : list event) : Prop :=
  forall e4,
    @fit E (model self) fc e3 = (Returned tt, e4) ->
    exists rest2,
      rest = EvPredict (features_of test) :: rest2
      /\ forall forecast_y e5,
          @predict E (model self) (features_of test) e4 = (Returned forecast_y, e5) ->
          exists rest3,
            rest2 = EvEval (metric_path self) :: rest3
            /\ forall f e6,
                py_eval rt (metric_path self) e5 = (Returned f, e6) ->
                exists rest4, rest3 = EvCall f test_y forecast_y :: rest4.

End Collaborators.

End Pipeline.

(* ===================================================================== *)
(** * More concrete collaborators                                         *)
(* ===================================================================== *)

Module Examples2.
Import Objective Examples.

(** A runtime whose lookup of the metric gives [looked_up] and whose
    metric gives [computed], on the folds of [demo_runtime]. *)
Definition runtime_with_metric (looked_up : result handle) (computed : result pyval)
  : Runtime Z :=
  mk_Runtime Z
    (fun _ => None)
    (fun _ _ _ _ => tick (Returned (ordered_frame, ordered_frame, ordered_frame)))
    (fun _ => tick looked_up)
    (fun _ _ _ => tick computed).

Definition load_series : series :=
  mk_series [hour 0; hour 1] "load" [one; two].

Definition attribute_error : exn :=
  mk_exn AttributeError "'Series' object has no attribute 'to_numpy'".

Definition value_error : exn :=
  mk_exn ValueError "Input contains NaN".

Definition name_error : exn :=
  mk_exn (OtherException "NameError" []) "name 'openstf' is not defined".

(** What [lower_bound_trial] gives for [demo_space], and the calls made
    for it. *)
Definition demo_param : dict pyval :=
  [("eta", one); ("max_depth", VInt 3); ("booster", VStr "gbtree")].

Definition demo_sampled : list event :=
  [EvSuggestFloat "eta" (float_of_Z 1) (float_of_Z 2) (VBool false);
   EvSuggestInt "max_depth" (VInt 3) (VInt 10);
   EvSuggestCategorical "booster" [VStr "gbtree"; VStr "dart"]].

(** A regressor whose [fit] raises [x]. *)
Definition failing_fit_model (x : exn) : OpenstfRegressorInterface Z :=
  {| set_params := fun _ => tick (Returned tt);
     fit := fun _ => tick (Raised x);
     predict := fun _ => tick (Returned (VList [])) |}.

Definition failing_fit_objective : RegressorObjective Z :=
  mk_RegressorObjective Z ordered_frame (failing_fit_model attribute_error)
    (fun _ _ => tick (Returned some_callback))
    demo_space 0 TEST_FRACTION VALIDATION_FRACTION EVAL_METRIC false [] None.

End Examples2.

(* ===================================================================== *)
(** * Columns and feature tables                                          *)
(* ===================================================================== *)

Module Columns.
Import ApplyFeatures.

(** [d.get(k)]: the entry of [k], if there is one. *)
Fixpoint dict_get {V} (d : dict V) (k : string) : option V :=
  match d with
  | [] => None
  | (k', v) :: d' => if String.eqb k' k then Some v else dict_get d' k
  end.




(** The weekdays of the index run from Monday = 0 to Sunday = 6. *)
Definition weekdays_valid (x : series) : Prop :=
  Forall (fun t => 0 <= ts_weekday t <= 6) (s_index x).

Definition no_columns_error : exn :=
  mk_exn IndexError "positional indexers are out-of-bounds".



(** The table [feature_table] builds from the helpers of the examples. *)
Definition plain_table : dict featfunc :=
  [("T-1d", fun x => Returned (s_values x));
   ("IsWeekendDay", IsWeekendDay); ("IsWeekDay", IsWeekDay);
   ("IsSunday", IsSunday); ("Month", Month); ("Quarter", Quarter);
   ("IsNationalHoliday",
    fun x => Returned (map (fun _ => VBool false) (s_index x)))].

(** A store whose only frame has an index and no column. *)
Definition no_columns_heap : heap :=
  mk_heap {[ Examples.caller_data := Examples.no_columns_frame ]} [] [].



End Columns.

(* ===================================================================== *)
(** * Theorems                                                            *)
(* ===================================================================== *)

Import Objective TraceLogic.

Section Rules.

Context {E : Type}.
Implicit Types (e : E) (evs : list event).

Lemma bind_assoc {S A B C} (m : St S A) (k : A -> St S B) (k' : B -> St S C) w :
  bind (bind m k) k' w = bind m (fun a => bind (k a) k') w.
Proof. unfold bind. by destruct (m w) as [[a|x] w1]. Qed.

Lemma bind_ext {S A B} (m : St S A) (k1 k2 : A -> St S B) w :
  (forall a w', k1 a w' = k2 a w') -> bind m k1 w = bind m k2 w.
Proof. intros H. unfold bind. destruct (m w) as [[a|x] w1]; [apply H|done]. Qed.

(** A call followed by a continuation: the event is recorded, the
    external state replaced, and the continuation sees the result. *)
Lemma bind_call {A B} ev (f : E -> result A * E) (k : A -> M E B) (w : world E) r e' :
  f (ext w) = (r, e') ->
  bind (call ev f) k w =
  bind (lift r) k (mk_world (clock w) (stop_requested w) (trace w ++ [ev]) e').
Proof.
  intros Hf. unfold bind, call, lift, log_event, set_ext. simpl. by rewrite Hf.
Qed.

Lemma runs_at {A} (m : M E A) (w : world E) r evs e' :
  runs m (ext w) r evs e' ->
  m w = (r, mk_world (clock w) (stop_requested w) (trace w ++ evs) e').
Proof. intros H. destruct w as [c s t e]. apply H. Qed.

Lemma runs_det {A} (m : M E A) e r1 evs1 e1 r2 evs2 e2 :
  runs m e r1 evs1 e1 -> runs m e r2 evs2 e2 ->
  r1 = r2 /\ evs1 = evs2 /\ e1 = e2.
Proof.
  intros H1 H2. specialize (H1 0 false []). specialize (H2 0 false []).
  rewrite H1 in H2. simpl in H2. by injection H2.
Qed.

Lemma triple_weaken {A} (m : M E A) e (Q Q' : result A -> list event -> E -> Prop) :
  triple m e Q -> (forall r evs e', Q r evs e' -> Q' r evs e') -> triple m e Q'.
Proof. intros (r & evs & e' & Hr & HQ) Himp. exists r, evs, e'. auto. Qed.

Lemma triple_lift {A} (r : result A) e (Q : result A -> list event -> E -> Prop) :
  Q r [] e -> triple (lift r) e Q.
Proof.
  intros HQ. exists r, [], e. split; [|done].
  intros c s t. unfold lift. by rewrite app_nil_r.
Qed.

Lemma triple_ret {A} (a : A) e (Q : result A -> list event -> E -> Prop) :
  Q (Returned a) [] e -> triple (ret a) e Q.
Proof. apply (triple_lift (Returned a)). Qed.

Lemma triple_raise {A} (x : exn) e (Q : result A -> list event -> E -> Prop) :
  Q (Raised x) [] e -> triple (raise x) e Q.
Proof. apply (triple_lift (Raised x)). Qed.

Lemma triple_call {A} (ev : event) (f : E -> result A * E) e
    (Q : result A -> list event -> E -> Prop) :
  Q (f e).1 [ev] (f e).2 -> triple (call ev f) e Q.
Proof.
  intros HQ. exists (f e).1, [ev], (f e).2. split; [|done].
  intros c s t. unfold call, log_event, set_ext. simpl. by destruct (f e).
Qed.

Lemma triple_print (msg : string) e (Q : result unit -> list event -> E -> Prop) :
  Q (Returned tt) [EvPrint msg] e -> triple (print msg) e Q.
Proof. intros HQ. exists (Returned tt), [EvPrint msg], e. by split. Qed.

Lemma triple_bind {A B} (m : M E A) (k : A -> M E B) e
    (Q1 : result A -> list event -> E -> Prop)
    (Q : result B -> list event -> E -> Prop) :
  triple m e Q1 ->
  (forall a evs1 e1, Q1 (Returned a) evs1 e1 ->
     triple (k a) e1 (fun r evs2 e2 => Q r (evs1 ++ evs2) e2)) ->
  (forall x evs1 e1, Q1 (Raised x) evs1 e1 -> Q (Raised x) evs1 e1) ->
  triple (bind m k) e Q.
Proof.
  intros (r & evs1 & e1 & Hr & HQ1) Hk Hx. destruct r as [a|x].
  - destruct (Hk a evs1 e1 HQ1) as (r2 & evs2 & e2 & Hr2 & HQ).
    exists r2, (evs1 ++ evs2), e2. split; [|done].
    intros c s t. unfold bind. rewrite Hr, Hr2. by rewrite app_assoc.
  - exists (Raised x), evs1, e1. split; [|by apply Hx].
    intros c s t. unfold bind. by rewrite Hr.
Qed.

Lemma triple_try {A} (body handler : M E A) e
    (Q1 Q : result A -> list event -> E -> Prop) :
  triple body e Q1 ->
  (forall a evs1 e1, Q1 (Returned a) evs1 e1 -> Q (Returned a) evs1 e1) ->
  (forall x evs1 e1, Q1 (Raised x) evs1 e1 -> is_AttributeError x = false ->
     Q (Raised x) evs1 e1) ->
  (forall x evs1 e1, Q1 (Raised x) evs1 e1 -> is_AttributeError x = true ->
     triple handler e1 (fun r evs2 e2 => Q r (evs1 ++ evs2) e2)) ->
  triple (try_except_AttributeError body handler) e Q.
Proof.
  intros (r & evs1 & e1 & Hr & HQ1) Hret Hother Hattr. destruct r as [a|x].
  - exists (Returned a), evs1, e1. split; [|by apply Hret].
    intros c s t. unfold try_except_AttributeError. by rewrite Hr.
  - destruct (is_AttributeError x) eqn:Hx.
    + destruct (Hattr x evs1 e1 HQ1 Hx) as (r2 & evs2 & e2 & Hr2 & HQ).
      exists r2, (evs1 ++ evs2), e2. split; [|done].
      intros c s t. unfold try_except_AttributeError.
      rewrite Hr, Hx, Hr2. by rewrite app_assoc.
    + exists (Raised x), evs1, e1. split; [|by apply Hother].
      intros c s t. unfold try_except_AttributeError. by rewrite Hr, Hx.
Qed.

(** ** Every statement of the objective is insensitive to the clock,
    the stop flag and the earlier trace. *)

Lemma uniform_lift {A} (r : result A) : uniform (E:=E) (lift r).
Proof. intros e. by apply triple_lift. Qed.

Lemma uniform_ret {A} (a : A) : uniform (E:=E) (ret a).
Proof. intros e. by apply triple_ret. Qed.

Lemma uniform_raise {A} (x : exn) : uniform (E:=E) (A:=A) (raise x).
Proof. intros e. by apply triple_raise. Qed.

Lemma uniform_call {A} ev (f : E -> result A * E) : uniform (call ev f).
Proof. intros e. by apply triple_call. Qed.

Lemma uniform_print msg : uniform (E:=E) (print msg).
Proof. intros e. by apply triple_print. Qed.

Lemma uniform_bind {A B} (m : M E A) (k : A -> M E B) :
  uniform m -> (forall a, uniform (k a)) -> uniform (bind m k).
Proof.
  intros Hm Hk e. eapply triple_bind; [apply Hm | |done].
  intros a evs1 e1 _. eapply triple_weaken; [apply Hk|done].
Qed.

Lemma uniform_try {A} (body handler : M E A) :
  uniform body -> uniform handler ->
  uniform (try_except_AttributeError body handler).
Proof.
  intros Hb Hh e. eapply triple_try; [apply Hb|done|done|].
  intros x evs1 e1 _ _. eapply triple_weaken; [apply Hh|done].
Qed.

End Rules.

Ltac uniform_auto :=
  repeat (cbv beta;
          match goal with
          | |- uniform (bind _ _) => apply uniform_bind; [|intros ?]
          | |- uniform (ret _) => apply uniform_ret
          | |- uniform (raise _) => apply uniform_raise
          | |- uniform (lift _) => apply uniform_lift
          | |- uniform (call _ _) => apply uniform_call
          | |- uniform (print _) => apply uniform_print
          | |- uniform (try_except_AttributeError _ _) => apply uniform_try
          | |- uniform (match ?x with _ => _ end) => destruct x
          end).

Section Uniformity.

Context {E : Type}.
Variable rt : Runtime E.

Lemma uniform_process_tuple (trial : Trial E) key value :
  uniform (process_tuple rt trial key value).
Proof. unfold process_tuple. uniform_auto. Qed.

Lemma uniform_get_trial_parameters_loop (trial : Trial E) items :
  forall param, uniform (get_trial_parameters_loop rt trial items param).
Proof.
  induction items as [|[key value] rest IH]; intros param;
    cbn [get_trial_parameters_loop].
  - apply uniform_ret.
  - destruct (isinstance_tuple value).
    + apply uniform_bind; [apply uniform_process_tuple | intros v; apply IH].
    + destruct value; try apply uniform_raise.
      apply uniform_bind; [apply uniform_call | intros v; apply IH].
Qed.

Lemma uniform_get_trial_parameters (trial : Trial E) model_params :
  uniform (get_trial_parameters rt model_params trial).
Proof. apply uniform_get_trial_parameters_loop. Qed.

Lemma uniform_check_column_order train_data :
  uniform (E:=E) (check_column_order train_data).
Proof. unfold check_column_order. uniform_auto. Qed.

Lemma uniform_split_x_y data : uniform (E:=E) (split_x_y data).
Proof. unfold split_x_y. uniform_auto. Qed.

Lemma uniform_evaluate_metric self test_y forecast_y :
  uniform (evaluate_metric rt self test_y forecast_y).
Proof. unfold evaluate_metric. uniform_auto. Qed.

Lemma uniform_evaluate_folds self trial train_data validation_data test_data :
  uniform (evaluate_folds rt self trial train_data validation_data test_data).
Proof.
  unfold evaluate_folds.
  repeat first
    [ apply uniform_check_column_order
    | apply uniform_split_x_y
    | apply uniform_get_trial_parameters
    | apply uniform_evaluate_metric
    | apply uniform_call
    | apply uniform_bind; [|intros ?]
    | match goal with |- uniform (match ?x with _ => _ end) => destruct x end ].
Qed.

Lemma uniform_run_trial self trial : uniform (run_trial rt self trial).
Proof.
  unfold run_trial. apply uniform_bind; [apply uniform_call|].
  intros [[train_data validation_data] test_data].
  apply uniform_evaluate_folds.
Qed.

End Uniformity.

Section TimeBudget.

Context {E : Type}.
Variable rt : Runtime E.

(** The first thing the body of a trial does is to call the splitter. *)
Lemma run_trial_starts_with_split self (trial : Trial E) e r evs e' :
  runs (run_trial rt self trial) e r evs e' ->
  exists rest, evs = split_event self :: rest.
Proof.
  intros Hruns.
  assert (triple (run_trial rt self trial) e
            (fun _ evs _ => exists rest, evs = split_event self :: rest)) as Ht.
  { unfold run_trial.
    eapply triple_bind with (Q1 := fun _ evs _ => evs = [split_event self]).
    - by apply triple_call.
    - intros [[tr va] te] evs1 e1 ->.
      eapply triple_weaken; [apply uniform_evaluate_folds|].
      intros r0 evs0 e0 _. by exists evs0.
    - intros x evs1 e1 ->. by exists []. }
  destruct Ht as (r2 & evs2 & e2 & Hr2 & rest & ->).
  destruct (runs_det _ _ _ _ _ _ _ _ Hruns Hr2) as (_ & -> & _). by exists rest.
Qed.

Lemma call_within_budget self (trial : Trial E) (w : world E) :
  clock w - start_time self <= timedelta 2 0 ->
  __call__ rt self trial w = run_trial rt self trial w.
Proof.
  intros Hle. unfold __call__, bind, utcnow.
  destruct (Z.gtb_spec (clock w - start_time self) (timedelta 2 0)); [lia|done].
Qed.

Lemma call_over_budget self (trial : Trial E) (w : world E) :
  clock w - start_time self > timedelta 2 0 ->
  __call__ rt self trial w =
  run_trial rt self trial
    (mk_world (clock w) true (trace w ++ [EvStop]) (ext w)).
Proof.
  intros Hgt. unfold __call__, bind, utcnow.
  destruct (Z.gtb_spec (clock w - start_time self) (timedelta 2 0)); [done|lia].
Qed.

(** C1.  When more than two minutes have passed since [start_time], the
    call first raises the stop signal for the driver and only then calls
    the splitter; the trial itself is not cancelled: its result [r]
    (a loss or whatever exception the trial itself raises), the calls
    [evs] it makes and the external state [e'] it leaves are those of the
    trial body run from the same external state, hence those of a call
    made within the budget. *)
Theorem budget_exceeded_stops_driver_not_trial
    (self : RegressorObjective E) (trial : Trial E) (w : world E) :
  clock w - start_time self > timedelta 2 0 ->
  exists r rest e',
    __call__ rt self trial w =
      (r, mk_world (clock w) true
            (trace w ++ EvStop :: split_event self :: rest) e')
    /\ runs (run_trial rt self trial) (ext w) r (split_event self :: rest) e'
    /\ (forall w', ext w' = ext w ->
          clock w' - start_time self <= timedelta 2 0 ->
          __call__ rt self trial w' =
            (r, mk_world (clock w') (stop_requested w')
                  (trace w' ++ split_event self :: rest) e')).
Proof.
  intros Hgt.
  destruct (uniform_run_trial rt self trial (ext w)) as (r & evs & e' & Hruns & _).
  destruct (run_trial_starts_with_split _ _ _ _ _ _ Hruns) as (rest & ->).
  exists r, rest, e'. split; [|split].
  - rewrite call_over_budget by done.
    rewrite Hruns. by rewrite <- app_assoc.
  - done.
  - intros w' Hext Hle. rewrite call_within_budget by done.
    rewrite <- Hext in Hruns. apply (runs_at _ _ _ _ _ Hruns).
Qed.

End TimeBudget.

(** Three minutes after [start_time] the budget of two minutes is spent. *)
Lemma budget_exceeded_witness :
  let self := Examples.demo_objective in
  let trial := Examples.lower_bound_trial in
  let w := Examples.world_at (Examples.minutes 3) in
  clock w - start_time self > timedelta 2 0 /\
  exists r rest e',
    __call__ Examples.demo_runtime self trial w =
      (r, mk_world (clock w) true
            (trace w ++ EvStop :: split_event self :: rest) e')
    /\ runs (run_trial Examples.demo_runtime self trial) (ext w) r
         (split_event self :: rest) e'
    /\ (forall w', ext w' = ext w ->
          clock w' - start_time self <= timedelta 2 0 ->
          __call__ Examples.demo_runtime self trial w' =
            (r, mk_world (clock w') (stop_requested w')
                  (trace w' ++ split_event self :: rest) e')).
Proof.
  split.
  - reflexivity.
  - apply (budget_exceeded_stops_driver_not_trial Examples.demo_runtime
             Examples.demo_objective Examples.lower_bound_trial
             (Examples.world_at (Examples.minutes 3))).
    reflexivity.
Defined.

Section ProcessTuple.

Context {E : Type}.
Variable rt : Runtime E.
Variable trial : Trial E.

Lemma process_tuple_float key lo hi log low high (w : world E) :
  isinstance_float lo || isinstance_float hi = true ->
  py_float (parse_float rt) lo = Returned low ->
  py_float (parse_float rt) hi = Returned high ->
  process_tuple rt trial key (pair_decl lo hi log) w =
  call (EvSuggestFloat key low high log) (suggest_float trial key low high log) w.
Proof.
  intros Hf Hlo Hhi. unfold process_tuple, pair_decl, bind, lift. simpl.
  by rewrite Hf, Hlo, Hhi.
Qed.

Lemma process_tuple_float_fails key lo hi log x (w : world E) :
  isinstance_float lo || isinstance_float hi = true ->
  py_float (parse_float rt) lo = Raised x
  \/ (is_raised (py_float (parse_float rt) lo) = false
      /\ py_float (parse_float rt) hi = Raised x) ->
  process_tuple rt trial key (pair_decl lo hi log) w = (Raised x, w).
Proof.
  intros Hf H. unfold process_tuple, pair_decl, bind, lift. simpl. rewrite Hf.
  destruct H as [->|[Hlo ->]]; [done|].
  by destruct (py_float (parse_float rt) lo).
Qed.

Lemma process_tuple_int key lo hi log (w : world E) :
  isinstance_float lo || isinstance_float hi = false ->
  isinstance_int lo && isinstance_int hi = true ->
  process_tuple rt trial key (pair_decl lo hi log) w =
  call (EvSuggestInt key lo hi) (suggest_int trial key lo hi) w.
Proof.
  intros Hf Hi. unfold process_tuple, pair_decl, bind, lift. simpl.
  by rewrite Hf, Hi.
Qed.

Lemma process_tuple_other key lo hi log (w : world E) :
  isinstance_float lo || isinstance_float hi = false ->
  isinstance_int lo && isinstance_int hi = false ->
  process_tuple rt trial key (pair_decl lo hi log) w = (Raised bounds_error, w).
Proof.
  intros Hf Hi. unfold process_tuple, pair_decl, bind, lift. simpl.
  by rewrite Hf, Hi.
Qed.

Lemma call_returned {A} ev (f : E -> result A * E) (w w' : world E) v :
  call ev f w = (Returned v, w') ->
  f (ext w) = (Returned v, ext w') /\ trace w' = trace w ++ [ev].
Proof.
  unfold call, log_event, set_ext. simpl.
  destruct (f (ext w)) as [r e']. intros [= -> <-]. done.
Qed.

(** C2, as amended.  For a declaration [((lo, hi), log)]:
    - when a bound is a float and both bounds convert with [float()],
      the value is the one the continuous primitive samples for the
      converted bounds and the given log flag;
    - when neither is a float and both are integers, the value is the
      one the integer primitive samples for [lo] and [hi], whatever the
      log flag is;
    - when neither is a float and they are not both integers, the
      TypeError of line 51 is raised and nothing is sampled;
    and a value returned by a sampler that keeps to its bounds lies
    between them. *)
Theorem process_tuple_by_bound_types key lo hi log (w : world E) :
  (forall low high,
      isinstance_float lo || isinstance_float hi = true ->
      py_float (parse_float rt) lo = Returned low ->
      py_float (parse_float rt) hi = Returned high ->
      process_tuple rt trial key (pair_decl lo hi log) w =
      call (EvSuggestFloat key low high log)
           (suggest_float trial key low high log) w)
  /\ (isinstance_float lo || isinstance_float hi = false ->
      isinstance_int lo && isinstance_int hi = true ->
      forall log',
        process_tuple rt trial key (pair_decl lo hi log') w =
        call (EvSuggestInt key lo hi) (suggest_int trial key lo hi) w)
  /\ (isinstance_float lo || isinstance_float hi = false ->
      isinstance_int lo && isinstance_int hi = false ->
      process_tuple rt trial key (pair_decl lo hi log) w = (Raised bounds_error, w))
  /\ (samples_within_bounds trial ->
      forall v w',
        process_tuple rt trial key (pair_decl lo hi log) w = (Returned v, w') ->
        if isinstance_float lo || isinstance_float hi
        then exists low high x,
            py_float (parse_float rt) lo = Returned low
            /\ py_float (parse_float rt) hi = Returned high
            /\ v = VFloat x /\ float_leb low x = true /\ float_leb x high = true
            /\ trace w' = trace w ++ [EvSuggestFloat key low high log]
        else exists a b n,
            int_value lo = Some a /\ int_value hi = Some b
            /\ v = VInt n /\ a <= n <= b
            /\ trace w' = trace w ++ [EvSuggestInt key lo hi]).
Proof.
  split; [|split; [|split]].
  - intros low high. apply process_tuple_float.
  - intros Hf Hi log'. by apply process_tuple_int.
  - apply process_tuple_other.
  - intros [Hfloat Hint] v w' Hrun.
    destruct (isinstance_float lo || isinstance_float hi) eqn:Hf.
    + destruct (py_float (parse_float rt) lo) as [low|x] eqn:Hlo.
      2:{ rewrite (process_tuple_float_fails _ _ _ _ x) in Hrun; auto. done. }
      destruct (py_float (parse_float rt) hi) as [high|x] eqn:Hhi.
      2:{ rewrite (process_tuple_float_fails _ _ _ _ x) in Hrun; [done|done|].
          right. by rewrite Hlo. }
      rewrite (process_tuple_float _ _ _ _ low high) in Hrun by done.
      apply call_returned in Hrun as [Hcall Htrace].
      destruct (Hfloat _ _ _ _ _ _ _ Hcall) as (x & -> & Hl & Hh).
      by exists low, high, x.
    + destruct (isinstance_int lo && isinstance_int hi) eqn:Hi.
      2:{ by rewrite process_tuple_other in Hrun. }
      rewrite process_tuple_int in Hrun by done.
      apply call_returned in Hrun as [Hcall Htrace].
      destruct (Hint _ _ _ _ _ _ Hcall) as (n & a & b & -> & Ha & Hb & Hn).
      by exists a, b, n.
Qed.

End ProcessTuple.

(** The sampler of the examples keeps to its bounds. *)
Lemma lower_bound_trial_within_bounds :
  samples_within_bounds Examples.lower_bound_trial.
Proof.
  split.
  - intros key low high log e v e'. simpl. unfold Examples.tick.
    destruct (float_leb low high) eqn:Hle; [|done].
    intros [= <- <-]. exists low. split; [done|]. split; [|done].
    unfold float_leb, SFleb in *.
    destruct low as [s|s| |s m x]; try done; try (by destruct s).
    simpl. destruct s; by rewrite Z.compare_refl, Pos.compare_cont_refl.
  - intros key lo hi e v e'. simpl. unfold Examples.tick.
    destruct (int_value lo) as [a|] eqn:Ha; [|done].
    destruct (int_value hi) as [b|] eqn:Hb; [|done].
    destruct (Z.leb_spec a b); [|done].
    intros [= <- <-]. exists a, a, b. repeat split; auto; lia.
Qed.

(** C2, a counterexample to the sentence of the spec: in both declarations
    a bound is a float, yet [float()] raises on the other bound (TypeError
    on [None], OverflowError on [10**400]) and nothing is sampled: the
    world, trace included, is left as it was. *)
Lemma float_bound_without_sample_counterexample :
  let run value :=
    process_tuple Examples.demo_runtime Examples.lower_bound_trial "eta" value
      (Examples.world_at 0) in
  isinstance_float (VFloat Examples.three_halves) || isinstance_float VNone = true
  /\ run (pair_decl (VFloat Examples.three_halves) VNone (VBool false)) =
     (Raised (mk_exn TypeError
                "float() argument must be a string or a real number, not 'NoneType'"),
      Examples.world_at 0)
  /\ isinstance_float (VInt (10 ^ 400)) || isinstance_float (VFloat Examples.three_halves)
     = true
  /\ run (pair_decl (VInt (10 ^ 400)) (VFloat Examples.three_halves) (VBool false)) =
     (Raised (mk_exn OverflowError "int too large to convert to float"),
      Examples.world_at 0).
Proof. vm_compute. done. Qed.

Section SamplerErrors.

Context {E : Type}.
Variable rt : Runtime E.
Variable trial : Trial E.

(** The pass over a search space is the pass over its first part
    followed by the pass over the rest. *)
Lemma get_trial_parameters_loop_app items1 items2 :
  forall param (w : world E),
    get_trial_parameters_loop rt trial (items1 ++ items2) param w =
    bind (get_trial_parameters_loop rt trial items1 param)
         (get_trial_parameters_loop rt trial items2) w.
Proof.
  induction items1 as [|[key value] rest IH]; intros param w.
  - done.
  - rewrite <- app_comm_cons. cbn [get_trial_parameters_loop].
    destruct (isinstance_tuple value).
    + rewrite bind_assoc. apply bind_ext. intros v w1. apply IH.
    + destruct value; try done.
      rewrite bind_assoc. apply bind_ext. intros v w1. apply IH.
Qed.

(** C4, as amended.  The two configuration errors of the sampler are
    TypeErrors with a fixed message that does not depend on the key of
    the declaration: once the declarations before it have been sampled,
    a pair whose bounds are neither a float nor both integers raises the
    message of line 42, and a declaration that is neither a tuple nor a
    list raises "Possible input values: tuple, list". *)
Theorem configuration_errors_have_fixed_messages
    (before after : dict pyval) (key : string) (w : world E) :
  (forall lo hi log,
      isinstance_float lo || isinstance_float hi = false ->
      isinstance_int lo && isinstance_int hi = false ->
      get_trial_parameters rt (before ++ (key, pair_decl lo hi log) :: after) trial w
      = bind (get_trial_parameters rt before trial)
             (fun _ => raise bounds_error) w)
  /\ (forall value,
        isinstance_tuple value = false ->
        isinstance_list value = false ->
        get_trial_parameters rt (before ++ (key, value) :: after) trial w
        = bind (get_trial_parameters rt before trial)
               (fun _ => raise shape_error) w).
Proof.
  split.
  - intros lo hi log Hf Hi. unfold get_trial_parameters.
    rewrite get_trial_parameters_loop_app. unfold bind at 1 2.
    destruct (get_trial_parameters_loop rt trial before [] w) as [[p|x] w1]; [|done].
    cbn [get_trial_parameters_loop]. change (isinstance_tuple _) with true.
    cbv iota. unfold bind.
    change (VTuple [VTuple [lo; hi]; log]) with (pair_decl lo hi log).
    by rewrite process_tuple_other.
  - intros value Ht Hl. unfold get_trial_parameters.
    rewrite get_trial_parameters_loop_app. unfold bind at 1 2.
    destruct (get_trial_parameters_loop rt trial before [] w) as [[p|x] w1]; [|done].
    cbn [get_trial_parameters_loop]. rewrite Ht. by destruct value.
Qed.

End SamplerErrors.

(** C4, a counterexample to the sentence of the spec: neither message
    names the key of the declaration that caused it. *)
Lemma error_message_omits_key_counterexample :
  let run space :=
    fst (get_trial_parameters Examples.demo_runtime space
           Examples.lower_bound_trial (Examples.world_at 0)) in
  run [("eta", pair_decl (VStr "a") (VStr "b") (VBool false))] = Raised bounds_error
  /\ contains (exn_message bounds_error) "eta" = false
  /\ run [("max_depth", VInt 3)] = Raised shape_error
  /\ contains (exn_message shape_error) "max_depth" = false.
Proof. vm_compute. done. Qed.

Section MetricLookup.

Context {E : Type}.
Variable rt : Runtime E.

(** When the name resolves and the metric returns, its value is the
    outcome of the trial. *)
Lemma evaluate_metric_resolved self test_y forecast_y e f e1 v e2 :
  py_eval rt (metric_path self) e = (Returned f, e1) ->
  py_apply rt f test_y forecast_y e1 = (Returned v, e2) ->
  runs (evaluate_metric rt self test_y forecast_y) e (Returned v)
    [EvEval (metric_path self); EvCall f test_y forecast_y] e2.
Proof.
  intros Heval Happly c s t.
  unfold evaluate_metric, try_except_AttributeError, bind, call, ret,
    log_event, set_ext. simpl.
  fold (metric_path self). rewrite Heval. simpl. rewrite Happly. simpl.
  by rewrite <- app_assoc.
Qed.

(** When the lookup raises AttributeError, the handler prints and the
    function ends without a [return]: the caller receives [None]. *)
Lemma evaluate_metric_unresolved self test_y forecast_y e x e1 :
  py_eval rt (metric_path self) e = (Raised x, e1) ->
  is_AttributeError x = true ->
  runs (evaluate_metric rt self test_y forecast_y) e (Returned VNone)
    [EvEval (metric_path self); EvPrint not_defined_message] e1.
Proof.
  intros Heval Hx c s t.
  unfold evaluate_metric, try_except_AttributeError, bind, call, ret, print,
    log_event, set_ext. simpl.
  fold (metric_path self). rewrite Heval. simpl. rewrite Hx. simpl.
  by rewrite <- app_assoc.
Qed.

End MetricLookup.

(** C3, at the failing input.  With [eval_metric="rmse"], a name the
    metrics module does not define, the trial is fitted and evaluated, the
    lookup raises AttributeError, the message is printed and the objective
    returns [None]: no exception reaches the driver and no loss either. *)
Theorem unresolved_metric_returns_None :
  let self := Examples.objective_at 0 Examples.demo_space "rmse" in
  let run := __call__ Examples.demo_runtime self Examples.lower_bound_trial
               (Examples.world_at (Examples.minutes 1)) in
  Examples.eval_in_metrics (metric_path self)
    = Raised (mk_exn AttributeError
                "module 'openstf.metrics.metrics' has no attribute of that name")
  /\ fst run = Returned VNone
  /\ existsb is_fit (trace (snd run)) = true
  /\ last (trace (snd run)) = Some (EvPrint not_defined_message).
Proof. vm_compute. done. Qed.

Section Positions.

Context {A : Type}.
Implicit Types l : list A.

Lemma nth_error_lookup l (n : nat) : nth_error l n = l !! n.
Proof. revert n. induction l as [|x l IH]; intros [|n]; simpl; auto. Qed.

(** [l[0]] is the head of [l]. *)
Lemma py_getitem_first l : py_getitem l 0 = head l.
Proof.
  unfold py_getitem. simpl. destruct l as [|x l]; [done|].
  destruct (Z.leb_spec (Z.of_nat (length (x :: l))) 0) as [Hle|_]; [|done].
  simpl in Hle. lia.
Qed.

(** [l[-1]] is the last element of [l]. *)
Lemma py_getitem_last l : py_getitem l (-1) = last l.
Proof.
  unfold py_getitem. simpl. destruct l as [|x l]; [done|].
  set (n := Z.of_nat (length (x :: l))).
  assert (1 <= n) by (subst n; simpl; lia).
  destruct (Z.ltb_spec (-1 + n) 0); [lia|].
  destruct (Z.leb_spec n (-1 + n)); [lia|]. simpl.
  rewrite nth_error_lookup, last_lookup. f_equal. subst n. simpl length. lia.
Qed.

(** [l[1:-1]] is [l] without its first and its last element. *)
Lemma py_slice_inner l : py_slice l 1 (-1) = removelast (tail l).
Proof.
  unfold py_slice. rewrite removelast_firstn_len.
  destruct l as [|x l]; [done|].
  set (n := Z.of_nat (length (x :: l))).
  assert (n = 1 + Z.of_nat (length l)) as Hn by (subst n; simpl length; lia).
  simpl. rewrite Hn.
  replace (Z.to_nat (Z.max 0 (Z.min (1 + Z.of_nat (length l)) 1))) with 1%nat by lia.
  simpl. f_equal. lia.
Qed.

End Positions.

Section ColumnOrder.

Context {E : Type}.
Implicit Types (fold : frame) (w : world E).

Lemma iloc_slice_features fold : iloc_slice fold 1 (-1) = features_of fold.
Proof. unfold iloc_slice, features_of. by rewrite py_slice_inner. Qed.

Lemma iloc_col_target fold :
  iloc_col fold 0 =
  match target_of fold with Some y => Returned y | None => Raised out_of_bounds end.
Proof.
  unfold iloc_col, target_of. rewrite py_getitem_first.
  by destruct (columns fold) as [|[name vals] rest].
Qed.

Lemma columns_first fold :
  columns_getitem fold 0 =
  match head (column_names fold) with
  | Some c => Returned c
  | None => Raised (mk_exn IndexError
                      ("index " +:+ pretty 0 +:+ " is out of bounds for axis 0 with size "
                         +:+ pretty (Z.of_nat (length (columns fold)))))
  end.
Proof. unfold columns_getitem. by rewrite py_getitem_first. Qed.

Lemma check_column_order_ordered fold w :
  head (column_names fold) = Some "load" ->
  last (column_names fold) = Some "horizon" ->
  check_column_order fold w = (Returned tt, w).
Proof.
  intros Hfirst Hlast. unfold check_column_order, bind, lift, ret.
  rewrite columns_first, Hfirst. simpl.
  unfold columns_getitem. by rewrite py_getitem_last, Hlast.
Qed.

Lemma check_column_order_misordered fold w :
  (exists c, head (column_names fold) = Some c /\ c <> "load")
  \/ (exists c, last (column_names fold) = Some c /\ c <> "horizon") ->
  check_column_order fold w = (Raised column_order_error, w).
Proof.
  intros Hbad. unfold check_column_order, bind, lift, ret, raise.
  rewrite columns_first.
  destruct (head (column_names fold)) as [first|] eqn:Hfirst.
  - destruct (String.eqb_spec first "load") as [->|Hne]; simpl; [|done].
    destruct Hbad as [(c & [= <-] & Hc)|(c & Hlast & Hc)]; [done|].
    unfold columns_getitem. rewrite py_getitem_last, Hlast.
    by destruct (String.eqb_spec c "horizon").
  - apply head_None in Hfirst.
    destruct Hbad as [(c & Hc & _)|(c & Hc & _)]; [done | by rewrite Hfirst in Hc].
Qed.

(** Whenever the first label is not "load" or the last is not "horizon",
    a frame without any column included, the test raises; on a frame with
    columns it raises the RuntimeError of lines 131-134. *)
Lemma check_column_order_rejects fold :
  head (column_names fold) <> Some "load"
  \/ last (column_names fold) <> Some "horizon" ->
  exists x,
    (forall w, check_column_order fold w = (Raised x, w))
    /\ (column_names fold <> [] -> x = column_order_error).
Proof.
  intros Hbad.
  destruct (head (column_names fold)) as [first|] eqn:Hfirst.
  - exists column_order_error. split; [|done].
    intros w. apply check_column_order_misordered.
    destruct (String.eqb_spec first "load") as [->|Hne].
    + right. destruct Hbad as [Hbad|Hbad]; [done|].
      destruct (last (column_names fold)) as [lst|] eqn:Hlast.
      * exists lst. split; [done|]. congruence.
      * apply last_None in Hlast. by rewrite Hlast in Hfirst.
    + left. by exists first.
  - apply head_None in Hfirst. eexists. split.
    + intros w. unfold check_column_order, bind, lift.
      rewrite columns_first, Hfirst. done.
    + by rewrite Hfirst.
Qed.

Lemma check_column_order_pure fold :
  exists r, forall w, check_column_order fold w = (r, w).
Proof.
  unfold check_column_order, bind, lift, ret, raise.
  destruct (columns_getitem fold 0) as [first|x]; [|by eexists].
  destruct (negb (String.eqb first "load")); [by eexists|].
  destruct (columns_getitem fold (-1)) as [lst|x]; [|by eexists].
  destruct (negb (String.eqb lst "horizon")); by eexists.
Qed.

Lemma split_x_y_pure fold w :
  split_x_y fold w =
  (match target_of fold with
   | Some y => Returned (features_of fold, y)
   | None => Raised out_of_bounds
   end, w).
Proof.
  unfold split_x_y, bind, lift, ret. rewrite iloc_col_target, iloc_slice_features.
  by destruct (target_of fold).
Qed.

End ColumnOrder.

Section ColumnValidation.

Context {E : Type}.
Variable rt : Runtime E.

Lemma call_unfold self (trial : Trial E) (w : world E) :
  __call__ rt self trial w = run_trial rt self trial (after_budget_check self w).
Proof.
  unfold __call__, bind, utcnow, after_budget_check, budget_events.
  destruct (clock w - start_time self >? timedelta 2 0); simpl; [done|].
  destruct w. simpl. by rewrite app_nil_r.
Qed.

(** Once the splitter has returned the folds, the trial is the work on
    those folds. *)
Lemma run_trial_after_split self (trial : Trial E) (w : world E) train val test e1 :
  split_data_train_validation_test rt (input_data self) (test_fraction self)
    (validation_fraction self) true (ext w) = (Returned (train, val, test), e1) ->
  run_trial rt self trial w =
  evaluate_folds rt self trial train val test
    (mk_world (clock w) (stop_requested w) (trace w ++ [split_event self]) e1).
Proof.
  intros Hsplit. unfold run_trial, bind, call, log_event, set_ext. simpl.
  by rewrite Hsplit.
Qed.

(** C5.  When the splitter has returned a train fold whose first column
    is not "load" or whose last column is not "horizon", the call raises:
    the RuntimeError of lines 131-134 when the fold has columns, pandas'
    IndexError when it has none.  The only calls it has made are the stop
    signal, if the budget was spent, and the call to the splitter: the
    regressor's [fit] has not been called. *)
Theorem misordered_train_fails_before_fit
    (self : RegressorObjective E) (trial : Trial E) (w : world E)
    (train val test : frame) (e1 : E) :
  split_data_train_validation_test rt (input_data self) (test_fraction self)
    (validation_fraction self) true (ext w) = (Returned (train, val, test), e1) ->
  head (column_names train) <> Some "load"
  \/ last (column_names train) <> Some "horizon" ->
  exists x,
    __call__ rt self trial w =
      (Raised x,
       mk_world (clock w) (stop_requested (after_budget_check self w))
         (trace w ++ budget_events self w ++ [split_event self]) e1)
    /\ (column_names train <> [] -> x = column_order_error)
    /\ existsb is_fit (budget_events self w ++ [split_event self]) = false.
Proof.
  intros Hsplit Hbad.
  destruct (check_column_order_rejects (E:=E) train Hbad) as (x & Hcheck & Hx).
  exists x. split; [|split; [done|]].
  - rewrite call_unfold.
    rewrite (run_trial_after_split _ _ _ train val test e1) by done.
    unfold evaluate_folds, bind. rewrite Hcheck.
    simpl. by rewrite <- app_assoc.
  - unfold budget_events. by destruct (_ >? _).
Qed.

End ColumnValidation.

(** A train fold that starts with "horizon" and ends with "load". *)
Lemma misordered_train_witness :
  let rt := Examples.runtime_with Examples.misordered_frame Examples.ordered_frame
              Examples.ordered_frame in
  let self := Examples.demo_objective in
  let w := Examples.world_at (Examples.minutes 1) in
  head (column_names Examples.misordered_frame) = Some "horizon"
  /\ exists x,
      __call__ rt self Examples.lower_bound_trial w =
        (Raised x,
         mk_world (clock w) (stop_requested (after_budget_check self w))
           (trace w ++ budget_events self w ++ [split_event self]) 1)
      /\ (column_names Examples.misordered_frame <> [] -> x = column_order_error)
      /\ existsb is_fit (budget_events self w ++ [split_event self]) = false.
Proof.
  split; [reflexivity|].
  apply (misordered_train_fails_before_fit
           (Examples.runtime_with Examples.misordered_frame Examples.ordered_frame
              Examples.ordered_frame)
           Examples.demo_objective Examples.lower_bound_trial
           (Examples.world_at (Examples.minutes 1))
           Examples.misordered_frame Examples.ordered_frame Examples.ordered_frame 1).
  - reflexivity.
  - left. discriminate.
Defined.

(** Splits a statement about the events of a run into one per event. *)
Ltac emitted_events :=
  repeat first
    [ apply Forall_app; split
    | apply List.Forall_cons
    | apply List.Forall_nil
    | match goal with H : _ |- _ => exact H | H : _ |- _ => apply H end
    | exact I
    | done ].

Section FoldsByPosition.

Context {E : Type}.
Variable rt : Runtime E.
Implicit Types (e : E) (evs : list event).

Lemma triple_pure {A} (m : M E A) (r : result A) e
    (Q : result A -> list event -> E -> Prop) :
  (forall w, m w = (r, w)) -> Q r [] e -> triple m e Q.
Proof.
  intros Hm HQ. exists r, [], e. split; [|done].
  intros c s t. by rewrite Hm, app_nil_r.
Qed.

(** The rule for sequencing, with the intermediate assertion computed. *)
Lemma triple_seq {A B} (m : M E A) (k : A -> M E B) e
    (Q : result B -> list event -> E -> Prop) :
  triple m e (fun r evs1 e1 =>
                match r with
                | Returned a => triple (k a) e1 (fun r2 evs2 e2 => Q r2 (evs1 ++ evs2) e2)
                | Raised x => Q (Raised x) evs1 e1
                end) ->
  triple (bind m k) e Q.
Proof. intros Hm. eapply triple_bind; [apply Hm| |]; auto. Qed.

Lemma process_tuple_emits (trial : Trial E) key value e :
  triple (process_tuple rt trial key value) e
    (fun _ evs _ => Forall sampling_event evs).
Proof.
  unfold process_tuple.
  apply triple_seq, triple_lift. destruct (unpack2 value) as [[tup log]|x]; [|done].
  apply triple_seq, triple_lift. destruct (unpack2 tup) as [[lo hi]|x]; [|done].
  destruct (isinstance_float lo || isinstance_float hi).
  - apply triple_seq, triple_lift.
    destruct (py_float (parse_float rt) lo) as [low|x]; [|done].
    apply triple_seq, triple_lift.
    destruct (py_float (parse_float rt) hi) as [high|x]; [|done].
    apply triple_call. by repeat constructor.
  - destruct (isinstance_int lo && isinstance_int hi).
    + apply triple_call. by repeat constructor.
    + by apply triple_raise.
Qed.

Lemma get_trial_parameters_loop_emits (trial : Trial E) items :
  forall param e,
    triple (get_trial_parameters_loop rt trial items param) e
      (fun _ evs _ => Forall sampling_event evs).
Proof.
  induction items as [|[key value] rest IH]; intros param e;
    cbn [get_trial_parameters_loop].
  - by apply triple_ret.
  - destruct (isinstance_tuple value).
    + eapply triple_bind; [apply process_tuple_emits | |auto].
      intros v evs1 e1 H1. eapply triple_weaken; [apply IH|].
      intros r evs2 e2 H2. by apply Forall_app.
    + destruct value; try by apply triple_raise.
      apply triple_seq, triple_call.
      destruct (suggest_categorical trial key items e) as [[v|x] e1]; simpl.
      * eapply triple_weaken; [apply IH|].
        intros r evs2 e2 H2. by repeat constructor.
      * by repeat constructor.
Qed.

Lemma evaluate_metric_emits self test_y forecast_y e :
  triple (evaluate_metric rt self test_y forecast_y) e
    (fun _ evs _ => Forall (metric_event test_y) evs).
Proof.
  unfold evaluate_metric.
  eapply triple_try
    with (Q1 := fun _ evs _ => Forall (metric_event test_y) evs); auto.
  - apply triple_seq, triple_call.
    destruct (py_eval rt _ e) as [[f|x] e1]; simpl; [|by repeat constructor].
    apply triple_seq, triple_call.
    destruct (py_apply rt f test_y forecast_y e1) as [[v|x] e2]; simpl.
    + apply triple_ret. by repeat constructor.
    + by repeat constructor.
  - intros x evs1 e1 H1 _. apply triple_seq, triple_print, triple_ret.
    apply Forall_app. split; [done|]. by repeat constructor.
Qed.

Lemma evaluate_folds_by_position self (trial : Trial E) train val test e :
  triple (evaluate_folds rt self trial train val test) e
    (fun _ evs _ => Forall (split_by_position train val test) evs).
Proof.
  unfold evaluate_folds.
  destruct (check_column_order_pure (E:=E) train) as [r0 Hcheck].
  apply triple_seq, (triple_pure _ r0); [done|].
  destruct r0 as [[]|x]; [|done].
  apply triple_seq, (triple_pure _ _ _ _ (split_x_y_pure train)).
  destruct (target_of train) as [train_y|] eqn:Htrain; [|done].
  apply triple_seq, (triple_pure _ _ _ _ (split_x_y_pure val)).
  destruct (target_of val) as [valid_y|] eqn:Hval; [|done].
  apply triple_seq, (triple_pure _ _ _ _ (split_x_y_pure test)).
  destruct (target_of test) as [test_y|] eqn:Htest; [|done].
  simpl.
  eapply triple_bind; [apply get_trial_parameters_loop_emits | |].
  2:{ intros x evs1 e1 H1. eapply Forall_impl; [apply H1|].
      intros [] Hev; done. }
  intros param evs1 e1 H1.
  assert (Forall (split_by_position train val test) evs1) as H1'.
  { eapply Forall_impl; [apply H1|]. intros [] Hev; done. }
  assert (forall cb,
             split_by_position train val test
               (EvFit (mk_fit_call (features_of train) train_y
                         [(features_of train, train_y); (features_of val, valid_y)]
                         EARLY_STOPPING_ROUNDS (verbose self) (eval_metric self) [cb])))
    as Hfit.
  { intros cb. simpl. split; [done|]. split; [done|]. by exists valid_y. }
  apply triple_seq, triple_call.
  destruct (pruning_function self trial (args_eval self) e1) as [[cb|x] e2]; simpl.
  2:{ emitted_events. }
  apply triple_seq, triple_call.
  destruct (set_params param e2) as [[[]|x] e3]; simpl.
  2:{ emitted_events. }
  apply triple_seq, triple_call.
  destruct (fit _ e3) as [[[]|x] e4]; simpl.
  2:{ emitted_events. }
  apply triple_seq, triple_call.
  destruct (predict (features_of test) e4) as [[forecast_y|x] e5]; simpl.
  2:{ emitted_events. }
  eapply triple_weaken; [apply evaluate_metric_emits|].
  intros r evs e' Hm. simpl. emitted_events.
  eapply Forall_impl; [apply Hm|]. intros [] Hev; try done.
  simpl in Hev. by subst.
Qed.

End FoldsByPosition.

Section SamplerCompleteness.

Context {E : Type}.
Variable rt : Runtime E.
Variable trial : Trial E.

Lemma keys_dict_set_fresh {V} (d : dict V) k v :
  k ∉ keys d -> keys (dict_set d k v) = keys d ++ [k].
Proof.
  induction d as [|[k' v'] d IH]; intros Hk; simpl; [done|].
  unfold keys in *. simpl in Hk. apply not_elem_of_cons in Hk as [Hne Hk].
  destruct (String.eqb_spec k' k) as [->|_]; [done|].
  simpl. by rewrite IH.
Qed.

Lemma int_value_isinstance v a : int_value v = Some a -> isinstance_int v = true.
Proof. by destruct v. Qed.

Lemma int_value_not_float v a : int_value v = Some a -> isinstance_float v = false.
Proof. by destruct v. Qed.

(** Only the two bounds and the flag of a pair declaration matter, not
    the container the bounds come in. *)
Lemma process_tuple_unpacked key bounds lo hi log (w : world E) :
  unpack2 bounds = Returned (lo, hi) ->
  process_tuple rt trial key (VTuple [bounds; log]) w =
  process_tuple rt trial key (pair_decl lo hi log) w.
Proof.
  intros Hb. unfold process_tuple, pair_decl, bind, lift. simpl. by rewrite Hb.
Qed.

(** One usable declaration is sampled by one call to a primitive, under
    the key of the declaration. *)
Lemma usable_declaration_sampled key value param rest (w : world E) :
  usable_declaration (parse_float rt) value = true ->
  primitives_return trial ->
  exists v ev e',
    suggest_key ev = Some key
    /\ get_trial_parameters_loop rt trial ((key, value) :: rest) param w =
       get_trial_parameters_loop rt trial rest (dict_set param key v)
         (mk_world (clock w) (stop_requested w) (trace w ++ [ev]) e').
Proof.
  intros Huse (Hfloat & Hint & Hcat). cbn [get_trial_parameters_loop].
  destruct value as [| | | | |items|choices]; try done.
  - destruct items as [|bounds [|log [|]]]; try done. simpl in Huse.
    change (isinstance_tuple (VTuple [bounds; log])) with true. cbv beta iota.
    destruct (unpack2 bounds) as [[lo hi]|] eqn:Hb; [|done].
    unfold bind at 1. rewrite (process_tuple_unpacked _ _ lo hi) by done.
    destruct (isinstance_float lo || isinstance_float hi) eqn:Hf.
    + destruct (py_float (parse_float rt) lo) as [low|] eqn:Hlo; [|done].
      destruct (py_float (parse_float rt) hi) as [high|] eqn:Hhi; [|done].
      destruct (Hfloat key low high log (ext w) Huse) as (v & e' & Hcall).
      exists v, (EvSuggestFloat key low high log), e'. split; [done|].
      rewrite (process_tuple_float _ _ _ _ _ _ low high) by done.
      unfold call, log_event, set_ext. simpl. by rewrite Hcall.
    + destruct (int_value lo) as [a|] eqn:Ha; [|done].
      destruct (int_value hi) as [b|] eqn:Hb'; [|done].
      apply Z.leb_le in Huse.
      destruct (Hint key lo hi a b (ext w) Ha Hb' Huse) as (v & e' & Hcall).
      exists v, (EvSuggestInt key lo hi), e'. split; [done|].
      rewrite process_tuple_int;
        [|done|by rewrite (int_value_isinstance _ _ Ha), (int_value_isinstance _ _ Hb')].
      unfold call, log_event, set_ext. simpl. by rewrite Hcall.
  - change (isinstance_tuple (VList choices)) with false. cbv beta iota.
    assert (choices <> []) as Hne by (by destruct choices).
    destruct (Hcat key choices (ext w) Hne) as (v & e' & Hcall).
    exists v, (EvSuggestCategorical key choices), e'. split; [done|].
    unfold bind, call, log_event, set_ext. simpl. by rewrite Hcall.
Qed.

Lemma get_trial_parameters_loop_complete items :
  forall param (w : world E),
    NoDup (keys param ++ keys items) ->
    Forall (fun kv => usable_declaration (parse_float rt) kv.2 = true) items ->
    primitives_return trial ->
    exists param' evs e',
      get_trial_parameters_loop rt trial items param w =
        (Returned param',
         mk_world (clock w) (stop_requested w) (trace w ++ evs) e')
      /\ keys param' = keys param ++ keys items
      /\ map suggest_key evs = map Some (keys items).
Proof.
  induction items as [|[key value] rest IH]; intros param w Hnodup Huse Hret.
  - exists param, [], (ext w). simpl. rewrite !app_nil_r. by destruct w.
  - apply Forall_cons in Huse as [Hvalue Hrest]. simpl in Hvalue.
    destruct (usable_declaration_sampled key value param rest w Hvalue Hret)
      as (v & ev & e1 & Hkey & ->).
    assert (key ∉ keys param) as Hfresh.
    { unfold keys in *. simpl in Hnodup. apply NoDup_app in Hnodup as (_ & Hdisj & _).
      intros Hin. apply (Hdisj key Hin). by left. }
    destruct (IH (dict_set param key v)
                (mk_world (clock w) (stop_requested w) (trace w ++ [ev]) e1))
      as (param' & evs & e' & -> & Hkeys & Hevs); [|done|done|].
    { rewrite keys_dict_set_fresh by done. unfold keys in *. simpl in Hnodup.
      by rewrite <- app_assoc. }
    exists param', (ev :: evs), e'. simpl. split; [|split].
    + by rewrite <- app_assoc.
    + rewrite Hkeys, keys_dict_set_fresh by done. unfold keys. simpl.
      by rewrite <- app_assoc.
    + by rewrite Hkey, Hevs.
Qed.

(** C7, as amended.  For a search space with one declaration per key,
    each of them usable (an ordered pair of integers, an ordered pair with
    a float bound whose bounds convert with [float()], or a non-empty
    collection), and a driver whose primitives return on non-empty ranges
    and collections, the sampler returns a mapping with exactly the keys
    of the search space, in its order, after one call to a primitive per
    key, in the same order. *)
Theorem sampler_returns_one_entry_per_key (model_params : dict pyval) (w : world E) :
  NoDup (keys model_params) ->
  Forall (fun kv => usable_declaration (parse_float rt) kv.2 = true) model_params ->
  primitives_return trial ->
  exists param evs e',
    get_trial_parameters rt model_params trial w =
      (Returned param, mk_world (clock w) (stop_requested w) (trace w ++ evs) e')
    /\ keys param = keys model_params
    /\ map suggest_key evs = map Some (keys model_params).
Proof.
  intros Hnodup Huse Hret. unfold get_trial_parameters.
  apply (get_trial_parameters_loop_complete model_params [] w); done.
Qed.

End SamplerCompleteness.

(** The sampler of the examples returns on non-empty ranges and
    collections. *)
Lemma lower_bound_trial_returns : primitives_return Examples.lower_bound_trial.
Proof.
  split; [|split].
  - intros key low high log e Hle. simpl. unfold Examples.tick. rewrite Hle. eauto.
  - intros key lo hi a b e Ha Hb Hle. simpl. unfold Examples.tick.
    rewrite Ha, Hb. destruct (Z.leb_spec a b); [eauto|lia].
  - intros key [|c choices] e Hne; [done|]. simpl. unfold Examples.tick. eauto.
Qed.

Lemma demo_space_usable :
  Forall (fun kv => usable_declaration (parse_float Examples.demo_runtime) kv.2 = true)
    Examples.demo_space.
Proof. repeat constructor. Qed.

Lemma demo_space_keys : NoDup (keys Examples.demo_space).
Proof. apply (bool_decide_unpack _). by vm_compute. Qed.

(** The search space eta, max_depth, booster of the examples. *)
Lemma sampler_returns_one_entry_per_key_witness :
  let rt := Examples.demo_runtime in
  let trial := Examples.lower_bound_trial in
  let w := Examples.world_at 0 in
  exists param evs e',
    get_trial_parameters rt Examples.demo_space trial w =
      (Returned param, mk_world (clock w) (stop_requested w) (trace w ++ evs) e')
    /\ keys param = keys Examples.demo_space
    /\ map suggest_key evs = map Some (keys Examples.demo_space).
Proof.
  apply (sampler_returns_one_entry_per_key Examples.demo_runtime
           Examples.lower_bound_trial Examples.demo_space (Examples.world_at 0)).
  - exact demo_space_keys.
  - exact demo_space_usable.
  - exact lower_bound_trial_returns.
Defined.

(** C7, a counterexample to the sentence of the spec: the declaration
    [((1.5, 10**400), False)] is an ordered pair with numeric bounds, yet
    the sampler returns no mapping: [float(10**400)] raises OverflowError
    before anything is sampled. *)
Lemma numeric_bound_beyond_double_counterexample :
  let space :=
    [("scale", pair_decl (VFloat Examples.three_halves) (VInt (10 ^ 400)) (VBool false))] in
  forallb numeric_pair_or_list (map snd space) = true
  /\ get_trial_parameters Examples.demo_runtime space Examples.lower_bound_trial
       (Examples.world_at 0)
     = (Raised (mk_exn OverflowError "int too large to convert to float"),
        Examples.world_at 0).
Proof. vm_compute. done. Qed.

Section TrainOnlyValidation.

Context {E : Type}.
Variable rt : Runtime E.

(** C9, as amended.  The test of lines 129-134 reads the train fold only.
    When the train fold is ordered load, ..., horizon, the test passes
    whatever the columns of the validation and test folds are; and when
    each of these two folds has at least one column and the sampler, the
    pruning-callback factory and [set_params] return, the trial reaches
    [fit], whose [eval_set] holds the validation fold split by position. *)
Theorem only_train_order_is_validated
    (self : RegressorObjective E) (trial : Trial E) (w : world E)
    (train val test : frame) (e1 : E) (valid_y test_y : series) :
  split_data_train_validation_test rt (input_data self) (test_fraction self)
    (validation_fraction self) true (ext w) = (Returned (train, val, test), e1) ->
  head (column_names train) = Some "load" ->
  last (column_names train) = Some "horizon" ->
  target_of val = Some valid_y ->
  target_of test = Some test_y ->
  (forall e, exists param evs e',
      runs (get_trial_parameters rt (model_params self) trial) e
        (Returned param) evs e') ->
  (forall e, exists cb e',
      pruning_function self trial (args_eval self) e = (Returned cb, e')) ->
  (forall param e, exists e', @set_params E (model self) param e = (Returned tt, e')) ->
  (forall w' : world E, check_column_order train w' = (Returned tt, w'))
  /\ exists train_y param sampled cb rest r e',
      target_of train = Some train_y
      /\ __call__ rt self trial w =
         (r, mk_world (clock w) (stop_requested (after_budget_check self w))
               (trace w ++ budget_events self w ++ split_event self :: sampled
                  ++ EvPruning (args_eval self) :: EvSetParams param
                  :: EvFit (mk_fit_call (features_of train) train_y
                              [(features_of train, train_y);
                               (features_of val, valid_y)]
                              EARLY_STOPPING_ROUNDS (verbose self)
                              (eval_metric self) [cb])
                  :: rest) e').
Proof.
  intros Hsplit Hfirst Hlast Hval Htest Hsample Hprune Hset.
  split; [intros w'; by apply check_column_order_ordered|].
  destruct (target_of train) as [train_y|] eqn:Htrain.
  2:{ revert Htrain Hfirst. unfold target_of, column_names.
      by destruct (columns train) as [|[name vals] cols]. }
  destruct (Hsample e1) as (param & sampled & e2 & Hruns).
  destruct (Hprune e2) as (cb & e3 & Hcb).
  destruct (Hset param e3) as (e4 & Hparams).
  set (fc := mk_fit_call (features_of train) train_y
               [(features_of train, train_y); (features_of val, valid_y)]
               EARLY_STOPPING_ROUNDS (verbose self) (eval_metric self) [cb]).
  destruct (@fit E (model self) fc e4) as [rfit e5] eqn:Hfit.
  assert (uniform
            (let* _ := lift rfit in
             let* forecast_y := call (EvPredict (features_of test))
                                     (@predict E (model self) (features_of test)) in
             evaluate_metric rt self test_y forecast_y)) as Hrest.
  { uniform_auto. apply uniform_evaluate_metric. }
  destruct (Hrest e5) as (r & rest & e' & Hrest_runs & _).
  exists train_y, param, sampled, cb, rest, r, e'. split; [done|].
  rewrite call_unfold.
  rewrite (run_trial_after_split _ _ _ _ train val test e1) by done.
  unfold evaluate_folds.
  unfold bind at 1. rewrite check_column_order_ordered by done.
  unfold bind at 1. rewrite split_x_y_pure, Htrain.
  unfold bind at 1. rewrite split_x_y_pure, Hval.
  unfold bind at 1. rewrite split_x_y_pure, Htest.
  unfold bind at 1. rewrite Hruns.
  erewrite bind_call by (cbn [ext]; exact Hcb). unfold bind at 1, lift at 1.
  erewrite bind_call by (cbn [ext]; exact Hparams). unfold bind at 1, lift at 1.
  fold fc. erewrite bind_call by (cbn [ext]; exact Hfit).
  cbn [clock stop_requested trace ext].
  rewrite Hrest_runs. f_equal. f_equal.
  unfold after_budget_check. cbn [trace].
  rewrite <- !app_assoc. cbn [app]. by rewrite <- ?app_assoc.
Qed.

End TrainOnlyValidation.

(** On a usable search space the sampler returns, whatever the clock, the
    stop flag and the earlier trace are. *)
Lemma sampler_runs {E : Type} (rt : Runtime E) (trial : Trial E)
    (model_params : dict pyval) :
  NoDup (keys model_params) ->
  Forall (fun kv => usable_declaration (parse_float rt) kv.2 = true) model_params ->
  primitives_return trial ->
  forall e, exists param evs e',
    runs (get_trial_parameters rt model_params trial) e (Returned param) evs e'.
Proof.
  intros Hnodup Huse Hret e.
  destruct (uniform_get_trial_parameters rt trial model_params e)
    as (r & evs & e' & Hruns & _).
  destruct (get_trial_parameters_loop_complete rt trial model_params []
              (mk_world 0 false [] e) Hnodup Huse Hret)
    as (param & evs2 & e2 & Heq & _).
  unfold get_trial_parameters in Hruns. rewrite Hruns in Heq.
  injection Heq as -> _ _. by exists param, evs, e'.
Qed.

(** The validation and test folds start with "horizon" and end with
    "load"; the train fold is in order. *)
Lemma only_train_order_is_validated_witness :
  let rt := Examples.runtime_with Examples.ordered_frame Examples.misordered_frame
              Examples.misordered_frame in
  let self := Examples.demo_objective in
  let trial := Examples.lower_bound_trial in
  let w := Examples.world_at (Examples.minutes 1) in
  let train := Examples.ordered_frame in
  let val := Examples.misordered_frame in
  let valid_y := mk_series [Examples.hour 2] "horizon" [Examples.one] in
  column_names val = ["horizon"; "temp"; "load"]
  /\ (forall w' : world Z, check_column_order train w' = (Returned tt, w'))
  /\ exists train_y param sampled cb rest r e',
      target_of train = Some train_y
      /\ __call__ rt self trial w =
         (r, mk_world (clock w) (stop_requested (after_budget_check self w))
               (trace w ++ budget_events self w ++ split_event self :: sampled
                  ++ EvPruning (args_eval self) :: EvSetParams param
                  :: EvFit (mk_fit_call (features_of train) train_y
                              [(features_of train, train_y);
                               (features_of val, valid_y)]
                              EARLY_STOPPING_ROUNDS (verbose self)
                              (eval_metric self) [cb])
                  :: rest) e').
Proof.
  split; [reflexivity|].
  apply (only_train_order_is_validated
           (Examples.runtime_with Examples.ordered_frame Examples.misordered_frame
              Examples.misordered_frame)
           Examples.demo_objective Examples.lower_bound_trial
           (Examples.world_at (Examples.minutes 1))
           Examples.ordered_frame Examples.misordered_frame Examples.misordered_frame
           1
           (mk_series [Examples.hour 2] "horizon" [Examples.one])
           (mk_series [Examples.hour 2] "horizon" [Examples.one])).
  - reflexivity.
  - reflexivity.
  - reflexivity.
  - reflexivity.
  - reflexivity.
  - apply sampler_runs.
    + exact demo_space_keys.
    + exact demo_space_usable.
    + exact lower_bound_trial_returns.
  - intros e. by exists Examples.some_callback, (e + 1).
  - intros param e. by exists (e + 1).
Defined.

(** C9, a counterexample to the sentence of the spec: the train fold is in
    order and the validation fold, which has no column at all, is not; no
    column-order error is raised, but the trial does not reach [fit]:
    taking column 0 of the validation fold raises IndexError right after
    the test. *)
Lemma validation_fold_without_columns_counterexample :
  let rt := Examples.runtime_with Examples.ordered_frame Examples.no_columns_frame
              Examples.ordered_frame in
  let run := __call__ rt Examples.demo_objective Examples.lower_bound_trial
               (Examples.world_at (Examples.minutes 1)) in
  column_names Examples.ordered_frame = ["load"; "temp"; "horizon"]
  /\ column_names Examples.no_columns_frame = []
  /\ fst run = Raised out_of_bounds
  /\ trace (snd run) = [split_event Examples.demo_objective]
  /\ existsb is_fit (trace (snd run)) = false.
Proof. vm_compute. done. Qed.

Import ApplyFeatures.

Section FeatureFilter.

Variable env : Helpers.
Implicit Types (h : heap) (data : ref) (requested : list string) (fr : frame).

Lemma requested_keys_skip requested key (f : featfunc) rest :
  str_in key requested = false ->
  requested_keys ((key, f) :: rest) requested = requested_keys rest requested.
Proof.
  intros Hno. unfold requested_keys, keys. simpl.
  rewrite filter_cons. destruct (decide _) as [Hyes|_]; [|done].
  simpl in Hyes. congruence.
Qed.

Lemma requested_keys_take requested key (f : featfunc) rest :
  str_in key requested = true ->
  requested_keys ((key, f) :: rest) requested = key :: requested_keys rest requested.
Proof.
  intros Hyes. unfold requested_keys, keys. simpl.
  rewrite filter_cons. by destruct (decide _).
Qed.

Lemma str_in_label_count key (names : list string) :
  str_in key names =
  negb (Nat.eqb (length (List.filter (String.eqb key) names)) 0).
Proof.
  unfold str_in. induction names as [|n names IH]; simpl; [done|].
  destruct (String.eqb key n); simpl; [done|exact IH].
Qed.

(** A successful assignment to [key] leaves the labels with [key] among
    them, added at the end when it was not there. *)
Lemma column_names_setitem fr key vals fr' :
  setitem fr key vals = Returned fr' ->
  column_names fr' = add_name (column_names fr) key.
Proof.
  unfold setitem, add_name, label_count. rewrite str_in_label_count.
  destruct (length _) as [|[|n]]; simpl; [intros [= <-]|intros [= <-]|done];
    unfold column_names; simpl.
  - by rewrite map_app.
  - rewrite map_map. erewrite map_ext; [done|].
    intros [name col]. simpl. by destruct (String.eqb name key).
Qed.

Lemma column_names_off_axis_frame fr key after :
  column_names (off_axis_frame fr key after) = add_name (column_names fr) key.
Proof.
  unfold off_axis_frame, column_names at 1. simpl. rewrite map_map. simpl.
  by rewrite map_id.
Qed.

(** One turn of the loop on a requested name: either the frame behind
    [data] is replaced by one with the label [key], and the name is noted
    as computed and assigned, or the turn raises with the store as it was
    and no name assigned. *)
Lemma assign_feature_outcome data key (f : featfunc) h :
  (exists fr fr',
      store h !! data = Some fr
      /\ assign_feature env data key f h =
         (Returned tt,
          mk_heap (<[data := fr']> (store h)) (computed h ++ [key])
            (assigned h ++ [key]))
      /\ column_names fr' = add_name (column_names fr) key)
  \/ (exists e cs,
        assign_feature env data key f h =
        (Raised e, mk_heap (store h) (computed h ++ cs) (assigned h))
        /\ (cs = [] \/ cs = [key])).
Proof.
  assert (h = mk_heap (store h) (computed h ++ []) (assigned h)) as Hsame.
  { rewrite app_nil_r. by destruct h. }
  destruct (assign_feature env data key f h) as [r h1] eqn:Hrun.
  unfold assign_feature in Hrun. unfold bind at 1, deref in Hrun.
  destruct (store h !! data) as [fr|] eqn:Hfr.
  2:{ injection Hrun as <- <-. right. exists dangling, [].
      split; [by rewrite <- Hsame|by left]. }
  unfold bind at 1, apply_column0, bind at 1, lift at 1 in Hrun.
  destruct (iloc_list1 fr 0) as [one|e].
  2:{ injection Hrun as <- <-. right. exists e, [].
      split; [by rewrite <- Hsame|by left]. }
  match goal with
  | |- ?G =>
      assert (forall value,
                 setitem_in_place env data key f value
                   (mk_heap (store h) (computed h ++ [key]) (assigned h)) =
                 (r, h1) -> G) as Hset
  end.
  { intros value. unfold setitem_in_place. simpl. rewrite Hfr.
    destruct value as [vals|].
    - destruct (setitem fr key vals) as [fr'|e] eqn:Hs; intros [= <- <-].
      + left. exists fr, fr'. do 2 (split; [done|]).
        by apply column_names_setitem in Hs.
      + right. exists e, [key]. split; [done|by right].
    - destruct (assign_off_axis env key f fr) as [after|e]; intros [= <- <-].
      + left. exists fr; eexists. do 2 (split; [done|]).
        apply column_names_off_axis_frame.
      + right. exists e, [key]. split; [done|by right]. }
  destruct (index fr) as [|t idx].
  - unfold bind at 1, note_computed, ret in Hrun. by apply (Hset None).
  - unfold bind at 1, lift at 1 in Hrun.
    destruct (iloc_col one 0) as [x|e].
    2:{ injection Hrun as <- <-. right. exists e, [].
        split; [by rewrite <- Hsame|by left]. }
    unfold bind at 1, note_computed in Hrun. unfold bind at 1, lift at 1 in Hrun.
    destruct (f x) as [vals|e].
    2:{ injection Hrun as <- <-. right. exists e, [key]. split; [done|by right]. }
    unfold ret in Hrun. by eapply Hset.
Qed.

(** What the loop of lines 80-83 computes and assigns: names that are
    requested, and, when the loop runs to its end, exactly the requested
    names of the table, in the order of the table. *)
Lemma add_features_loop_log data requested items :
  forall h r h1,
    add_features_loop env data requested items h = (r, h1) ->
    exists cs asg,
      computed h1 = computed h ++ cs
      /\ assigned h1 = assigned h ++ asg
      /\ Forall (is_requested requested) cs
      /\ Forall (is_requested requested) asg
      /\ (r = Returned tt -> cs = requested_keys items requested /\ asg = cs).
Proof.
  induction items as [|[key f] rest IH]; intros h r h1 Hrun;
    cbn [add_features_loop] in Hrun.
  - injection Hrun as <- <-. exists [], []. by rewrite !app_nil_r.
  - destruct (str_in key requested) eqn:Hreq; simpl in Hrun.
    2:{ destruct (IH _ _ _ Hrun) as (cs & asg & Hc & Ha & Hcs & Hasg & Hret).
        exists cs, asg. by rewrite requested_keys_skip. }
    unfold bind at 1 in Hrun.
    destruct (assign_feature_outcome data key f h)
      as [(fr & fr' & Hfr & Hturn & _)|(e & cs0 & Hturn & Hcs0)];
      rewrite Hturn in Hrun.
    + destruct (IH _ _ _ Hrun) as (cs & asg & Hc & Ha & Hcs & Hasg & Hret).
      simpl in Hc, Ha. exists (key :: cs), (key :: asg).
      rewrite Hc, Ha, <- !app_assoc. repeat split; try done.
      * by constructor.
      * by constructor.
      * rewrite requested_keys_take by done. by destruct (Hret H) as [-> _].
      * by destruct (Hret H) as [_ ->].
    + injection Hrun as <- <-. exists cs0, []. simpl. rewrite app_nil_r.
      repeat split; try done.
      destruct Hcs0 as [->| ->]; by repeat constructor.
Qed.

Lemma weather_steps_log data features h r h' :
  weather_steps env data features h = (r, h') ->
  computed h' = computed h /\ assigned h' = assigned h.
Proof.
  unfold weather_steps, bind, call_helper, ret.
  destruct (add_additional_wind_features env data features (store h)) as [[d1|x] st1];
    simpl.
  - destruct (add_humidity_features env d1 features st1) as [[d2|x] st2];
      by intros [= <- <-].
  - by intros [= <- <-].
Qed.

Lemma apply_features_no_table data features (horizon : spec_float) x h :
  feature_table env features horizon = Raised x ->
  apply_features env data features horizon h = (Raised x, h).
Proof. intros Ht. unfold apply_features, bind, lift. by rewrite Ht. Qed.

Lemma apply_features_with_list data requested (horizon : spec_float) table r h h1 :
  feature_table env (Some requested) horizon = Returned table ->
  add_features_loop env data requested table h = (r, h1) ->
  apply_features env data (Some requested) horizon h =
  match r with
  | Returned _ => weather_steps env data (Some requested) h1
  | Raised x => (Raised x, h1)
  end.
Proof.
  intros Ht Hloop. unfold apply_features, bind, lift. by rewrite Ht, Hloop.
Qed.

(** C8, as amended.  With a list of requested features, the feature
    functions that are applied and the columns that are assigned are
    requested ones, and when the call returns they are exactly the
    requested names of the table of lag, calendar and holiday functions.
    Without a list ([features] is [None]) the loop is skipped: no feature
    function is applied, no column is assigned, and the frame goes to the
    wind and humidity helpers as it came. *)
Theorem features_are_filtered_by_name data (horizon : spec_float) h :
  (forall requested,
      let run := apply_features env data (Some requested) horizon h in
      exists cs asg,
        computed run.2 = computed h ++ cs
        /\ assigned run.2 = assigned h ++ asg
        /\ Forall (is_requested requested) cs
        /\ Forall (is_requested requested) asg
        /\ forall table out,
            feature_table env (Some requested) horizon = Returned table ->
            run.1 = Returned out ->
            cs = requested_keys table requested /\ asg = cs)
  /\ (let run := apply_features env data None horizon h in
      run = bind (lift (feature_table env None horizon))
                 (fun _ => weather_steps env data None) h
      /\ computed run.2 = computed h
      /\ assigned run.2 = assigned h).
Proof.
  split.
  - intros requested. simpl.
    destruct (feature_table env (Some requested) horizon) as [table|x] eqn:Htable.
    2:{ rewrite (apply_features_no_table _ _ _ x) by done.
        exists [], []. simpl. rewrite !app_nil_r. by do 4 (split; [done|]). }
    destruct (add_features_loop env data requested table h) as [r h1] eqn:Hloop.
    rewrite (apply_features_with_list _ _ _ table r _ h1) by done.
    destruct (add_features_loop_log _ _ _ _ _ _ Hloop)
      as (cs & asg & Hc & Ha & Hcs & Hasg & Hret).
    exists cs, asg. destruct r as [[]|x].
    + destruct (weather_steps env data (Some requested) h1) as [r2 h2] eqn:Hw.
      destruct (weather_steps_log _ _ _ _ _ Hw) as [Hc2 Ha2]. simpl.
      rewrite Hc2, Ha2. do 4 (split; [done|]).
      intros table' out [= <-] _. by apply Hret.
    + simpl. by do 4 (split; [done|]).
  - simpl.
    assert (apply_features env data None horizon h =
            bind (lift (feature_table env None horizon))
                 (fun _ => weather_steps env data None) h) as Hrun.
    { unfold apply_features, bind, lift, ret.
      by destruct (feature_table env None horizon). }
    split; [done|]. rewrite Hrun. unfold bind, lift.
    destruct (feature_table env None horizon) as [table|x]; [|done].
    destruct (weather_steps env data None h) as [r2 h2] eqn:Hw.
    by destruct (weather_steps_log _ _ _ _ _ Hw) as [Hc2 Ha2].
Qed.

End FeatureFilter.

(** C8, a counterexample to the sentence of the spec: without a list of
    features the table holds the lag, calendar and holiday functions, yet
    none is applied and the frame comes back with the column it had. *)
Lemma no_list_no_feature_counterexample :
  let run := apply_features Examples.plain_helpers Examples.caller_data None
               default_horizon Examples.one_frame_heap in
  match feature_table Examples.plain_helpers None default_horizon with
  | Returned table =>
      keys table = ["T-1d"; "IsWeekendDay"; "IsWeekDay"; "IsSunday"; "Month";
                    "Quarter"; "IsNationalHoliday"]
  | Raised _ => False
  end
  /\ run.1 = Returned Examples.caller_data
  /\ column_names <$> (store run.2 !! Examples.caller_data) = Some ["load"]
  /\ computed run.2 = []
  /\ assigned run.2 = [].
Proof. vm_compute. done. Qed.

Section InPlace.

Variable env : Helpers.
Implicit Types (h : heap) (data : ref) (requested : list string) (fr : frame).

Lemma str_in_elem_of (x : string) (l : list string) : str_in x l = true <-> x ∈ l.
Proof.
  unfold str_in. rewrite existsb_exists. split.
  - intros (y & Hin & Heq). apply String.eqb_eq in Heq as ->.
    by apply list_elem_of_In.
  - intros Hin. exists x. split; [by apply list_elem_of_In | apply String.eqb_refl].
Qed.

Lemma add_name_keeps_names names key : names ⊆ add_name names key.
Proof.
  unfold add_name. destruct (str_in key names); [done|].
  intros c Hc. apply elem_of_app. by left.
Qed.

Lemma add_name_has_name names key : key ∈ add_name names key.
Proof.
  unfold add_name. destruct (str_in key names) eqn:Hin.
  - by apply str_in_elem_of.
  - apply elem_of_app. right. by apply list_elem_of_singleton.
Qed.

(** When the loop runs to its end, the object behind [data] has kept its
    columns and has one column for every requested name of the table. *)
Lemma add_features_loop_in_place data requested items :
  forall h h1 fr,
    store h !! data = Some fr ->
    add_features_loop env data requested items h = (Returned tt, h1) ->
    exists fr1,
      store h1 !! data = Some fr1
      /\ column_names fr ⊆ column_names fr1
      /\ forall k, k ∈ requested_keys items requested -> k ∈ column_names fr1.
Proof.
  induction items as [|[key f] rest IH]; intros h h1 fr Hfr Hrun;
    cbn [add_features_loop] in Hrun.
  - injection Hrun as <-. exists fr. split; [done|]. split; [done|].
    intros k Hk. by apply elem_of_nil in Hk.
  - destruct (str_in key requested) eqn:Hreq; simpl in Hrun.
    2:{ destruct (IH _ _ _ Hfr Hrun) as (fr1 & H1 & H2 & H3).
        exists fr1. by rewrite requested_keys_skip. }
    unfold bind at 1 in Hrun.
    destruct (assign_feature_outcome env data key f h)
      as [(fr0 & fr' & Hfr0 & Hturn & Hnames)|(e & cs0 & Hturn & _)];
      rewrite Hturn in Hrun; [|done].
    rewrite Hfr in Hfr0. injection Hfr0 as <-.
    destruct (IH _ h1 fr' (lookup_insert_eq _ _ _) Hrun) as (fr1 & H1 & H2 & H3).
    exists fr1. split; [done|]. split.
    + etrans; [|exact H2]. rewrite Hnames. apply add_name_keeps_names.
    + intros k. rewrite requested_keys_take by done.
      intros [->|Hk]%elem_of_cons; [|by apply H3].
      apply H2. rewrite Hnames. apply add_name_has_name.
Qed.

Lemma weather_steps_keep_columns data features h r h' fr :
  helpers_keep_columns env ->
  store h !! data = Some fr ->
  weather_steps env data features h = (r, h') ->
  exists fr', store h' !! data = Some fr' /\ column_names fr ⊆ column_names fr'.
Proof.
  intros [Hwind Hhum] Hfr. unfold weather_steps, bind, call_helper, ret.
  destruct (add_additional_wind_features env data features (store h))
    as [r1 st1] eqn:H1.
  destruct (Hwind _ _ _ _ _ H1 data fr Hfr) as (fr1 & Hfr1 & Hsub1).
  destruct r1 as [d1|x]; simpl.
  - destruct (add_humidity_features env d1 features st1) as [r2 st2] eqn:H2.
    destruct (Hhum _ _ _ _ _ H2 data fr1 Hfr1) as (fr2 & Hfr2 & Hsub2).
    destruct r2; intros [= <- <-]; exists fr2; split; try done; by etrans.
  - intros [= <- <-]. by exists fr1.
Qed.

(** C10.  With a list of requested features, a call of [apply_features]
    that returns has written into the caller's object: the frame behind
    the reference the caller passed still has the columns it had and now
    has a column for every requested name of the table of lag, calendar
    and holiday functions; the wind and humidity helpers, which receive the
    same reference, are taken not to remove columns. *)
Theorem requested_features_are_written_in_place
    data requested (horizon : spec_float) h fr table out h' :
  store h !! data = Some fr ->
  feature_table env (Some requested) horizon = Returned table ->
  helpers_keep_columns env ->
  apply_features env data (Some requested) horizon h = (Returned out, h') ->
  exists fr',
    store h' !! data = Some fr'
    /\ column_names fr ⊆ column_names fr'
    /\ forall k, k ∈ requested_keys table requested -> k ∈ column_names fr'.
Proof.
  intros Hfr Htable Hkeep Hrun.
  destruct (add_features_loop env data requested table h) as [r h1] eqn:Hloop.
  rewrite (apply_features_with_list env _ _ _ table r _ h1) in Hrun by done.
  destruct r as [[]|x]; [|done].
  destruct (add_features_loop_in_place _ _ _ _ _ _ Hfr Hloop) as (fr1 & H1 & H2 & H3).
  destruct (weather_steps_keep_columns _ _ _ _ _ _ Hkeep H1 Hrun) as (fr' & H4 & H5).
  exists fr'. split; [done|]. split; [by etrans|].
  intros k Hk. by apply H5, H3.
Qed.

End InPlace.

Lemma plain_helpers_keep_columns : helpers_keep_columns Examples.plain_helpers.
Proof.
  split; intros data features st r st' [= <- <-] l fr Hfr; by exists fr.
Qed.

(** The caller's frame, with the column load only, gains the two
    requested columns the table knows. *)
Lemma requested_features_are_written_in_place_witness :
  let requested := ["IsSunday"; "T-1d"; "unknown"] in
  let run := apply_features Examples.plain_helpers Examples.caller_data
               (Some requested) default_horizon Examples.one_frame_heap in
  store Examples.one_frame_heap !! Examples.caller_data = Some Examples.load_frame
  /\ run.1 = Returned Examples.caller_data
  /\ exists fr',
      store run.2 !! Examples.caller_data = Some fr'
      /\ column_names Examples.load_frame ⊆ column_names fr'
      /\ forall k,
          k ∈ requested_keys
                [("T-1d", fun x => Returned (s_values x));
                 ("IsWeekendDay", IsWeekendDay); ("IsWeekDay", IsWeekDay);
                 ("IsSunday", IsSunday); ("Month", Month); ("Quarter", Quarter);
                 ("IsNationalHoliday",
                  fun x => Returned (map (fun _ => VBool false) (s_index x)))]
                requested ->
          k ∈ column_names fr'.
Proof.
  split; [reflexivity|]. split; [reflexivity|].
  apply (requested_features_are_written_in_place Examples.plain_helpers
           Examples.caller_data ["IsSunday"; "T-1d"; "unknown"] default_horizon
           Examples.one_frame_heap Examples.load_frame _ Examples.caller_data _).
  - reflexivity.
  - reflexivity.
  - exact plain_helpers_keep_columns.
  - reflexivity.
Defined.

(** The declaration [((1.0, 2.0), False)] with the sampler of the examples,
    which keeps to its bounds. *)
Lemma process_tuple_by_bound_types_witness :
  let lo := Examples.one in
  let hi := Examples.two in
  let w := Examples.world_at 0 in
  let rt := Examples.demo_runtime in
  samples_within_bounds Examples.lower_bound_trial
  /\ forall v w',
      process_tuple rt Examples.lower_bound_trial "eta"
        (pair_decl lo hi (VBool false)) w = (Returned v, w') ->
      exists low high x,
        py_float (parse_float rt) lo = Returned low
        /\ py_float (parse_float rt) hi = Returned high
        /\ v = VFloat x /\ float_leb low x = true /\ float_leb x high = true
        /\ trace w' = trace w ++ [EvSuggestFloat "eta" low high (VBool false)].
Proof.
  split; [exact lower_bound_trial_within_bounds|].
  apply (process_tuple_by_bound_types Examples.demo_runtime Examples.lower_bound_trial
           "eta" Examples.one Examples.two (VBool false) (Examples.world_at 0)).
  exact lower_bound_trial_within_bounds.
Defined.

(* ===================================================================== *)
(** * Further properties of objective.py                                  *)
(* ===================================================================== *)

Import Pipeline.

Section Stages.

Lemma from_stage_nil k : from_stage k [].
Proof. split; constructor. Qed.

Lemma from_stage_cons k k' ev evs :
  phase ev = k' -> k <= k' -> from_stage (k' + 1) evs -> from_stage k (ev :: evs).
Proof.
  intros Hev Hk [Hsorted Hlow]. split.
  - constructor; [done|].
    eapply Forall_impl; [apply Hlow|]. intros b Hb. left. simpl in Hb. lia.
  - constructor; [lia|].
    eapply Forall_impl; [apply Hlow|]. intros b Hb. simpl in Hb. lia.
Qed.

Lemma from_stage_mono k k' evs : k <= k' -> from_stage k' evs -> from_stage k evs.
Proof.
  intros Hk [Hsorted Hlow]. split; [done|].
  eapply Forall_impl; [apply Hlow|]. intros b Hb. simpl in Hb. lia.
Qed.

Lemma sampling_event_phase ev : sampling_event ev -> phase ev = 2.
Proof. by destruct ev. Qed.

Lemma from_stage_sampling evs1 evs2 :
  Forall sampling_event evs1 -> from_stage 3 evs2 -> from_stage 2 (evs1 ++ evs2).
Proof.
  intros H1 H2. induction H1 as [|ev evs1 Hev _ IH]; simpl.
  - by apply (from_stage_mono 2 3).
  - apply sampling_event_phase in Hev. destruct IH as [Hsorted Hlow]. split.
    + constructor; [done|].
      eapply Forall_impl; [apply Hlow|]. intros b Hb. simpl in Hb.
      unfold follows. lia.
    + constructor; [lia|done].
Qed.

End Stages.

Ltac stage_list :=
  cbv beta;
  repeat (eapply from_stage_cons; [reflexivity | simpl; lia |]);
  apply from_stage_nil.

Section StagedRuns.

Context {E : Type}.
Variable rt : Runtime E.
Implicit Types (e : E) (evs : list event).

Lemma staged_call {A B} k k' ev (f : E -> result A * E) (cont : A -> M E B) e :
  phase ev = k' -> k <= k' ->
  (forall a e1, triple (cont a) e1 (fun _ evs _ => from_stage (k' + 1) evs)) ->
  triple (bind (call ev f) cont) e (fun _ evs _ => from_stage k evs).
Proof.
  intros Hev Hk Hcont. apply triple_seq, triple_call.
  destruct (f e) as [[a|x] e1]; simpl.
  - eapply triple_weaken; [apply Hcont|].
    intros r evs e' Hevs. by apply (from_stage_cons k k').
  - apply (from_stage_cons k k'); [done|done|apply from_stage_nil].
Qed.

Lemma staged_pure {A B} k (m : M E A) (r : result A) (cont : A -> M E B) e :
  (forall w, m w = (r, w)) ->
  (forall a, triple (cont a) e (fun _ evs _ => from_stage k evs)) ->
  triple (bind m cont) e (fun _ evs _ => from_stage k evs).
Proof.
  intros Hm Hcont. apply triple_seq, (triple_pure _ r); [done|].
  destruct r as [a|x]; [apply Hcont | apply from_stage_nil].
Qed.

(** An AttributeError raised while the metric function runs is handled
    like an unresolved name. *)
Lemma evaluate_metric_call_swallowed self test_y forecast_y e f e1 x e2 :
  py_eval rt (metric_path self) e = (Returned f, e1) ->
  py_apply rt f test_y forecast_y e1 = (Raised x, e2) ->
  is_AttributeError x = true ->
  runs (evaluate_metric rt self test_y forecast_y) e (Returned VNone)
    [EvEval (metric_path self); EvCall f test_y forecast_y;
     EvPrint not_defined_message] e2.
Proof.
  intros Heval Happly Hx c s t.
  unfold evaluate_metric, try_except_AttributeError, bind, call, ret, print,
    log_event, set_ext. simpl.
  fold (metric_path self). rewrite Heval. simpl. rewrite Happly. simpl.
  rewrite Hx. simpl. by rewrite <- !app_assoc.
Qed.

Lemma evaluate_metric_eval_raises self test_y forecast_y e x e1 :
  py_eval rt (metric_path self) e = (Raised x, e1) ->
  is_AttributeError x = false ->
  runs (evaluate_metric rt self test_y forecast_y) e (Raised x)
    [EvEval (metric_path self)] e1.
Proof.
  intros Heval Hx c s t.
  unfold evaluate_metric, try_except_AttributeError, bind, call, ret, print,
    log_event, set_ext. simpl.
  fold (metric_path self). rewrite Heval. simpl. by rewrite Hx.
Qed.

Lemma evaluate_metric_call_raises self test_y forecast_y e f e1 x e2 :
  py_eval rt (metric_path self) e = (Returned f, e1) ->
  py_apply rt f test_y forecast_y e1 = (Raised x, e2) ->
  is_AttributeError x = false ->
  runs (evaluate_metric rt self test_y forecast_y) e (Raised x)
    [EvEval (metric_path self); EvCall f test_y forecast_y] e2.
Proof.
  intros Heval Happly Hx c s t.
  unfold evaluate_metric, try_except_AttributeError, bind, call, ret, print,
    log_event, set_ext. simpl.
  fold (metric_path self). rewrite Heval. simpl. rewrite Happly. simpl.
  rewrite Hx. by rewrite <- !app_assoc.
Qed.

Lemma evaluate_metric_staged self test_y forecast_y e :
  triple (evaluate_metric rt self test_y forecast_y) e
    (fun _ evs _ => from_stage 7 evs).
Proof.
  destruct (py_eval rt (metric_path self) e) as [[f|x] e1] eqn:Heval.
  - destruct (py_apply rt f test_y forecast_y e1) as [[v|x] e2] eqn:Happly.
    + eexists _, _, _. split; [by eapply evaluate_metric_resolved|]. stage_list.
    + destruct (is_AttributeError x) eqn:Hx.
      * eexists _, _, _. split; [by eapply evaluate_metric_call_swallowed|].
        stage_list.
      * eexists _, _, _. split; [by eapply evaluate_metric_call_raises|].
        stage_list.
  - destruct (is_AttributeError x) eqn:Hx.
    + eexists _, _, _. split; [by eapply evaluate_metric_unresolved|]. stage_list.
    + eexists _, _, _. split; [by eapply evaluate_metric_eval_raises|]. stage_list.
Qed.

Lemma evaluate_folds_staged self (trial : Trial E) train val test e :
  triple (evaluate_folds rt self trial train val test) e
    (fun _ evs _ => from_stage 2 evs).
Proof.
  unfold evaluate_folds.
  destruct (check_column_order_pure (E:=E) train) as [r0 Hcheck].
  apply (staged_pure 2 _ r0); [done|]. intros [].
  eapply staged_pure; [apply split_x_y_pure|]. intros [train_x train_y].
  eapply staged_pure; [apply split_x_y_pure|]. intros [valid_x valid_y].
  eapply staged_pure; [apply split_x_y_pure|]. intros [test_x test_y].
  eapply triple_bind; [apply get_trial_parameters_loop_emits | |].
  2:{ intros x evs1 e1 H1. rewrite <- (app_nil_r evs1).
      apply from_stage_sampling; [done|apply from_stage_nil]. }
  intros param evs1 e1 H1.
  eapply triple_weaken.
  2:{ intros r evs2 e2 H2. apply from_stage_sampling; [exact H1|exact H2]. }
  apply (staged_call 3 3); [done|lia|]. intros cb e2.
  apply (staged_call 4 4); [done|lia|]. intros [] e3.
  apply (staged_call 5 5); [done|lia|]. intros [] e4.
  apply (staged_call 6 6); [done|lia|]. intros forecast_y e5.
  apply evaluate_metric_staged.
Qed.

Lemma run_trial_staged self (trial : Trial E) e :
  triple (run_trial rt self trial) e (fun _ evs _ => from_stage 1 evs).
Proof.
  unfold run_trial. apply (staged_call 1 1); [done|lia|].
  intros [[train val] test] e1. apply evaluate_folds_staged.
Qed.

(** X1.  Up to and including two minutes after [start_time] the call
    raises no stop signal: the stop flag of the study is left as it was
    and no call to [study.stop()] is among the calls of the trial, which
    start with the splitter. *)
Theorem within_budget_no_stop_signal
    (self : RegressorObjective E) (trial : Trial E) (w : world E) :
  clock w - start_time self <= timedelta 2 0 ->
  exists r rest e',
    __call__ rt self trial w =
      (r, mk_world (clock w) (stop_requested w)
            (trace w ++ split_event self :: rest) e')
    /\ Forall (fun ev => ev <> EvStop) (split_event self :: rest).
Proof.
  intros Hle. rewrite call_within_budget by done.
  destruct (run_trial_staged self trial (ext w)) as (r & evs & e' & Hruns & _ & Hlow).
  destruct (run_trial_starts_with_split _ _ _ _ _ _ _ Hruns) as (rest & ->).
  exists r, rest, e'. split; [by apply runs_at|].
  eapply Forall_impl; [apply Hlow|]. intros ev Hev ->. simpl in Hev. lia.
Qed.

(** X2.  The calls of one invocation come in the order of the text of
    [__call__], whatever the collaborators return or raise: stop signal,
    splitter, sampler, callback factory, [set_params], [fit], [predict],
    lookup of the metric, metric, print.  Of any two calls the later one
    stands later in this list, unless both are calls of the sampler: so
    [fit] and [predict] are called at most once, and [predict] never
    before [fit]. *)
Theorem calls_follow_pipeline_order
    (self : RegressorObjective E) (trial : Trial E) (w : world E) :
  exists r evs e',
    __call__ rt self trial w =
      (r, mk_world (clock w) (stop_requested (after_budget_check self w))
            (trace w ++ evs) e')
    /\ in_order evs.
Proof.
  rewrite call_unfold.
  destruct (run_trial_staged self trial (ext w)) as (r & evs & e' & Hruns & Hstage).
  exists r, (budget_events self w ++ evs), e'. split.
  - unfold after_budget_check at 1. rewrite Hruns. by rewrite <- app_assoc.
  - unfold budget_events. destruct (_ >? _); simpl; [|apply Hstage].
    apply (from_stage_cons 0 0); [done|lia|exact Hstage].
Qed.

End StagedRuns.

Section EndToEnd.

Context {E : Type}.
Variable rt : Runtime E.

(** With folds that are ready and regressor steps that return, the call
    comes down to the lookup of the metric on the test target and the
    forecast; before it, the regressor has been given the sampled mapping,
    fitted and asked for the forecast of the test features. *)
Lemma call_reaches_metric
    (self : RegressorObjective E) (trial : Trial E) (w : world E)
    (train val test : frame) (e1 : E) (train_y valid_y test_y : series) :
  folds_ready rt self w train val test e1 train_y valid_y test_y ->
  regressor_steps_return rt self trial ->
  exists param sampled e2 cb forecast_y e4 e5,
    runs (get_trial_parameters rt (model_params self) trial) e1
      (Returned param) sampled e2
    /\ @predict E (model self) (features_of test) e4 = (Returned forecast_y, e5)
    /\ __call__ rt self trial w =
       evaluate_metric rt self test_y forecast_y
         (mk_world (clock w) (stop_requested (after_budget_check self w))
            (trace w ++ budget_events self w ++ split_event self :: sampled
               ++ [EvPruning (args_eval self); EvSetParams param;
                   EvFit (fit_arguments self train val train_y valid_y cb);
                   EvPredict (features_of test)]) e5).
Proof.
  intros (Hsplit & Hfirst & Hlast & Htrain & Hval & Htest)
         (Hsample & Hprune & Hset & Hfit & Hpredict).
  destruct (Hsample e1) as (param & sampled & e2 & Hruns).
  destruct (Hprune e2) as (cb & e3 & Hcb).
  destruct (Hset param e3) as (e3' & Hparams).
  destruct (Hfit (fit_arguments self train val train_y valid_y cb) e3')
    as (e4 & Hfitted).
  destruct (Hpredict (features_of test) e4) as (forecast_y & e5 & Hforecast).
  exists param, sampled, e2, cb, forecast_y, e4, e5.
  split; [done|]. split; [done|].
  rewrite call_unfold.
  rewrite (run_trial_after_split _ _ _ _ train val test e1) by done.
  unfold evaluate_folds.
  unfold bind at 1. rewrite check_column_order_ordered by done.
  unfold bind at 1. rewrite split_x_y_pure, Htrain.
  unfold bind at 1. rewrite split_x_y_pure, Hval.
  unfold bind at 1. rewrite split_x_y_pure, Htest.
  unfold bind at 1. rewrite Hruns.
  erewrite bind_call by (cbn [ext]; exact Hcb). unfold bind at 1, lift at 1.
  erewrite bind_call by (cbn [ext]; exact Hparams). unfold bind at 1, lift at 1.
  fold (fit_arguments self train val train_y valid_y cb).
  erewrite bind_call by (cbn [ext]; exact Hfitted). unfold bind at 1, lift at 1.
  erewrite bind_call by (cbn [ext]; exact Hforecast). unfold bind at 1, lift at 1.
  cbn [clock stop_requested trace ext].
  f_equal. f_equal.
  unfold after_budget_check. cbn [trace].
  rewrite <- !app_assoc. cbn [app]. by rewrite <- ?app_assoc.
Qed.

(** The same, for the results the collaborators give in the states in
    which the trial calls them. *)
Lemma call_reaches_metric_at
    (self : RegressorObjective E) (trial : Trial E) (w : world E)
    (train val test : frame) (e1 : E) (train_y valid_y test_y : series)
    (param : dict pyval) (sampled : list event) (e2 : E) (cb : handle)
    (e3 e3' e4 : E) (forecast_y : pyval) (e5 : E) :
  folds_ready rt self w train val test e1 train_y valid_y test_y ->
  runs (get_trial_parameters rt (model_params self) trial) e1
    (Returned param) sampled e2 ->
  pruning_function self trial (args_eval self) e2 = (Returned cb, e3) ->
  @set_params E (model self) param e3 = (Returned tt, e3') ->
  @fit E (model self) (fit_arguments self train val train_y valid_y cb) e3'
    = (Returned tt, e4) ->
  @predict E (model self) (features_of test) e4 = (Returned forecast_y, e5) ->
  __call__ rt self trial w =
  evaluate_metric rt self test_y forecast_y
    (mk_world (clock w) (stop_requested (after_budget_check self w))
       (trace w
          ++ calls_until_predict self w train val test train_y valid_y
               sampled param cb) e5).
Proof.
  intros (Hsplit & Hfirst & Hlast & Htrain & Hval & Htest)
         Hruns Hcb Hparams Hfitted Hforecast.
  rewrite call_unfold.
  rewrite (run_trial_after_split _ _ _ _ train val test e1) by done.
  unfold evaluate_folds.
  unfold bind at 1. rewrite check_column_order_ordered by done.
  unfold bind at 1. rewrite split_x_y_pure, Htrain.
  unfold bind at 1. rewrite split_x_y_pure, Hval.
  unfold bind at 1. rewrite split_x_y_pure, Htest.
  unfold bind at 1. rewrite Hruns.
  erewrite bind_call by (cbn [ext]; exact Hcb). unfold bind at 1, lift at 1.
  erewrite bind_call by (cbn [ext]; exact Hparams). unfold bind at 1, lift at 1.
  fold (fit_arguments self train val train_y valid_y cb).
  erewrite bind_call by (cbn [ext]; exact Hfitted). unfold bind at 1, lift at 1.
  erewrite bind_call by (cbn [ext]; exact Hforecast). unfold bind at 1, lift at 1.
  cbn [clock stop_requested trace ext].
  f_equal. f_equal.
  unfold after_budget_check, calls_until_predict. cbn [trace].
  rewrite <- !app_assoc. cbn [app]. by rewrite <- ?app_assoc.
Qed.

End EndToEnd.

Section MetricOutcome.

Context {E : Type}.
Variable rt : Runtime E.

(** X3.  When the folds are ready and every collaborator returns, the
    call returns the value that the function found by the lookup of the
    metric computes from the test target (column 0 of the test fold) and
    the forecast [predict] gave for the test features.  Before that the
    regressor has received exactly the mapping the sampler returned, then
    one [fit] with the train pair, the validation pair, an early-stopping
    patience of 10 and the callback the factory returned.  Each
    collaborator is taken in the state the one before it left. *)
Theorem successful_trial_returns_metric_value
    (self : RegressorObjective E) (trial : Trial E) (w : world E)
    (train val test : frame) (e1 : E) (train_y valid_y test_y : series)
    (param : dict pyval) (sampled : list event) (e2 : E) (cb : handle)
    (e3 e3' e4 : E) (forecast_y : pyval) (e5 : E) (f : handle) (e6 : E)
    (v : pyval) (e7 : E) :
  folds_ready rt self w train val test e1 train_y valid_y test_y ->
  runs (get_trial_parameters rt (model_params self) trial) e1
    (Returned param) sampled e2 ->
  pruning_function self trial (args_eval self) e2 = (Returned cb, e3) ->
  @set_params E (model self) param e3 = (Returned tt, e3') ->
  @fit E (model self) (fit_arguments self train val train_y valid_y cb) e3'
    = (Returned tt, e4) ->
  @predict E (model self) (features_of test) e4 = (Returned forecast_y, e5) ->
  py_eval rt (metric_path self) e5 = (Returned f, e6) ->
  py_apply rt f test_y forecast_y e6 = (Returned v, e7) ->
  __call__ rt self trial w =
  (Returned v,
   mk_world (clock w) (stop_requested (after_budget_check self w))
     (trace w ++ budget_events self w ++ split_event self :: sampled
        ++ [EvPruning (args_eval self); EvSetParams param;
            EvFit (fit_arguments self train val train_y valid_y cb);
            EvPredict (features_of test);
            EvEval (metric_path self); EvCall f test_y forecast_y]) e7).
Proof.
  intros Hfolds Hruns Hcb Hparams Hfitted Hforecast Heval Happly.
  rewrite (call_reaches_metric_at rt self trial w train val test e1 train_y valid_y
             test_y param sampled e2 cb e3 e3' e4 forecast_y e5) by done.
  rewrite (evaluate_metric_resolved rt self test_y forecast_y e5 f e6 v e7 Heval Happly).
  f_equal. f_equal. unfold calls_until_predict.
  rewrite <- !app_assoc. cbn [app]. by rewrite <- ?app_assoc.
Qed.

(** X4.  An AttributeError raised inside the metric function, whose name
    did resolve, is caught by the same handler as an unresolved name: the
    message about an undefined loss function is printed and the call
    returns [None] after a complete fit and predict. *)
Theorem attribute_error_inside_metric_returns_None
    (self : RegressorObjective E) (trial : Trial E) (w : world E)
    (train val test : frame) (e1 : E) (train_y valid_y test_y : series) :
  folds_ready rt self w train val test e1 train_y valid_y test_y ->
  regressor_steps_return rt self trial ->
  lookup_returns rt self ->
  (forall f y p e, exists x e',
      py_apply rt f y p e = (Raised x, e') /\ is_AttributeError x = true) ->
  exists before f forecast_y e',
    __call__ rt self trial w =
      (Returned VNone,
       mk_world (clock w) (stop_requested (after_budget_check self w))
         (trace w ++ before
            ++ [EvEval (metric_path self); EvCall f test_y forecast_y;
                EvPrint not_defined_message]) e')
    /\ existsb is_fit before = true.
Proof.
  intros Hfolds Hsteps Hlookup Hmetric.
  destruct (call_reaches_metric rt self trial w _ _ _ _ _ _ _ Hfolds Hsteps)
    as (param & sampled & e2 & cb & forecast_y & e4 & e5 & Hruns & Hforecast & ->).
  destruct (Hlookup e5) as (f & e6 & Heval).
  destruct (Hmetric f test_y forecast_y e6) as (x & e7 & Happly & Hx).
  exists (budget_events self w ++ split_event self :: sampled
            ++ [EvPruning (args_eval self); EvSetParams param;
                EvFit (fit_arguments self train val train_y valid_y cb);
                EvPredict (features_of test)]), f, forecast_y, e7.
  rewrite (evaluate_metric_call_swallowed rt self test_y forecast_y e5 f e6 x e7
             Heval Happly Hx).
  split.
  - f_equal. f_equal. by rewrite <- !app_assoc.
  - rewrite existsb_app. apply orb_true_iff. right.
    cbn [existsb]. apply orb_true_iff. right.
    rewrite existsb_app. apply orb_true_iff. by right.
Qed.

(** X5.  Exceptions of any other class are not caught.  When the folds
    are ready and the collaborators return up to the forecast, an
    exception that is not an instance of AttributeError is raised by the
    call as it is, whether the lookup of the metric raised it or the
    metric function did; the last call made is the one that raised, and
    nothing is printed. *)
Theorem other_metric_exceptions_propagate
    (self : RegressorObjective E) (trial : Trial E) (w : world E)
    (train val test : frame) (e1 : E) (train_y valid_y test_y : series)
    (param : dict pyval) (sampled : list event) (e2 : E) (cb : handle)
    (e3 e3' e4 : E) (forecast_y : pyval) (e5 : E) :
  folds_ready rt self w train val test e1 train_y valid_y test_y ->
  runs (get_trial_parameters rt (model_params self) trial) e1
    (Returned param) sampled e2 ->
  pruning_function self trial (args_eval self) e2 = (Returned cb, e3) ->
  @set_params E (model self) param e3 = (Returned tt, e3') ->
  @fit E (model self) (fit_arguments self train val train_y valid_y cb) e3'
    = (Returned tt, e4) ->
  @predict E (model self) (features_of test) e4 = (Returned forecast_y, e5) ->
  (forall x e6,
      py_eval rt (metric_path self) e5 = (Raised x, e6) ->
      is_AttributeError x = false ->
      __call__ rt self trial w =
      (Raised x,
       mk_world (clock w) (stop_requested (after_budget_check self w))
         (trace w
            ++ calls_until_predict self w train val test train_y valid_y
                 sampled param cb
            ++ [EvEval (metric_path self)]) e6))
  /\ (forall f e6 x e7,
        py_eval rt (metric_path self) e5 = (Returned f, e6) ->
        py_apply rt f test_y forecast_y e6 = (Raised x, e7) ->
        is_AttributeError x = false ->
        __call__ rt self trial w =
        (Raised x,
         mk_world (clock w) (stop_requested (after_budget_check self w))
           (trace w
              ++ calls_until_predict self w train val test train_y valid_y
                   sampled param cb
              ++ [EvEval (metric_path self); EvCall f test_y forecast_y]) e7)).
Proof.
  intros Hfolds Hruns Hcb Hparams Hfitted Hforecast.
  rewrite (call_reaches_metric_at rt self trial w train val test e1 train_y valid_y
             test_y param sampled e2 cb e3 e3' e4 forecast_y e5) by done.
  split.
  - intros x e6 Heval Hx.
    rewrite (evaluate_metric_eval_raises rt self test_y forecast_y e5 x e6 Heval Hx).
    by rewrite <- !app_assoc.
  - intros f e6 x e7 Heval Happly Hx.
    rewrite (evaluate_metric_call_raises rt self test_y forecast_y e5 f e6 x e7
               Heval Happly Hx).
    by rewrite <- !app_assoc.
Qed.

End MetricOutcome.

(** Exactly two minutes after [start_time]. *)
Lemma within_budget_no_stop_signal_witness :
  let self := Examples.demo_objective in
  let w := Examples.world_at (Examples.minutes 2) in
  clock w - start_time self = 120000000
  /\ exists r rest e',
      __call__ Examples.demo_runtime self Examples.lower_bound_trial w =
        (r, mk_world (clock w) (stop_requested w)
              (trace w ++ split_event self :: rest) e')
      /\ Forall (fun ev => ev <> EvStop) (split_event self :: rest).
Proof.
  split; [reflexivity|].
  apply (within_budget_no_stop_signal Examples.demo_runtime Examples.demo_objective
           Examples.lower_bound_trial (Examples.world_at (Examples.minutes 2))).
  discriminate.
Defined.

Lemma demo_steps_return looked_up computed :
  regressor_steps_return (Examples2.runtime_with_metric looked_up computed)
    Examples.demo_objective Examples.lower_bound_trial.
Proof.
  split; [|split; [|split; [|split]]].
  - apply sampler_runs.
    + exact demo_space_keys.
    + exact demo_space_usable.
    + exact lower_bound_trial_returns.
  - intros e. by exists Examples.some_callback, (e + 1).
  - intros param e. by exists (e + 1).
  - intros c e. by exists (e + 1).
  - intros x e. by exists (VList []), (e + 1).
Qed.

Lemma demo_folds_ready looked_up computed :
  folds_ready (Examples2.runtime_with_metric looked_up computed)
    Examples.demo_objective (Examples.world_at (Examples.minutes 1))
    Examples.ordered_frame Examples.ordered_frame Examples.ordered_frame 1
    Examples2.load_series Examples2.load_series Examples2.load_series.
Proof. by repeat split. Qed.

Lemma demo_sampler_runs looked_up computed :
  runs (get_trial_parameters (Examples2.runtime_with_metric looked_up computed)
          Examples.demo_space Examples.lower_bound_trial) 1
    (Returned Examples2.demo_param) Examples2.demo_sampled 4.
Proof. intros c s t. cbv -[app]. by rewrite <- !app_assoc. Qed.

(** The metric of the examples resolves and returns 0.5. *)
Lemma successful_trial_returns_metric_value_witness :
  let half := VFloat XGB.lit_0_5 in
  let rt := Examples2.runtime_with_metric (Returned Examples.mae_function)
              (Returned half) in
  let self := Examples.demo_objective in
  let trial := Examples.lower_bound_trial in
  let w := Examples.world_at (Examples.minutes 1) in
  let fold := Examples.ordered_frame in
  let y := Examples2.load_series in
  __call__ rt self trial w =
  (Returned half,
   mk_world (clock w) (stop_requested (after_budget_check self w))
     (trace w ++ budget_events self w ++ split_event self :: Examples2.demo_sampled
        ++ [EvPruning (args_eval self); EvSetParams Examples2.demo_param;
            EvFit (fit_arguments self fold fold y y Examples.some_callback);
            EvPredict (features_of fold);
            EvEval (metric_path self);
            EvCall Examples.mae_function y (VList [])]) 10).
Proof.
  apply (successful_trial_returns_metric_value
           (Examples2.runtime_with_metric (Returned Examples.mae_function)
              (Returned (VFloat XGB.lit_0_5)))
           Examples.demo_objective Examples.lower_bound_trial
           (Examples.world_at (Examples.minutes 1))
           Examples.ordered_frame Examples.ordered_frame Examples.ordered_frame 1
           Examples2.load_series Examples2.load_series Examples2.load_series
           Examples2.demo_param Examples2.demo_sampled 4 Examples.some_callback
           5 6 7 (VList []) 8 Examples.mae_function 9 (VFloat XGB.lit_0_5) 10).
  - apply demo_folds_ready.
  - apply demo_sampler_runs.
  - reflexivity.
  - reflexivity.
  - reflexivity.
  - reflexivity.
  - reflexivity.
  - reflexivity.
Defined.

(** The metric of the examples resolves and raises an AttributeError of
    its own. *)
Lemma attribute_error_inside_metric_returns_None_witness :
  let rt := Examples2.runtime_with_metric (Returned Examples.mae_function)
              (Raised Examples2.attribute_error) in
  let self := Examples.demo_objective in
  let w := Examples.world_at (Examples.minutes 1) in
  let y := Examples2.load_series in
  exists before f forecast_y e',
    __call__ rt self Examples.lower_bound_trial w =
      (Returned VNone,
       mk_world (clock w) (stop_requested (after_budget_check self w))
         (trace w ++ before
            ++ [EvEval (metric_path self); EvCall f y forecast_y;
                EvPrint not_defined_message]) e')
    /\ existsb is_fit before = true.
Proof.
  apply (attribute_error_inside_metric_returns_None
           (Examples2.runtime_with_metric (Returned Examples.mae_function)
              (Raised Examples2.attribute_error))
           Examples.demo_objective Examples.lower_bound_trial
           (Examples.world_at (Examples.minutes 1))
           Examples.ordered_frame Examples.ordered_frame Examples.ordered_frame 1
           Examples2.load_series Examples2.load_series Examples2.load_series).
  - apply demo_folds_ready.
  - apply demo_steps_return.
  - intros e. by exists Examples.mae_function, (e + 1).
  - intros f y p e. by exists Examples2.attribute_error, (e + 1).
Defined.

(** The metric of the examples resolves and raises a ValueError. *)
Lemma other_metric_exceptions_propagate_witness :
  let rt := Examples2.runtime_with_metric (Returned Examples.mae_function)
              (Raised Examples2.value_error) in
  let self := Examples.demo_objective in
  let trial := Examples.lower_bound_trial in
  let w := Examples.world_at (Examples.minutes 1) in
  let fold := Examples.ordered_frame in
  let y := Examples2.load_series in
  is_AttributeError Examples2.value_error = false
  /\ __call__ rt self trial w =
     (Raised Examples2.value_error,
      mk_world (clock w) (stop_requested (after_budget_check self w))
        (trace w
           ++ calls_until_predict self w fold fold fold y y
                Examples2.demo_sampled Examples2.demo_param
                Examples.some_callback
           ++ [EvEval (metric_path self);
               EvCall Examples.mae_function y (VList [])]) 10).
Proof.
  split; [reflexivity|].
  destruct (other_metric_exceptions_propagate
              (Examples2.runtime_with_metric (Returned Examples.mae_function)
                 (Raised Examples2.value_error))
              Examples.demo_objective Examples.lower_bound_trial
              (Examples.world_at (Examples.minutes 1))
              Examples.ordered_frame Examples.ordered_frame Examples.ordered_frame 1
              Examples2.load_series Examples2.load_series Examples2.load_series
              Examples2.demo_param Examples2.demo_sampled 4 Examples.some_callback
              5 6 7 (VList []) 8) as [_ Hmetric].
  - apply demo_folds_ready.
  - apply demo_sampler_runs.
  - reflexivity.
  - reflexivity.
  - reflexivity.
  - reflexivity.
  - apply (Hmetric Examples.mae_function 9 Examples2.value_error 10); reflexivity.
Defined.

Section FoldCalls.

Context {E : Type}.
Variable rt : Runtime E.

(** The metric part of a trial starts with the lookup, and calls what the
    lookup returned on the target and the forecast it was given. *)
Lemma metric_calls self test_y forecast_y e5 :
  exists r rest3 e',
    runs (evaluate_metric rt self test_y forecast_y) e5 r
      (EvEval (metric_path self) :: rest3) e'
    /\ forall f e6,
        py_eval rt (metric_path self) e5 = (Returned f, e6) ->
        exists rest4, rest3 = EvCall f test_y forecast_y :: rest4.
Proof.
  destruct (py_eval rt (metric_path self) e5) as [[f|x] e6] eqn:Heval.
  - destruct (py_apply rt f test_y forecast_y e6) as [[v|x] e7] eqn:Happly.
    + exists (Returned v), [EvCall f test_y forecast_y], e7.
      split; [by apply (evaluate_metric_resolved rt self test_y forecast_y e5 f e6 v e7)|].
      intros f' e6' [= <- <-]. by exists [].
    + destruct (is_AttributeError x) eqn:Hx.
      * exists (Returned VNone),
          [EvCall f test_y forecast_y; EvPrint not_defined_message], e7.
        split; [by apply (evaluate_metric_call_swallowed rt self test_y forecast_y e5 f e6 x e7)|].
        intros f' e6' [= <- <-]. by eexists.
      * exists (Raised x), [EvCall f test_y forecast_y], e7.
        split; [by apply (evaluate_metric_call_raises rt self test_y forecast_y e5 f e6 x e7)|].
        intros f' e6' [= <- <-]. by exists [].
  - destruct (is_AttributeError x) eqn:Hx.
    + exists (Returned VNone), [EvPrint not_defined_message], e6.
      split; [by apply (evaluate_metric_unresolved rt self test_y forecast_y e5 x e6)|]. by intros f' e6' [=].
    + exists (Raised x), [], e6.
      split; [by apply (evaluate_metric_eval_raises rt self test_y forecast_y e5 x e6)|]. by intros f' e6' [=].
Qed.

(** From the call of [fit] on. *)
Lemma calls_from_fit_on (self : RegressorObjective E) fc test test_y e3 :
  exists r rest e',
    runs (let* _ := call (EvFit fc) (@fit E (model self) fc) in
          let* forecast_y :=
            call (EvPredict (features_of test))
                 (@predict E (model self) (features_of test)) in
          evaluate_metric rt self test_y forecast_y)
      e3 r (EvFit fc :: rest) e'
    /\ calls_after_fit rt self fc test test_y e3 rest.
Proof.
  unfold calls_after_fit.
  destruct (@fit E (model self) fc e3) as [[[]|x] e4] eqn:Hfit.
  2:{ exists (Raised x), [], e4. split; [|by intros e4' [=]].
      intros c s t. by erewrite bind_call by (cbn [ext]; exact Hfit). }
  destruct (@predict E (model self) (features_of test) e4)
    as [[forecast_y|x] e5] eqn:Hpred.
  2:{ exists (Raised x), [EvPredict (features_of test)], e5. split.
      - intros c s t.
        erewrite bind_call by (cbn [ext]; exact Hfit). unfold bind at 1, lift at 1.
        erewrite bind_call by (cbn [ext]; exact Hpred). unfold bind at 1, lift at 1.
        cbn [clock stop_requested trace]. by rewrite <- !app_assoc.
      - intros e4' [= <-]. eexists. split; [done|].
        intros forecast_y e5' Hp. rewrite Hpred in Hp. done. }
  destruct (metric_calls self test_y forecast_y e5)
    as (r & rest3 & e' & Hruns & Hcall).
  exists r, (EvPredict (features_of test) :: EvEval (metric_path self) :: rest3), e'.
  split.
  - intros c s t.
    erewrite bind_call by (cbn [ext]; exact Hfit). unfold bind at 1, lift at 1.
    erewrite bind_call by (cbn [ext]; exact Hpred). unfold bind at 1, lift at 1.
    cbn [clock stop_requested trace]. rewrite Hruns. by rewrite <- !app_assoc.
  - intros e4' [= <-]. eexists. split; [done|].
    intros forecast_y' e5' Hp. rewrite Hpred in Hp. injection Hp as <- <-.
    eexists. split; [done|]. exact Hcall.
Qed.

(** The calls on three folds on which the trial gets as far as [fit]. *)
Lemma evaluate_folds_calls
    (self : RegressorObjective E) (trial : Trial E) (train val test : frame)
    (e1 : E) (train_y valid_y test_y : series)
    (param : dict pyval) (sampled : list event) (e2 : E) (cb : handle)
    (e3 e3' : E) :
  head (column_names train) = Some "load" ->
  last (column_names train) = Some "horizon" ->
  target_of train = Some train_y ->
  target_of val = Some valid_y ->
  target_of test = Some test_y ->
  runs (get_trial_parameters rt (model_params self) trial) e1
    (Returned param) sampled e2 ->
  pruning_function self trial (args_eval self) e2 = (Returned cb, e3) ->
  @set_params E (model self) param e3 = (Returned tt, e3') ->
  exists r rest e',
    runs (evaluate_folds rt self trial train val test) e1 r
      (sampled ++ EvPruning (args_eval self) :: EvSetParams param
         :: EvFit (fit_arguments self train val train_y valid_y cb) :: rest) e'
    /\ calls_after_fit rt self (fit_arguments self train val train_y valid_y cb)
         test test_y e3' rest.
Proof.
  intros Hfirst Hlast Htrain Hval Htest Hruns Hcb Hparams.
  destruct (calls_from_fit_on self (fit_arguments self train val train_y valid_y cb)
              test test_y e3') as (r & rest & e' & Hrest & Hafter).
  exists r, rest, e'. split; [|done].
  intros c s t. unfold evaluate_folds.
  unfold bind at 1. rewrite check_column_order_ordered by done.
  unfold bind at 1. rewrite split_x_y_pure, Htrain.
  unfold bind at 1. rewrite split_x_y_pure, Hval.
  unfold bind at 1. rewrite split_x_y_pure, Htest.
  unfold bind at 1. rewrite Hruns.
  erewrite bind_call by (cbn [ext]; exact Hcb). unfold bind at 1, lift at 1.
  erewrite bind_call by (cbn [ext]; exact Hparams). unfold bind at 1, lift at 1.
  fold (fit_arguments self train val train_y valid_y cb).
  cbn [clock stop_requested trace ext].
  rewrite Hrest. f_equal. f_equal.
  rewrite <- !app_assoc. cbn [app]. by rewrite <- ?app_assoc.
Qed.

(** C6.  Once the splitter has returned the three folds, every call the
    trial makes to [fit], to [predict] and to the metric is handed data
    split by position, and the trial does make these calls.  Every [fit]
    event carries the train features (all columns but the first and the
    last) and the train target (column 0), with the same pair and the
    validation pair as [eval_set]; every [predict] event the test
    features; every metric call the test target.  And when the train fold
    is in order, each fold has a first column and the sampler, the
    callback factory and [set_params] return, the calls after the
    sampler's are the factory, [set_params] with the sampled mapping and
    [fit] with exactly these arguments; when [fit] returns, [predict] on
    the test features comes next; when [predict] returns, the lookup of
    the metric; and when the lookup returns a function, that function is
    called on the test target and the forecast.  The last column, the
    horizon, is in none of the feature matrices. *)
Theorem folds_are_split_by_position
    (self : RegressorObjective E) (trial : Trial E) (w : world E)
    (train val test : frame) (e1 : E) :
  split_data_train_validation_test rt (input_data self) (test_fraction self)
    (validation_fraction self) true (ext w) = (Returned (train, val, test), e1) ->
  exists r evs e',
    __call__ rt self trial w =
      (r, mk_world (clock w) (stop_requested (after_budget_check self w))
            (trace w ++ budget_events self w ++ split_event self :: evs) e')
    /\ Forall (split_by_position train val test) evs
    /\ forall train_y valid_y test_y param sampled e2 cb e3 e3',
        head (column_names train) = Some "load" ->
        last (column_names train) = Some "horizon" ->
        target_of train = Some train_y ->
        target_of val = Some valid_y ->
        target_of test = Some test_y ->
        runs (get_trial_parameters rt (model_params self) trial) e1
          (Returned param) sampled e2 ->
        pruning_function self trial (args_eval self) e2 = (Returned cb, e3) ->
        @set_params E (model self) param e3 = (Returned tt, e3') ->
        exists rest,
          evs = sampled ++ EvPruning (args_eval self) :: EvSetParams param
                  :: EvFit (fit_arguments self train val train_y valid_y cb)
                  :: rest
          /\ calls_after_fit rt self
               (fit_arguments self train val train_y valid_y cb)
               test test_y e3' rest.
Proof.
  intros Hsplit. rewrite call_unfold.
  rewrite (run_trial_after_split _ _ _ _ train val test e1) by done.
  destruct (evaluate_folds_by_position rt self trial train val test e1)
    as (r & evs & e' & Hruns & Hall).
  exists r, evs, e'. split; [|split; [done|]].
  - rewrite Hruns. simpl. by rewrite <- !app_assoc.
  - intros train_y valid_y test_y param sampled e2 cb e3 e3'
           Hfirst Hlast Htrain Hval Htest Hsampler Hcb Hparams.
    destruct (evaluate_folds_calls self trial train val test e1 train_y valid_y
                test_y param sampled e2 cb e3 e3')
      as (r2 & rest & e2' & Hruns2 & Hafter); try done.
    destruct (runs_det _ _ _ _ _ _ _ _ Hruns Hruns2) as (_ & -> & _).
    by exists rest.
Qed.

End FoldCalls.

(** The three folds of the examples share the columns load, temp,
    horizon; every collaborator returns, so that all the calls are made. *)
Lemma folds_are_split_by_position_witness :
  let rt := Examples.demo_runtime in
  let self := Examples.demo_objective in
  let trial := Examples.lower_bound_trial in
  let w := Examples.world_at (Examples.minutes 1) in
  let fold := Examples.ordered_frame in
  let y := Examples2.load_series in
  split_data_train_validation_test rt (input_data self) (test_fraction self)
    (validation_fraction self) true (ext w) = (Returned (fold, fold, fold), 1)
  /\ exists r evs e',
      __call__ rt self trial w =
        (r, mk_world (clock w) (stop_requested (after_budget_check self w))
              (trace w ++ budget_events self w ++ split_event self :: evs) e')
      /\ Forall (split_by_position fold fold fold) evs
      /\ exists rest,
          evs = Examples2.demo_sampled
                  ++ EvPruning (args_eval self) :: EvSetParams Examples2.demo_param
                  :: EvFit (fit_arguments self fold fold y y Examples.some_callback)
                  :: EvPredict (features_of fold)
                  :: EvEval (metric_path self)
                  :: EvCall Examples.mae_function y (VList []) :: rest.
Proof.
  split; [reflexivity|].
  destruct (folds_are_split_by_position Examples.demo_runtime Examples.demo_objective
              Examples.lower_bound_trial (Examples.world_at (Examples.minutes 1))
              Examples.ordered_frame Examples.ordered_frame Examples.ordered_frame 1)
    as (r & evs & e' & Hcall & Hall & Hcalls); [reflexivity|].
  exists r, evs, e'. split; [exact Hcall|]. split; [exact Hall|].
  destruct (Hcalls Examples2.load_series Examples2.load_series Examples2.load_series
              Examples2.demo_param Examples2.demo_sampled 4 Examples.some_callback
              5 6) as (rest & -> & Hafter);
    [reflexivity|reflexivity|reflexivity|reflexivity|reflexivity|
     intros c s t; cbv -[app]; by rewrite <- !app_assoc|reflexivity|reflexivity|].
  destruct (Hafter 7) as (rest2 & -> & Hpredict); [reflexivity|].
  destruct (Hpredict (VList []) 8) as (rest3 & -> & Hlookup); [reflexivity|].
  destruct (Hlookup Examples.mae_function 9) as (rest4 & ->); [reflexivity|].
  by exists rest4.
Defined.

Section SinglePass.

Context {E : Type}.
Variable rt : Runtime E.
Variable trial : Trial E.
Implicit Types (e : E) (evs : list event).

Lemma elem_of_keys_dict_set {V} (d : dict V) k v k' :
  k' ∈ keys (dict_set d k v) <-> k' = k \/ k' ∈ keys d.
Proof.
  unfold keys. induction d as [|[k0 v0] d IH]; simpl.
  - rewrite list_elem_of_singleton. split; [by left|]. intros [?|H]; [done|].
    by apply elem_of_nil in H.
  - destruct (String.eqb_spec k0 k) as [->|Hne]; simpl.
    + rewrite !elem_of_cons. tauto.
    + rewrite !elem_of_cons, IH. tauto.
Qed.

(** A declaration costs at most one call to the driver, under its key. *)
Lemma process_tuple_at_most_one key value e :
  triple (process_tuple rt trial key value) e
    (fun r evs _ =>
       (evs = [] /\ is_raised r = true)
       \/ exists ev, evs = [ev] /\ suggest_key ev = Some key).
Proof.
  unfold process_tuple.
  apply triple_seq, triple_lift.
  destruct (unpack2 value) as [[tup log]|x]; [|by left].
  apply triple_seq, triple_lift.
  destruct (unpack2 tup) as [[lo hi]|x]; [|by left].
  destruct (isinstance_float lo || isinstance_float hi).
  - apply triple_seq, triple_lift.
    destruct (py_float (parse_float rt) lo) as [low|x]; [|by left].
    apply triple_seq, triple_lift.
    destruct (py_float (parse_float rt) hi) as [high|x]; [|by left].
    apply triple_call. right. by eexists.
  - destruct (isinstance_int lo && isinstance_int hi).
    + apply triple_call. right. by eexists.
    + apply triple_raise. by left.
Qed.

Lemma single_pass_step key value rest param r evs1 evs2 :
  suggest_key <$> evs1 = [Some key] \/ (evs1 = [] /\ evs2 = [] /\ is_raised r = true) ->
  (evs1 <> [] -> exists v, single_pass rest (dict_set param key v) r evs2) ->
  single_pass ((key, value) :: rest) param r (evs1 ++ evs2).
Proof.
  intros [H1|(-> & -> & Hr)] H2.
  - destruct evs1 as [|ev [|ev' evs1]]; try done.
    injection H1 as Hev. destruct H2 as (v & Hpre & Hret); [done|].
    split.
    + unfold keys. simpl. rewrite Hev. by apply prefix_cons.
    + intros param' ->. destruct (Hret param' eq_refl) as [Hall Hkeys].
      split; [unfold keys in *; simpl; by rewrite Hev, Hall|].
      intros k. rewrite Hkeys, elem_of_keys_dict_set.
      unfold keys at 4. simpl. rewrite elem_of_cons. tauto.
  - split; [apply prefix_nil|]. intros param' ->. done.
Qed.

Lemma get_trial_parameters_loop_single_pass items :
  forall param e,
    triple (get_trial_parameters_loop rt trial items param) e
      (fun r evs _ => single_pass items param r evs).
Proof.
  induction items as [|[key value] rest IH]; intros param e;
    cbn [get_trial_parameters_loop].
  - apply triple_ret. split; [done|]. intros param' [= <-]. split; [done|].
    intros k. unfold keys at 3. simpl. rewrite elem_of_nil. tauto.
  - destruct (isinstance_tuple value).
    + eapply triple_bind; [apply process_tuple_at_most_one| |].
      * intros v evs1 e1 [[_ Hr]|(ev & -> & Hev)]; [done|].
        eapply triple_weaken; [apply (IH (dict_set param key v))|].
        intros r evs2 e2 H2. apply (single_pass_step key value).
        -- left. simpl. by rewrite Hev.
        -- intros _. by exists v.
      * intros x evs1 e1 [[-> _]|(ev & -> & Hev)].
        -- apply (single_pass_step key value rest param (Raised x) [] []);
             [by right; repeat split|done].
        -- split.
           ++ unfold keys. simpl. rewrite Hev. apply prefix_cons, prefix_nil.
           ++ intros param' Hr. done.
    + destruct value; try (apply triple_raise;
        apply (single_pass_step key _ rest param _ [] []); [by right; repeat split|done]).
      apply triple_seq, triple_call.
      destruct (suggest_categorical trial key items e) as [[v|x] e1]; simpl.
      * eapply triple_weaken; [apply (IH (dict_set param key v))|].
        intros r evs2 e2 H2.
        apply (single_pass_step key (VList items) rest param r
                 [EvSuggestCategorical key items] evs2); [by left|].
        intros _. by exists v.
      * split.
        -- unfold keys. simpl. apply prefix_cons, prefix_nil.
        -- intros param' Hr. done.
Qed.

(** X6.  Whatever the driver and the declarations do, the sampler visits
    the search space once, from the front: the keys of the calls it makes
    to the driver are an initial part of the keys of the search space, in
    their order, so nothing is sampled after a failure and no key is asked
    for twice; and whenever it returns, every key has been asked for and
    the mapping has exactly the keys of the search space. *)
Theorem sampler_visits_keys_once_in_order (model_params : dict pyval) (w : world E) :
  exists r evs e',
    get_trial_parameters rt model_params trial w =
      (r, mk_world (clock w) (stop_requested w) (trace w ++ evs) e')
    /\ map suggest_key evs `prefix_of` map Some (keys model_params)
    /\ forall param,
        r = Returned param ->
        map suggest_key evs = map Some (keys model_params)
        /\ forall k, k ∈ keys param <-> k ∈ keys model_params.
Proof.
  destruct (get_trial_parameters_loop_single_pass model_params [] (ext w))
    as (r & evs & e' & Hruns & Hpre & Hret).
  exists r, evs, e'. split; [by apply runs_at|]. split; [done|].
  intros param Hr. destruct (Hret param Hr) as [Hall Hkeys]. split; [done|].
  intros k. rewrite Hkeys. unfold keys at 1. simpl. rewrite elem_of_nil. tauto.
Qed.

(** X7.  A tuple declaration must be [(bounds, log)] with two bounds.  A
    flat pair of numbers [(lo, hi)], written without the log flag, is
    rejected with the TypeError of unpacking a number, and a tuple that
    does not have two items with the ValueError of unpacking; in both
    cases the declarations before it have been sampled and this one is
    not. *)
Theorem malformed_tuple_is_rejected_by_unpacking
    (before after : dict pyval) (key : string) (w : world E) :
  (forall lo hi,
      is_number lo = true ->
      get_trial_parameters rt (before ++ (key, VTuple [lo; hi]) :: after) trial w
      = bind (get_trial_parameters rt before trial)
             (fun _ => raise (not_iterable_error lo)) w)
  /\ (forall items,
        length items <> 2%nat ->
        exists msg,
          get_trial_parameters rt (before ++ (key, VTuple items) :: after) trial w
          = bind (get_trial_parameters rt before trial)
                 (fun _ => raise (mk_exn ValueError msg)) w).
Proof.
  split.
  - intros lo hi Hlo. unfold get_trial_parameters.
    rewrite get_trial_parameters_loop_app. apply bind_ext. intros p w1.
    cbn [get_trial_parameters_loop]. change (isinstance_tuple _) with true.
    cbv iota. unfold bind, process_tuple, bind, lift. simpl.
    by destruct lo.
  - intros items Hlen.
    assert (exists msg, unpack2 (VTuple items) = Raised (mk_exn ValueError msg))
      as (msg & Hmsg).
    { destruct items as [|a [|b [|c items]]]; try done.
      - by eexists.
      - by eexists.
      - unfold unpack2. cbn [py_iter].
        destruct (Z.ltb_spec (Z.of_nat (length (a :: b :: c :: items))) 2) as [Hlt|_];
          [simpl length in Hlt; lia | by eexists]. }
    exists msg. unfold get_trial_parameters.
    rewrite get_trial_parameters_loop_app. apply bind_ext. intros p w1.
    cbn [get_trial_parameters_loop]. change (isinstance_tuple _) with true.
    cbv iota. unfold bind at 1, process_tuple, bind at 1, lift at 1.
    by rewrite Hmsg.
Qed.

End SinglePass.

Section XGBParams.

Context {E : Type}.
Variable trial : Trial E.
Hypothesis Hreturn : primitives_return trial.
Hypothesis Hwithin : samples_within_bounds trial.

Lemma suggest_float_returns_within name low high (e : E) :
  float_leb low high = true ->
  exists x e',
    suggest_float trial name low high (VBool false) e = (Returned (VFloat x), e')
    /\ float_leb low x = true /\ float_leb x high = true.
Proof using Hreturn Hwithin.
  intros Hle. destruct Hreturn as (Hfloat & _ & _). destruct Hwithin as (Hin & _).
  destruct (Hfloat name low high (VBool false) e Hle) as (v & e' & Hcall).
  destruct (Hin _ _ _ _ _ _ _ Hcall) as (x & -> & Hlo & Hhi).
  by exists x, e'.
Qed.

Lemma suggest_int_returns_within name low high (e : E) :
  low <= high ->
  exists n e',
    suggest_int trial name (VInt low) (VInt high) e = (Returned (VInt n), e')
    /\ low <= n <= high.
Proof using Hreturn Hwithin.
  intros Hle. destruct Hreturn as (_ & Hint & _). destruct Hwithin as (_ & Hin).
  destruct (Hint name (VInt low) (VInt high) low high e eq_refl eq_refl Hle)
    as (v & e' & Hcall).
  destruct (Hin _ _ _ _ _ _ Hcall) as (n & a & b & -> & [= <-] & [= <-] & Hn).
  by exists n, e'.
Qed.

(** X8.  With a driver whose primitives return and keep to their bounds,
    [get_params] returns the six hyperparameters of the XGBoost regressor,
    each within its fixed range: eta in [0.01, 0.2], subsample in
    [0.5, 1.0], min_child_weight in [1, 6], max_depth in [3, 10], gamma in
    [0.0, 1.0] and colsample_bytree in [0.5, 1.0]; it asks the driver once
    for each, in this order, floats on a linear scale. *)
Theorem get_params_within_fixed_ranges (w : world E) :
  exists eta subsample min_child_weight max_depth gamma colsample_bytree e',
    XGB.get_params trial w =
      (Returned [ ("eta", VFloat eta);
                  ("subsample", VFloat subsample);
                  ("min_child_weight", VInt min_child_weight);
                  ("max_depth", VInt max_depth);
                  ("gamma", VFloat gamma);
                  ("colsample_bytree", VFloat colsample_bytree) ],
       mk_world (clock w) (stop_requested w)
         (trace w
            ++ [ EvSuggestFloat "eta" XGB.lit_0_01 XGB.lit_0_2 (VBool false);
                 EvSuggestFloat "subsample" XGB.lit_0_5 XGB.lit_1_0 (VBool false);
                 EvSuggestInt "min_child_weight" (VInt 1) (VInt 6);
                 EvSuggestInt "max_depth" (VInt 3) (VInt 10);
                 EvSuggestFloat "gamma" XGB.lit_0_0 XGB.lit_1_0 (VBool false);
                 EvSuggestFloat "colsample_bytree" XGB.lit_0_5 XGB.lit_1_0
                   (VBool false) ]) e')
    /\ (float_leb XGB.lit_0_01 eta = true /\ float_leb eta XGB.lit_0_2 = true)
    /\ (float_leb XGB.lit_0_5 subsample = true
        /\ float_leb subsample XGB.lit_1_0 = true)
    /\ 1 <= min_child_weight <= 6
    /\ 3 <= max_depth <= 10
    /\ (float_leb XGB.lit_0_0 gamma = true /\ float_leb gamma XGB.lit_1_0 = true)
    /\ (float_leb XGB.lit_0_5 colsample_bytree = true
        /\ float_leb colsample_bytree XGB.lit_1_0 = true).
Proof using Hreturn Hwithin.
  destruct (suggest_float_returns_within "eta" XGB.lit_0_01 XGB.lit_0_2 (ext w))
    as (eta & e1 & H1 & Heta); [done|].
  destruct (suggest_float_returns_within "subsample" XGB.lit_0_5 XGB.lit_1_0 e1)
    as (subsample & e2 & H2 & Hsub); [done|].
  destruct (suggest_int_returns_within "min_child_weight" 1 6 e2)
    as (mcw & e3 & H3 & Hmcw); [lia|].
  destruct (suggest_int_returns_within "max_depth" 3 10 e3)
    as (md & e4 & H4 & Hmd); [lia|].
  destruct (suggest_float_returns_within "gamma" XGB.lit_0_0 XGB.lit_1_0 e4)
    as (gamma & e5 & H5 & Hgamma); [done|].
  destruct (suggest_float_returns_within "colsample_bytree" XGB.lit_0_5
              XGB.lit_1_0 e5)
    as (cs & e6 & H6 & Hcs); [done|].
  exists eta, subsample, mcw, md, gamma, cs, e6.
  split; [|done].
  unfold XGB.get_params, XGB.suggest_float_plain, XGB.suggest_int_plain.
  erewrite bind_call by (cbn [ext]; exact H1). unfold bind at 1, lift at 1.
  erewrite bind_call by (cbn [ext]; exact H2). unfold bind at 1, lift at 1.
  erewrite bind_call by (cbn [ext]; exact H3). unfold bind at 1, lift at 1.
  erewrite bind_call by (cbn [ext]; exact H4). unfold bind at 1, lift at 1.
  erewrite bind_call by (cbn [ext]; exact H5). unfold bind at 1, lift at 1.
  erewrite bind_call by (cbn [ext]; exact H6). unfold bind at 1, lift at 1.
  unfold ret. cbn [clock stop_requested trace].
  by rewrite <- !app_assoc.
Qed.

End XGBParams.

(** The sampler of the examples, which proposes every lower bound. *)
Lemma get_params_within_fixed_ranges_witness :
  let w := Examples.world_at 0 in
  exists eta subsample min_child_weight max_depth gamma colsample_bytree e',
    XGB.get_params Examples.lower_bound_trial w =
      (Returned [ ("eta", VFloat eta);
                  ("subsample", VFloat subsample);
                  ("min_child_weight", VInt min_child_weight);
                  ("max_depth", VInt max_depth);
                  ("gamma", VFloat gamma);
                  ("colsample_bytree", VFloat colsample_bytree) ],
       mk_world (clock w) (stop_requested w)
         (trace w
            ++ [ EvSuggestFloat "eta" XGB.lit_0_01 XGB.lit_0_2 (VBool false);
                 EvSuggestFloat "subsample" XGB.lit_0_5 XGB.lit_1_0 (VBool false);
                 EvSuggestInt "min_child_weight" (VInt 1) (VInt 6);
                 EvSuggestInt "max_depth" (VInt 3) (VInt 10);
                 EvSuggestFloat "gamma" XGB.lit_0_0 XGB.lit_1_0 (VBool false);
                 EvSuggestFloat "colsample_bytree" XGB.lit_0_5 XGB.lit_1_0
                   (VBool false) ]) e')
    /\ (float_leb XGB.lit_0_01 eta = true /\ float_leb eta XGB.lit_0_2 = true)
    /\ (float_leb XGB.lit_0_5 subsample = true
        /\ float_leb subsample XGB.lit_1_0 = true)
    /\ 1 <= min_child_weight <= 6
    /\ 3 <= max_depth <= 10
    /\ (float_leb XGB.lit_0_0 gamma = true /\ float_leb gamma XGB.lit_1_0 = true)
    /\ (float_leb XGB.lit_0_5 colsample_bytree = true
        /\ float_leb colsample_bytree XGB.lit_1_0 = true).
Proof.
  apply (get_params_within_fixed_ranges Examples.lower_bound_trial
           lower_bound_trial_returns lower_bound_trial_within_bounds
           (Examples.world_at 0)).
Defined.

(* ===================================================================== *)
(** * Further properties of apply_features.py                             *)
(* ===================================================================== *)

Import Columns.

Section Dicts.

Context {V : Type}.
Implicit Types (d other : dict V) (k : string).

Lemma dict_get_set_eq d k v : dict_get (dict_set d k v) k = Some v.
Proof.
  induction d as [|[k0 v0] d IH]; simpl.
  - by rewrite String.eqb_refl.
  - destruct (String.eqb_spec k0 k) as [->|Hne]; simpl.
    + by rewrite String.eqb_refl.
    + by destruct (String.eqb_spec k0 k).
Qed.

Lemma dict_get_set_ne d k v k' : k <> k' -> dict_get (dict_set d k v) k' = dict_get d k'.
Proof.
  intros Hne. induction d as [|[k0 v0] d IH]; simpl.
  - by destruct (String.eqb_spec k k').
  - destruct (String.eqb_spec k0 k) as [->|Hne0]; simpl.
    + by destruct (String.eqb_spec k k').
    + by rewrite IH.
Qed.

Lemma dict_get_None d k : k ∉ keys d -> dict_get d k = None.
Proof.
  unfold keys. induction d as [|[k0 v0] d IH]; simpl; [done|].
  intros [Hne Hk]%not_elem_of_cons.
  destruct (String.eqb_spec k0 k); [congruence|by apply IH].
Qed.

(** [d.update(other)] read back: an entry of [other] wins. *)
Lemma dict_get_update other :
  forall d k,
    NoDup (keys other) ->
    dict_get (dict_update d other) k =
    match dict_get other k with Some v => Some v | None => dict_get d k end.
Proof.
  unfold dict_update, keys.
  induction other as [|[k0 v0] other IH]; intros d k Hnodup; simpl; [done|].
  simpl in Hnodup. apply NoDup_cons in Hnodup as [Hfresh Hnodup].
  rewrite IH by done.
  destruct (String.eqb_spec k0 k) as [->|Hne].
  - by rewrite (dict_get_None other k), dict_get_set_eq.
  - by rewrite dict_get_set_ne.
Qed.

Lemma keys_dict_set_prefix d k v : keys d `prefix_of` keys (dict_set d k v).
Proof.
  unfold keys. induction d as [|[k0 v0] d IH]; simpl.
  - apply prefix_nil.
  - destruct (String.eqb k0 k); simpl; [done|by apply prefix_cons].
Qed.

Lemma keys_dict_update_prefix other : forall d, keys d `prefix_of` keys (dict_update d other).
Proof.
  unfold dict_update.
  induction other as [|[k0 v0] other IH]; intros d; simpl; [done|].
  etrans; [apply (keys_dict_set_prefix d k0 v0)|apply IH].
Qed.

End Dicts.

Section FeatureTable.

Variable env : Helpers.

(** X9.  The table of feature functions is built in three layers: the lag
    functions, overridden by the five calendar functions, overridden by
    the holiday functions.  A name is looked up in the holiday functions
    first, then in the calendar functions, then in the lag functions; the
    lag functions keep their places at the front of the table, and the
    five calendar features are in it whatever the generators return. *)
Theorem feature_table_layers features (horizon : spec_float) lag holiday :
  generate_lag_feature_functions env features horizon = Returned lag ->
  generate_holiday_feature_functions env = Returned holiday ->
  NoDup (keys holiday) ->
  exists table,
    feature_table env features horizon = Returned table
    /\ (forall k,
          dict_get table k =
          match dict_get holiday k with
          | Some f => Some f
          | None =>
              match dict_get time_driven_feature_functions k with
              | Some f => Some f
              | None => dict_get lag k
              end
          end)
    /\ keys lag `prefix_of` keys table
    /\ Forall (fun k => is_Some (dict_get table k))
         ["IsWeekendDay"; "IsWeekDay"; "IsSunday"; "Month"; "Quarter"].
Proof.
  intros Hlag Hholiday Hnodup. unfold feature_table. rewrite Hlag, Hholiday.
  eexists. split; [done|].
  assert (NoDup (keys time_driven_feature_functions)) as Hcal.
  { apply (bool_decide_unpack _). by vm_compute. }
  assert (forall k,
             dict_get (dict_update (dict_update lag time_driven_feature_functions)
                         holiday) k =
             match dict_get holiday k with
             | Some f => Some f
             | None =>
                 match dict_get time_driven_feature_functions k with
                 | Some f => Some f
                 | None => dict_get lag k
                 end
             end) as Hget.
  { intros k. rewrite dict_get_update by done. by rewrite dict_get_update by done. }
  split; [done|]. split.
  - etrans; apply keys_dict_update_prefix.
  - repeat constructor; rewrite Hget; by destruct (dict_get holiday _).
Qed.

End FeatureTable.

(** The generators of the examples: one lag function, one holiday
    function. *)
Lemma feature_table_layers_witness :
  let lag : dict featfunc := [("T-1d", fun x => Returned (s_values x))] in
  let holiday : dict featfunc :=
    [("IsNationalHoliday",
      fun x => Returned (map (fun _ => VBool false) (s_index x)))] in
  exists table,
    feature_table Examples.plain_helpers None default_horizon = Returned table
    /\ (forall k,
          dict_get table k =
          match dict_get holiday k with
          | Some f => Some f
          | None =>
              match dict_get time_driven_feature_functions k with
              | Some f => Some f
              | None => dict_get lag k
              end
          end)
    /\ keys lag `prefix_of` keys table
    /\ Forall (fun k => is_Some (dict_get table k))
         ["IsWeekendDay"; "IsWeekDay"; "IsSunday"; "Month"; "Quarter"].
Proof.
  apply (feature_table_layers Examples.plain_helpers None default_horizon).
  - reflexivity.
  - reflexivity.
  - apply (bool_decide_unpack _). by vm_compute.
Defined.

Section Calendar.

Lemma weekend_is_not_weekday (d : Z) :
  0 <= d <= 6 -> (d / 5 =? 1) = negb (d <? 5).
Proof.
  intros Hd.
  assert (d = 0 \/ d = 1 \/ d = 2 \/ d = 3 \/ d = 4 \/ d = 5 \/ d = 6) as Hcases by lia.
  by destruct Hcases as [->|[->|[->|[->|[->|[->| ->]]]]]].
Qed.

(** X10.  On an index whose weekdays run from 0 (Monday) to 6 (Sunday)
    the three weekday flags have one value per row and agree with each
    other: a row is a weekend day exactly when it is not a week day, and
    every Sunday is a weekend day. *)
Theorem weekday_flags_agree (x : series) :
  weekdays_valid x ->
  exists weekend weekday sunday : list bool,
    IsWeekendDay x = Returned (VBool <$> weekend)
    /\ IsWeekDay x = Returned (VBool <$> weekday)
    /\ IsSunday x = Returned (VBool <$> sunday)
    /\ length weekend = length (s_index x)
    /\ weekend = negb <$> weekday
    /\ Forall2 (fun su we => su = true -> we = true) sunday weekend.
Proof.
  intros Hvalid. unfold weekdays_valid in Hvalid.
  exists ((fun t => ts_weekday t / 5 =? 1) <$> s_index x),
         ((fun t => ts_weekday t <? 5) <$> s_index x),
         ((fun t => ts_weekday t =? 6) <$> s_index x).
  unfold IsWeekendDay, IsWeekDay, IsSunday, on_index.
  split; [by rewrite <- list_fmap_compose|].
  split; [by rewrite <- list_fmap_compose|].
  split; [by rewrite <- list_fmap_compose|].
  split; [by rewrite length_fmap|]. split.
  - rewrite <- list_fmap_compose. apply Forall_fmap_ext_1.
    eapply Forall_impl; [apply Hvalid|]. intros t Ht. simpl.
    by apply weekend_is_not_weekday.
  - apply Forall2_fmap, Forall_Forall2_diag.
    eapply Forall_impl; [apply Hvalid|]. intros t Ht Hsun.
    apply Z.eqb_eq in Hsun. by rewrite Hsun.
Qed.

End Calendar.

(** A Saturday and a Sunday. *)
Lemma weekday_flags_agree_witness :
  let x := mk_series [mk_timestamp 0 5 1 1; mk_timestamp 86400 6 1 1] "load"
             [Examples.one; Examples.two] in
  exists weekend weekday sunday : list bool,
    IsWeekendDay x = Returned (VBool <$> weekend)
    /\ IsWeekDay x = Returned (VBool <$> weekday)
    /\ IsSunday x = Returned (VBool <$> sunday)
    /\ length weekend = length (s_index x)
    /\ weekend = negb <$> weekday
    /\ Forall2 (fun su we => su = true -> we = true) sunday weekend.
Proof.
  apply (weekday_flags_agree
           (mk_series [mk_timestamp 0 5 1 1; mk_timestamp 86400 6 1 1] "load"
              [Examples.one; Examples.two])).
  repeat constructor; simpl; lia.
Defined.

Section Loop.

Variable env : Helpers.
Implicit Types (h : heap) (data : ref) (requested : list string) (fr : frame).
















End Loop.




Section ColumnValues.

Variable env : Helpers.
Implicit Types (h : heap) (data : ref) (requested : list string) (fr : frame).








(** A name of the request that the table has, met on a frame without
    columns. *)
Lemma add_features_loop_no_columns data requested items :
  forall h fr k,
    store h !! data = Some fr ->
    columns fr = [] ->
    k ∈ requested_keys items requested ->
    add_features_loop env data requested items h = (Raised no_columns_error, h).
Proof.
  induction items as [|[key f] items IH]; intros h fr k Hfr Hcols Hk.
  - by apply elem_of_nil in Hk.
  - cbn [add_features_loop]. destruct (str_in key requested) eqn:Hreq; simpl.
    + unfold bind at 1, assign_feature. unfold bind at 1, deref. rewrite Hfr.
      unfold bind at 1, apply_column0, bind at 1, lift at 1, iloc_list1.
      by rewrite Hcols.
    + rewrite requested_keys_skip in Hk by done. by eapply IH.
Qed.

(** X13.  A frame without columns cannot take a feature: as soon as one
    requested name is in the table the call raises pandas' IndexError for
    [iloc[:, [0]]]; no feature function has been applied, the store is as
    it was, and the wind and humidity helpers are not reached. *)
Theorem frame_without_columns_is_rejected
    data requested (horizon : spec_float) h fr table k :
  store h !! data = Some fr ->
  columns fr = [] ->
  feature_table env (Some requested) horizon = Returned table ->
  k ∈ requested_keys table requested ->
  apply_features env data (Some requested) horizon h = (Raised no_columns_error, h).
Proof.
  intros Hfr Hcols Htable Hk.
  by rewrite (apply_features_with_list env _ _ _ table (Raised no_columns_error) _ h)
    by (try done; by eapply add_features_loop_no_columns).
Qed.

Lemma add_features_loop_unknown data requested items h :
  (forall k, k ∈ requested -> k ∉ keys items) ->
  add_features_loop env data requested items h = (Returned tt, h).
Proof.
  intros Hunknown. induction items as [|[key f] items IH]; [done|].
  cbn [add_features_loop].
  destruct (str_in key requested) eqn:Hreq; simpl.
  - apply str_in_elem_of in Hreq. destruct (Hunknown key Hreq).
    unfold keys. simpl. apply elem_of_cons. by left.
  - apply IH. intros k Hk Hin. apply (Hunknown k Hk).
    unfold keys. simpl. apply elem_of_cons. by right.
Qed.

(** X14.  Requested names that the table of lag, calendar and holiday
    functions does not have are passed over without an error: when the
    request holds no name of the table (an empty list included), the loop
    reads and writes nothing, whatever is behind the reference, and the
    call is the wind and humidity helpers on the store as it was. *)
Theorem unknown_names_are_ignored
    data requested (horizon : spec_float) h table :
  feature_table env (Some requested) horizon = Returned table ->
  (forall k, k ∈ requested -> k ∉ keys table) ->
  apply_features env data (Some requested) horizon h =
  weather_steps env data (Some requested) h.
Proof.
  intros Htable Hunknown.
  by rewrite (apply_features_with_list env _ _ _ table (Returned tt) _ h)
    by (try done; by apply add_features_loop_unknown).
Qed.




End ColumnValues.



(** The frame without columns, and a request for IsSunday. *)
Lemma frame_without_columns_is_rejected_witness :
  apply_features Examples.plain_helpers Examples.caller_data (Some ["IsSunday"])
    default_horizon no_columns_heap = (Raised no_columns_error, no_columns_heap).
Proof.
  apply (frame_without_columns_is_rejected Examples.plain_helpers
           Examples.caller_data ["IsSunday"] default_horizon no_columns_heap
           Examples.no_columns_frame plain_table "IsSunday").
  - reflexivity.
  - reflexivity.
  - reflexivity.
  - apply (bool_decide_unpack _). by vm_compute.
Defined.

(** A request for one name the table does not have, on a frame without
    columns. *)
Lemma unknown_names_are_ignored_witness :
  apply_features Examples.plain_helpers Examples.caller_data (Some ["T-7d"])
    default_horizon no_columns_heap =
  weather_steps Examples.plain_helpers Examples.caller_data (Some ["T-7d"])
    no_columns_heap.
Proof.
  apply (unknown_names_are_ignored Examples.plain_helpers Examples.caller_data
           ["T-7d"] default_horizon no_columns_heap plain_table).
  - reflexivity.
  - intros k ->%list_elem_of_singleton. apply (bool_decide_unpack _). by vm_compute.
Defined.




Section FitFailure.

Context {E : Type}.
Variable rt : Runtime E.

(** X17.  The handler of lines 166-171 guards the metric only.  An
    exception raised by [fit], an AttributeError like any other, ends the
    call with that exception: the last call made is [fit], so there is no
    forecast, no lookup of the metric, and nothing is printed. *)
Theorem fit_failure_is_not_caught
    (self : RegressorObjective E) (trial : Trial E) (w : world E)
    (train val test : frame) (e1 : E) (train_y valid_y test_y : series) (x : exn) :
  folds_ready rt self w train val test e1 train_y valid_y test_y ->
  (forall e, exists param evs e',
      runs (get_trial_parameters rt (model_params self) trial) e
        (Returned param) evs e') ->
  (forall e, exists cb e',
      pruning_function self trial (args_eval self) e = (Returned cb, e')) ->
  (forall param e, exists e',
      @set_params E (model self) param e = (Returned tt, e')) ->
  (forall c e, exists e', @fit E (model self) c e = (Raised x, e')) ->
  exists param sampled cb e',
    __call__ rt self trial w =
    (Raised x,
     mk_world (clock w) (stop_requested (after_budget_check self w))
       (trace w ++ budget_events self w ++ split_event self :: sampled
          ++ [EvPruning (args_eval self); EvSetParams param;
              EvFit (fit_arguments self train val train_y valid_y cb)]) e').
Proof.
  intros (Hsplit & Hfirst & Hlast & Htrain & Hval & Htest) Hsample Hprune Hset Hfit.
  destruct (Hsample e1) as (param & sampled & e2 & Hruns).
  destruct (Hprune e2) as (cb & e3 & Hcb).
  destruct (Hset param e3) as (e3' & Hparams).
  destruct (Hfit (fit_arguments self train val train_y valid_y cb) e3')
    as (e4 & Hfitted).
  exists param, sampled, cb, e4.
  rewrite call_unfold.
  rewrite (run_trial_after_split _ _ _ _ train val test e1) by done.
  unfold evaluate_folds.
  unfold bind at 1. rewrite check_column_order_ordered by done.
  unfold bind at 1. rewrite split_x_y_pure, Htrain.
  unfold bind at 1. rewrite split_x_y_pure, Hval.
  unfold bind at 1. rewrite split_x_y_pure, Htest.
  unfold bind at 1. rewrite Hruns.
  erewrite bind_call by (cbn [ext]; exact Hcb). unfold bind at 1, lift at 1.
  erewrite bind_call by (cbn [ext]; exact Hparams). unfold bind at 1, lift at 1.
  fold (fit_arguments self train val train_y valid_y cb).
  erewrite bind_call by (cbn [ext]; exact Hfitted). unfold bind at 1, lift at 1.
  cbn [clock stop_requested trace ext].
  f_equal. f_equal.
  unfold after_budget_check. cbn [trace].
  rewrite <- !app_assoc. cbn [app]. by rewrite <- ?app_assoc.
Qed.

End FitFailure.

(** The regressor of the example raises an AttributeError in [fit]. *)
Lemma fit_failure_is_not_caught_witness :
  let rt := Examples.demo_runtime in
  let self := Examples2.failing_fit_objective in
  let trial := Examples.lower_bound_trial in
  let w := Examples.world_at (Examples.minutes 1) in
  let fold := Examples.ordered_frame in
  let y := Examples2.load_series in
  is_AttributeError Examples2.attribute_error = true
  /\ exists param sampled cb e',
      __call__ rt self trial w =
      (Raised Examples2.attribute_error,
       mk_world (clock w) (stop_requested (after_budget_check self w))
         (trace w ++ budget_events self w ++ split_event self :: sampled
            ++ [EvPruning (args_eval self); EvSetParams param;
                EvFit (fit_arguments self fold fold y y cb)]) e').
Proof.
  split; [reflexivity|].
  apply (fit_failure_is_not_caught Examples.demo_runtime
           Examples2.failing_fit_objective Examples.lower_bound_trial
           (Examples.world_at (Examples.minutes 1))
           Examples.ordered_frame Examples.ordered_frame Examples.ordered_frame 1
           Examples2.load_series Examples2.load_series Examples2.load_series
           Examples2.attribute_error).
  - by repeat split.
  - apply sampler_runs.
    + exact demo_space_keys.
    + exact demo_space_usable.
    + exact lower_bound_trial_returns.
  - intros e. by exists Examples.some_callback, (e + 1).
  - intros param e. by exists (e + 1).
  - intros c e. by exists (e + 1).
Defined.
